(** * Image analysis and suggestion ranking of [src/services/ai_service.py]

    A shallow embedding of [EnhancementDatabase] and [RealEstateAIService].
    Captions are strings of 8-bit characters; [str.lower] is modelled on the
    ASCII letters, every other character is left as it is. *)

From Stdlib Require Import Ascii String PrimFloat.
From stdpp Require Import gmap strings list fin_maps.

Set Warnings "-inexact-float".
Local Open Scope string_scope.
Local Open Scope list_scope.

(** ** Python string operations *)

Module PyStr.

(** [c.lower()] on one character: only [A]..[Z] move. *)
Definition lower_ascii (c : ascii) : ascii :=
  let n := nat_of_ascii c in
  if (65 <=? n)%nat && (n <=? 90)%nat then ascii_of_nat (n + 32) else c.

(** [s.lower()] *)
Fixpoint lower (s : string) : string :=
  match s with
  | EmptyString => EmptyString
  | String c s' => String (lower_ascii c) (lower s')
  end.

(** [s.replace(" ", "_")]: every space becomes an underscore. *)
Fixpoint replace_space_underscore (s : string) : string :=
  match s with
  | EmptyString => EmptyString
  | String c s' =>
      String (if Ascii.eqb c " " then "_"%char else c) (replace_space_underscore s')
  end.

(** [s.replace("_", " ")] *)
Fixpoint replace_underscore_space (s : string) : string :=
  match s with
  | EmptyString => EmptyString
  | String c s' =>
      String (if Ascii.eqb c "_" then " "%char else c) (replace_underscore_space s')
  end.

(** [s.replace(" ", "")]: every space is dropped. *)
Fixpoint strip_spaces (s : string) : string :=
  match s with
  | EmptyString => EmptyString
  | String c s' =>
      if Ascii.eqb c " " then strip_spaces s' else String c (strip_spaces s')
  end.

(** [s.startswith(p)] *)
Fixpoint startswith (p s : string) : bool :=
  match p, s with
  | EmptyString, _ => true
  | String _ _, EmptyString => false
  | String a p', String b s' => Ascii.eqb a b && startswith p' s'
  end.

(** [needle in hay] *)
Fixpoint contains (needle hay : string) : bool :=
  startswith needle hay ||
  match hay with
  | EmptyString => false
  | String _ hay' => contains needle hay'
  end.

End PyStr.


(** ** Exceptions and outcomes of calls *)

(** The subclasses of [Exception] that the modelled code can meet.
    [InvalidReference] is not a Python outcome: it marks a location outside
    the object store, which no Python reference can be. *)
Inductive exn : Type :=
| KeyError (key : string)
| IndexError
| ValueError (value : string)
| ValidationError (field : string)
| ModelLoadingError
| RuntimeError (msg : string)
| FileProcessingError (path : string)
| ImageProcessingError (cause : exn)
| InvalidReference.

Inductive result (A : Type) : Type :=
| Ok (a : A)
| Raise (e : exn).
Arguments Ok {A} a.
Arguments Raise {A} e.

(** ** [src/models/schemas.py] *)

Inductive RoomType : Type :=
| LIVING_ROOM | BEDROOM | KITCHEN | BATHROOM | DINING_ROOM | BALCONY
| GARDEN | POOL_AREA | BUNGALOW | OFFICE | BASEMENT.

Inductive StyleType : Type :=
| MODERN | CONTEMPORARY | TRADITIONAL | RUSTIC | INDUSTRIAL | MINIMALIST
| VINTAGE | SCANDINAVIAN | MEDITERRANEAN | COLONIAL.

Inductive ClutterLevel : Type := LOW | MEDIUM | HIGH.

Inductive SpaceUtilization : Type := UNDERUTILIZED | WELL_UTILIZED | OVERCROWDED.

#[global] Instance ClutterLevel_eq_dec : EqDecision ClutterLevel.
Proof. solve_decision. Defined.

Module RoomType_.
(** The [.value] of a member. *)
Definition value (r : RoomType) : string :=
  match r with
  | LIVING_ROOM => "living_room" | BEDROOM => "bedroom" | KITCHEN => "kitchen"
  | BATHROOM => "bathroom" | DINING_ROOM => "dining_room" | BALCONY => "balcony"
  | GARDEN => "garden" | POOL_AREA => "pool_area" | BUNGALOW => "bungalow"
  | OFFICE => "office" | BASEMENT => "basement"
  end.

Definition members : list RoomType :=
  [LIVING_ROOM; BEDROOM; KITCHEN; BATHROOM; DINING_ROOM; BALCONY;
   GARDEN; POOL_AREA; BUNGALOW; OFFICE; BASEMENT].

(** [RoomType(v)]: the member whose value is [v], [ValueError] otherwise. *)
Definition of_value (v : string) : result RoomType :=
  match find (fun r => String.eqb (value r) v) members with
  | Some r => Ok r
  | None => Raise (ValueError v)
  end.
End RoomType_.

Module StyleType_.
Definition value (s : StyleType) : string :=
  match s with
  | MODERN => "modern" | CONTEMPORARY => "contemporary"
  | TRADITIONAL => "traditional" | RUSTIC => "rustic"
  | INDUSTRIAL => "industrial" | MINIMALIST => "minimalist"
  | VINTAGE => "vintage" | SCANDINAVIAN => "scandinavian"
  | MEDITERRANEAN => "mediterranean" | COLONIAL => "colonial"
  end.

Definition members : list StyleType :=
  [MODERN; CONTEMPORARY; TRADITIONAL; RUSTIC; INDUSTRIAL; MINIMALIST;
   VINTAGE; SCANDINAVIAN; MEDITERRANEAN; COLONIAL].

Definition of_value (v : string) : result StyleType :=
  match find (fun s => String.eqb (value s) v) members with
  | Some s => Ok s
  | None => Raise (ValueError v)
  end.
End StyleType_.

Record ClutterAnalysis : Type := {
  has_clutter : bool;
  has_empty_spaces : bool;
  clutter_level : ClutterLevel;
  space_utilization : SpaceUtilization
}.

Record ImageAnalysisResult : Type := {
  caption : string;
  room_type : RoomType;
  style : StyleType;
  confidence_scores : gmap string float;
  editable_areas : list string;
  clutter_analysis : ClutterAnalysis
}.

Record EnhancementSuggestion : Type := {
  suggestion : string;
  priority : string;
  category : string;
  estimated_impact : string
}.

(** ** The object store

    The suggestion records are Python [dict]s, mutable and shared by
    reference.  A store is the list of the dicts allocated so far, a
    reference is an index into it, and allocation appends. *)

Definition loc : Type := nat.

Definition M (A : Type) : Type := list (gmap string string) -> result A * list (gmap string string).

Definition ret {A} (a : A) : M A := fun h => (Ok a, h).

Definition raise {A} (e : exn) : M A := fun h => (Raise e, h).

Definition bind {A B} (m : M A) (k : A -> M B) : M B :=
  fun h =>
    match m h with
    | (Ok a, h') => k a h'
    | (Raise e, h') => (Raise e, h')
    end.

Declare Scope py_scope.
Delimit Scope py_scope with py.
Notation "x <- m ;; k" := (bind m (fun x => k))
  (at level 20, m at level 99, k at level 200, only parsing) : py_scope.

(** A dict literal [{...}] or [d.copy()] result: a new object. *)
Definition alloc (d : gmap string string) : M loc :=
  fun h => (Ok (length h), h ++ [d]).

(** [d.copy()]: a new dict with the same items. *)
Definition dict_copy (l : loc) : M loc :=
  fun h =>
    match h !! l with
    | Some d => (Ok (length h), h ++ [d])
    | None => (Raise InvalidReference, h)
    end.

(** [d[k]] *)
Definition getitem (l : loc) (k : string) : M string :=
  fun h =>
    match h !! l with
    | Some d =>
        match d !! k with
        | Some v => (Ok v, h)
        | None => (Raise (KeyError k), h)
        end
    | None => (Raise InvalidReference, h)
    end.

(** [d[k] = v] *)
Definition setitem (l : loc) (k v : string) : M unit :=
  fun h =>
    match h !! l with
    | Some d => (Ok tt, <[l := <[k := v]> d]> h)
    | None => (Raise InvalidReference, h)
    end.

(** A list display of dict displays: the dicts are allocated left to right. *)
Fixpoint alloc_list (ds : list (gmap string string)) : M (list loc) :=
  match ds with
  | [] => ret []
  | d :: ds' => (l <- alloc d ;; ls <- alloc_list ds' ;; ret (l :: ls))%py
  end.

(** ** [EnhancementDatabase] *)

Definition record (text prio cat impact : string) : gmap string string :=
  {[ "suggestion" := text; "priority" := prio; "category" := cat;
     "estimated_impact" := impact ]}.

Module EnhancementDatabase.

Definition living_room_modern : list (gmap string string) :=
  [ record "Add a sleek sectional sofa in neutral tones, remove outdated furniture" "high" "furniture" "high";
    record "Install contemporary lighting fixtures, enhance natural light" "medium" "lighting" "medium";
    record "Add modern coffee table with clean lines, declutter surfaces" "medium" "furniture" "medium";
    record "Enhance walls with modern art pieces, remove personal items" "low" "decor" "low" ].

Definition living_room_traditional : list (gmap string string) :=
  [ record "Add classic leather armchair in rich brown, remove clutter" "high" "furniture" "high";
    record "Enhance fireplace with elegant mantelpiece decor, organize books" "medium" "decor" "medium";
    record "Add traditional area rug with warm patterns, remove worn items" "medium" "decor" "medium";
    record "Install classic table lamps, improve ambient lighting" "low" "lighting" "low" ].

Definition living_room_rustic : list (gmap string string) :=
  [ record "Add reclaimed wood coffee table, remove modern elements" "high" "furniture" "high";
    record "Enhance with cozy throw blankets and pillows, declutter" "medium" "decor" "medium";
    record "Add vintage wooden accents, remove plastic items" "medium" "decor" "medium";
    record "Install wrought iron lighting fixtures, create warm ambiance" "low" "lighting" "low" ].

Definition kitchen_modern : list (gmap string string) :=
  [ record "Enhance countertops with quartz surfaces, remove clutter including dishes" "high" "surfaces" "high";
    record "Add stainless steel appliances, remove outdated equipment" "high" "appliances" "high";
    record "Install pendant lighting over island, improve task lighting" "medium" "lighting" "medium";
    record "Add modern bar stools, remove mismatched seating" "low" "furniture" "low" ].

Definition kitchen_traditional : list (gmap string string) :=
  [ record "Enhance with granite countertops, organize cooking utensils" "high" "surfaces" "high";
    record "Add wooden cutting boards and copper accents, remove clutter" "medium" "decor" "medium";
    record "Install classic cabinet hardware, update drawer pulls" "medium" "fixtures" "medium";
    record "Add traditional ceramic backsplash, remove worn tiles" "low" "surfaces" "low" ].

Definition bedroom_modern : list (gmap string string) :=
  [ record "Add platform bed with clean lines, remove personal items" "high" "furniture" "high";
    record "Enhance with minimalist nightstands, declutter surfaces" "medium" "furniture" "medium";
    record "Install contemporary lighting, improve ambient mood" "medium" "lighting" "medium";
    record "Add modern dresser with sleek handles, organize clothing" "low" "furniture" "low" ].

Definition bedroom_traditional : list (gmap string string) :=
  [ record "Add classic wooden bed frame, remove modern elements" "high" "furniture" "high";
    record "Enhance with traditional bedding and pillows, organize linens" "medium" "decor" "medium";
    record "Install elegant table lamps, create warm lighting" "medium" "lighting" "medium";
    record "Add antique dresser with ornate details, declutter" "low" "furniture" "low" ].

Definition bathroom_modern : list (gmap string string) :=
  [ record "Enhance vanity with modern vessel sink, remove personal toiletries" "high" "fixtures" "high";
    record "Add frameless glass shower doors, update outdated fixtures" "medium" "fixtures" "medium";
    record "Install contemporary faucets and hardware, remove rust stains" "medium" "fixtures" "medium";
    record "Add modern mirror with LED lighting, improve visibility" "low" "lighting" "low" ].

Definition bathroom_traditional : list (gmap string string) :=
  [ record "Enhance with classic pedestal sink, organize bathroom items" "high" "fixtures" "high";
    record "Add traditional shower curtain, remove worn fixtures" "medium" "fixtures" "medium";
    record "Install vintage-style faucets, update hardware" "medium" "fixtures" "medium";
    record "Add ornate mirror frame, improve lighting" "low" "lighting" "low" ].

(** [_load_suggestions]: the dict display is evaluated in source order, so
    the records are allocated in the order they are written. *)
Definition _load_suggestions : M (gmap string (gmap string (list loc))) :=
  (lr_m <- alloc_list living_room_modern ;;
   lr_t <- alloc_list living_room_traditional ;;
   lr_r <- alloc_list living_room_rustic ;;
   k_m <- alloc_list kitchen_modern ;;
   k_t <- alloc_list kitchen_traditional ;;
   be_m <- alloc_list bedroom_modern ;;
   be_t <- alloc_list bedroom_traditional ;;
   ba_m <- alloc_list bathroom_modern ;;
   ba_t <- alloc_list bathroom_traditional ;;
   ret ({[ "living_room" := {[ "modern" := lr_m; "traditional" := lr_t; "rustic" := lr_r ]};
           "kitchen" := {[ "modern" := k_m; "traditional" := k_t ]};
           "bedroom" := {[ "modern" := be_m; "traditional" := be_t ]};
           "bathroom" := {[ "modern" := ba_m; "traditional" := ba_t ]} ]}))%py.

(** The record of the default suggestions. *)
Definition default_record : gmap string string :=
  record "Add modern furniture pieces, remove clutter and personal items" "high" "general" "high".

(** [get_suggestions], with [self.suggestions] as [db]. *)
Definition get_suggestions (db : gmap string (gmap string (list loc)))
    (room_type style : string) : M (list loc) :=
  let room_key := PyStr.lower (PyStr.replace_space_underscore room_type) in
  let style_key := PyStr.lower style in
  match db !! room_key with
  | Some styles =>
      match styles !! style_key with
      | Some l => ret l
      | None => ret (default [] (styles !! "modern"))
      end
  | None => (l <- alloc default_record ;; ret [l])%py
  end.

End EnhancementDatabase.

(** ** [RealEstateAIService] *)

Module RealEstateAIService.

Section Service.

(** Decoded images, and the calls into the models, taken as they answer:
    [blip_caption] is the processor, generate and decode sequence of
    [_generate_caption]; [clip_classify image texts] is the processor, model,
    softmax, [argmax] and [.item()] sequence of the two identifiers, giving the
    index of the most likely text and its probability.  Each either returns or
    raises. *)
Variable Image : Type.
Variable blip_caption : Image -> result string.
Variable clip_classify : Image -> list string -> result (nat * float).

(** [self.model_manager.ensure_models_loaded()], [os.path.exists] and
    [Image.open(path).convert("RGB")]. *)
Variable ensure_models_loaded : result unit.
Variable path_exists : string -> bool.
Variable Image_open : string -> result Image.

(** [self.enhancement_db.suggestions] *)
Variable db : gmap string (gmap string (list loc)).

Definition room_types : list string :=
  [ "living room"; "bedroom"; "kitchen"; "bathroom"; "dining room";
    "balcony"; "garden"; "pool area"; "bungalow"; "office"; "basement" ].

Definition style_types : list string :=
  [ "modern"; "contemporary"; "traditional"; "rustic"; "industrial";
    "minimalist"; "vintage"; "scandinavian"; "mediterranean"; "colonial" ].

Definition _generate_caption (image : Image) : string :=
  match blip_caption image with
  | Ok caption => caption
  | Raise _ => "A room interior"
  end.

Definition _identify_room_type (image : Image) (caption : string) : string * float :=
  let room_descriptions :=
    map (fun room_type => "a " +:+ room_type +:+ " in a house") room_types in
  match clip_classify image room_descriptions with
  | Raise _ => ("living room", 0.5%float)
  | Ok (room_idx, confidence) =>
      let caption_lower := PyStr.lower caption in
      match List.find (fun room_type =>
                         PyStr.contains (PyStr.strip_spaces room_type)
                                        (PyStr.strip_spaces caption_lower))
                      room_types with
      | Some room_type => (room_type, 0.9%float)
      | None =>
          if (0.3 <? confidence)%float then
            match room_types !! room_idx with
            | Some room_type => (room_type, confidence)
            | None => ("living room", 0.5%float)
            end
          else ("living room", confidence)
      end
  end.

(** The [style_keywords] dict of [_identify_style], in insertion order. *)
Definition style_keywords : list (string * list string) :=
  [ ("modern", ["modern"; "contemporary"; "sleek"; "minimalist"]);
    ("traditional", ["traditional"; "classic"; "vintage"; "antique"]);
    ("rustic", ["rustic"; "wooden"; "natural"; "country"]);
    ("industrial", ["industrial"; "metal"; "concrete"; "exposed"]) ].

Definition _identify_style (image : Image) (caption : string) : string * float :=
  let style_descriptions :=
    map (fun style => "a " +:+ style +:+ " style interior") style_types in
  match clip_classify image style_descriptions with
  | Raise _ => ("modern", 0.5%float)
  | Ok (style_idx, confidence) =>
      let caption_lower := PyStr.lower caption in
      match List.find (fun '(style, keywords) =>
                         List.existsb (fun keyword => PyStr.contains keyword caption_lower)
                                      keywords)
                      style_keywords with
      | Some (style, _) => (style, 0.9%float)
      | None =>
          if (0.25 <? confidence)%float then
            match style_types !! style_idx with
            | Some style => (style, confidence)
            | None => ("modern", 0.5%float)
            end
          else ("modern", confidence)
      end
  end.

(** The [editable_elements] dict of [_detect_editable_areas], in insertion order. *)
Definition editable_elements : list (string * list string) :=
  [ ("furniture", ["chair"; "sofa"; "table"; "bed"; "dresser"; "cabinet"]);
    ("lighting", ["lamp"; "light"; "chandelier"; "fixture"]);
    ("decor", ["pillow"; "cushion"; "artwork"; "plant"; "vase"]);
    ("surfaces", ["counter"; "countertop"; "floor"; "wall"]);
    ("appliances", ["refrigerator"; "stove"; "microwave"; "dishwasher"]);
    ("fixtures", ["sink"; "faucet"; "shower"; "bathtub"]) ].

Definition _detect_editable_areas (image : Image) (caption : string) : list string :=
  let caption_lower := PyStr.lower caption in
  flat_map (fun '(category, elements) =>
              map (fun element => category +:+ ": " +:+ element)
                  (List.filter (fun element => PyStr.contains element caption_lower)
                               elements))
           editable_elements.

Definition clutter_keywords : list string :=
  [ "messy"; "cluttered"; "disorganized"; "scattered"; "pile"; "stack";
    "dishes"; "papers"; "clothes"; "items"; "stuff"; "things" ].

Definition empty_keywords : list string :=
  [ "empty"; "bare"; "vacant"; "spacious"; "open"; "minimal"; "clean" ].

Definition _analyze_clutter_and_spaces (image : Image) (caption : string) : ClutterAnalysis :=
  let caption_lower := PyStr.lower caption in
  let has_clutter :=
    List.existsb (fun keyword => PyStr.contains keyword caption_lower) clutter_keywords in
  let has_empty_spaces :=
    List.existsb (fun keyword => PyStr.contains keyword caption_lower) empty_keywords in
  let clutter_count :=
    length (List.filter (fun keyword => PyStr.contains keyword caption_lower)
                        clutter_keywords) in
  let clutter_level :=
    if (3 <=? clutter_count)%nat then HIGH
    else if (1 <=? clutter_count)%nat then MEDIUM
    else LOW in
  let space_utilization :=
    if has_empty_spaces then UNDERUTILIZED
    else if has_clutter then OVERCROWDED
    else WELL_UTILIZED in
  {| has_clutter := has_clutter;
     has_empty_spaces := has_empty_spaces;
     clutter_level := clutter_level;
     space_utilization := space_utilization |}.

Definition analyze_image (image_path : string) : result ImageAnalysisResult :=
  match ensure_models_loaded with
  | Raise e => Raise e
  | Ok _ =>
      let attempt : result ImageAnalysisResult :=
        if negb (path_exists image_path) then Raise (FileProcessingError image_path)
        else
          match Image_open image_path with
          | Raise e => Raise e
          | Ok image =>
              let caption := _generate_caption image in
              let '(room_type, room_confidence) := _identify_room_type image caption in
              let '(style, style_confidence) := _identify_style image caption in
              let editable_areas := _detect_editable_areas image caption in
              let clutter_analysis := _analyze_clutter_and_spaces image caption in
              match RoomType_.of_value (PyStr.replace_space_underscore room_type) with
              | Raise e => Raise e
              | Ok room =>
                  match StyleType_.of_value style with
                  | Raise e => Raise e
                  | Ok sty =>
                      Ok {| caption := caption;
                            room_type := room;
                            style := sty;
                            confidence_scores :=
                              {[ "room_type" := room_confidence;
                                 "style" := style_confidence ]};
                            editable_areas := editable_areas;
                            clutter_analysis := clutter_analysis |}
                  end
              end
          end in
      match attempt with
      | Ok analysis => Ok analysis
      | Raise e => Raise (ImageProcessingError e)
      end
  end.

(** The [EnhancementSuggestion] built from an unpacked dict: the four fields
    are required, other keys are ignored.  The error names the first missing
    field. *)
Definition new_EnhancementSuggestion (l : loc) : M EnhancementSuggestion :=
  fun h =>
    match h !! l with
    | None => (Raise InvalidReference, h)
    | Some d =>
        match d !! "suggestion", d !! "priority", d !! "category",
              d !! "estimated_impact" with
        | Some s, Some p, Some c, Some e =>
            (Ok {| suggestion := s; priority := p; category := c;
                   estimated_impact := e |}, h)
        | None, _, _, _ => (Raise (ValidationError "suggestion"), h)
        | _, None, _, _ => (Raise (ValidationError "priority"), h)
        | _, _, None, _ => (Raise (ValidationError "category"), h)
        | _, _, _, None => (Raise (ValidationError "estimated_impact"), h)
        end
    end.

Definition _customize_suggestion (suggestion_data : loc) (analysis : ImageAnalysisResult)
    : M loc :=
  (suggestion <- dict_copy suggestion_data ;;
   _ <- (if has_clutter (clutter_analysis analysis) then
           text <- getitem suggestion "suggestion" ;;
           if PyStr.contains "remove" (PyStr.lower text) then
             p <- getitem suggestion "priority" ;;
             if String.eqb p "low" then setitem suggestion "priority" "medium"
             else
               p' <- getitem suggestion "priority" ;;
               if String.eqb p' "medium" then setitem suggestion "priority" "high"
               else ret tt
           else ret tt
         else ret tt) ;;
   _ <- (if decide (clutter_level (clutter_analysis analysis) = HIGH) then
           text <- getitem suggestion "suggestion" ;;
           if negb (PyStr.contains "remove clutter" (PyStr.lower text)) then
             old <- getitem suggestion "suggestion" ;;
             setitem suggestion "suggestion" (old +:+ ", prioritize decluttering")
           else ret tt
         else ret tt) ;;
   ret suggestion)%py.

(** The loop of [get_enhancement_suggestions] over [suggestions_data]. *)
Fixpoint customize_each (suggestions_data : list loc) (analysis : ImageAnalysisResult)
    : M (list EnhancementSuggestion) :=
  match suggestions_data with
  | [] => ret []
  | suggestion_data :: rest =>
      (customized_suggestion <- _customize_suggestion suggestion_data analysis ;;
       s <- new_EnhancementSuggestion customized_suggestion ;;
       suggestions <- customize_each rest analysis ;;
       ret (s :: suggestions))%py
  end.

Definition get_enhancement_suggestions (analysis : ImageAnalysisResult)
    : M (list EnhancementSuggestion) :=
  let room_type := PyStr.replace_underscore_space (RoomType_.value (room_type analysis)) in
  let style := StyleType_.value (style analysis) in
  (suggestions_data <- EnhancementDatabase.get_suggestions db room_type style ;;
   customize_each suggestions_data analysis)%py.

Definition get_primary_suggestion (analysis : ImageAnalysisResult) : M string :=
  (suggestions <- get_enhancement_suggestions analysis ;;
   let high_priority := List.filter (fun s => String.eqb (priority s) "high") suggestions in
   match high_priority with
   | s :: _ => ret (suggestion s)
   | [] =>
       let medium_priority :=
         List.filter (fun s => String.eqb (priority s) "medium") suggestions in
       match medium_priority with
       | s :: _ => ret (suggestion s)
       | [] =>
           match suggestions with
           | s :: _ => ret (suggestion s)
           | [] => ret "Add modern furniture pieces, remove clutter and personal items"
           end
       end
   end)%py.

End Service.

End RealEstateAIService.

(** ** [ModelManager] *)

Module ModelManager.

Section Manager.

(** Loaded processors and models. *)
Variable Model : Type.

(** The attributes of a [ModelManager] that [load_models] writes. *)
Record t : Type := {
  blip_processor : option Model;
  blip_model : option Model;
  clip_processor : option Model;
  clip_model : option Model;
  _models_loaded : bool
}.

(** What the library calls of one run of [load_models] answer: the four
    [from_pretrained] calls and the two [.to(self.device)] calls. *)
Record Loaders : Type := {
  BlipProcessor_from_pretrained : result Model;
  BlipForConditionalGeneration_from_pretrained : result Model;
  blip_model_to : Model -> result unit;
  CLIPProcessor_from_pretrained : result Model;
  CLIPModel_from_pretrained : result Model;
  clip_model_to : Model -> result unit
}.

(** [__init__] *)
Definition init : t :=
  {| blip_processor := None; blip_model := None; clip_processor := None;
     clip_model := None; _models_loaded := false |}.

Definition load_models (env : Loaders) (self : t) : result unit * t :=
  match BlipProcessor_from_pretrained env with
  | Raise _ => (Raise ModelLoadingError, self)
  | Ok bp =>
  let self :=
    {| blip_processor := Some bp; blip_model := blip_model self;
       clip_processor := clip_processor self; clip_model := clip_model self;
       _models_loaded := _models_loaded self |} in
  match BlipForConditionalGeneration_from_pretrained env with
  | Raise _ => (Raise ModelLoadingError, self)
  | Ok bm =>
  let self :=
    {| blip_processor := blip_processor self; blip_model := Some bm;
       clip_processor := clip_processor self; clip_model := clip_model self;
       _models_loaded := _models_loaded self |} in
  match blip_model_to env bm with
  | Raise _ => (Raise ModelLoadingError, self)
  | Ok _ =>
  match CLIPProcessor_from_pretrained env with
  | Raise _ => (Raise ModelLoadingError, self)
  | Ok cp =>
  let self :=
    {| blip_processor := blip_processor self; blip_model := blip_model self;
       clip_processor := Some cp; clip_model := clip_model self;
       _models_loaded := _models_loaded self |} in
  match CLIPModel_from_pretrained env with
  | Raise _ => (Raise ModelLoadingError, self)
  | Ok cm =>
  let self :=
    {| blip_processor := blip_processor self; blip_model := blip_model self;
       clip_processor := clip_processor self; clip_model := Some cm;
       _models_loaded := _models_loaded self |} in
  match clip_model_to env cm with
  | Raise _ => (Raise ModelLoadingError, self)
  | Ok _ =>
      (Ok tt,
       {| blip_processor := blip_processor self; blip_model := blip_model self;
          clip_processor := clip_processor self; clip_model := clip_model self;
          _models_loaded := true |})
  end end end end end end.

(** The [models_loaded] property. *)
Definition models_loaded (self : t) : bool := _models_loaded self.

Definition ensure_models_loaded (env : Loaders) (self : t) : result unit * t :=
  if negb (_models_loaded self) then load_models env self else (Ok tt, self).

End Manager.

End ModelManager.

(** ** [src/core/exceptions.py] and the exceptions of the web layer *)

Module Exceptions.

(** The subclasses of [RealEstateAIException]. *)
Inductive cls : Type :=
| ValidationError | FileProcessingError | ModelLoadingError | ImageProcessingError
| AuthenticationError | AuthorizationError | ResourceNotFoundError
| ServiceUnavailableError.

Record RealEstateAIException : Type := {
  class : cls;
  message : string;
  status_code : Z
}.

(** The constructors: each class passes its own status code to the base. *)
Definition new (c : cls) (message : string) : RealEstateAIException :=
  {| class := c;
     message := message;
     status_code :=
       match c with
       | ValidationError => 400
       | FileProcessingError => 422
       | ModelLoadingError => 503
       | ImageProcessingError => 422
       | AuthenticationError => 401
       | AuthorizationError => 403
       | ResourceNotFoundError => 404
       | ServiceUnavailableError => 503
       end%Z |}.

(** [fastapi.HTTPException] *)
Record HTTPException : Type := {
  http_status : Z;
  detail : string;
  headers : option (list (string * string))
}.

(** What a [try] of the web layer can catch: an exception of the
    application, an [HTTPException], or any other [Exception], of which only
    [str(e)] is used. *)
Inductive raised : Type :=
| AI (e : RealEstateAIException)
| HTTP (e : HTTPException)
| Other (str : string).

Inductive outcome (E A : Type) : Type :=
| Returns (a : A)
| Raises (e : E).
Arguments Returns {E A} a.
Arguments Raises {E A} e.

End Exceptions.

(** Truth value of an [Optional[str]]: [None] and the empty string are false. *)
Definition truthy (s : option string) : bool :=
  match s with
  | Some s => negb (String.eqb s "")
  | None => false
  end.

(** ** [src/api/dependencies.py] *)

Module Dependencies.

Import Exceptions.

(** [verify_api_key], with [settings.api_key] as [api_key]. *)
Definition verify_api_key (api_key x_api_key : option string)
    : outcome HTTPException bool :=
  if negb (truthy api_key) then Returns true
  else if negb (truthy x_api_key) then
    Raises {| http_status := 401;
              detail := "API key required. Provide X-API-Key header.";
              headers := Some [("WWW-Authenticate", "ApiKey")] |}
  else if negb (bool_decide (x_api_key = api_key)) then
    Raises {| http_status := 401;
              detail := "Invalid API key";
              headers := Some [("WWW-Authenticate", "ApiKey")] |}
  else Returns true.

End Dependencies.

(** ** [src/services/file_service.py] *)

Module FileService.

Import Exceptions.

Section Files.

(** The file system and the image library, as the calls of the service see
    them: a state [World], what [os.path.exists], [os.path.getsize] and
    [Image.open] answer in it (an opened image gives its width, its height
    and what [verify()] does), and what [os.remove], writing a file and
    [uuid.uuid4()] do to it. *)
Variable World : Type.
Variable os_path_exists : World -> string -> bool.
Variable os_path_getsize : World -> string -> outcome string Z.
Variable Image_open : World -> string -> outcome string (Z * Z * outcome string unit).
Variable os_remove : World -> string -> outcome string unit * World.
Variable write_file : World -> string -> list Byte.byte -> outcome string unit * World.
Variable uuid4 : World -> string * World.

(** [Path(p).suffix] and [os.path.join]. *)
Variable path_suffix : string -> string.
Variable os_path_join : string -> string -> string.

(** [settings.max_file_size], [settings.temp_dir], and the two renderings
    that depend on float formatting and on the iteration order of a set:
    [f"{max_mb:.1f}"] and [', '.join(self.supported_formats)]. *)
Variable max_file_size : Z.
Variable temp_dir : string.
Variable max_mb_text : string.
Variable supported_formats_text : string.

Definition supported_formats : gset string :=
  {[ ".jpg"; ".jpeg"; ".png"; ".bmp"; ".tiff"; ".webp" ]}.

Definition max_dimension : Z := 4096.
Definition min_dimension : Z := 32.

Definition validate_image_file (w : World) (file_path : string) : bool * option string :=
  let attempt : outcome string (bool * option string) :=
    if negb (os_path_exists w file_path) then Returns (false, Some "File does not exist")
    else
      match os_path_getsize w file_path with
      | Raises e => Raises e
      | Returns file_size =>
          if (max_file_size <? file_size)%Z then
            Returns (false, Some ("File size exceeds " +:+ max_mb_text +:+ "MB limit"))
          else if (file_size =? 0)%Z then Returns (false, Some "File is empty")
          else
            let file_extension := PyStr.lower (path_suffix file_path) in
            if negb (bool_decide (file_extension ∈ supported_formats)) then
              Returns (false, Some ("Unsupported file format. Supported: "
                                    +:+ supported_formats_text))
            else
              (* the inner [try]: [Some r] is an early [return r] *)
              let inner : outcome string (option (bool * option string)) :=
                match Image_open w file_path with
                | Raises e => Raises e
                | Returns (width, height, verify) =>
                    if (width <? min_dimension)%Z || (height <? min_dimension)%Z then
                      Returns (Some (false, Some "Image too small. Minimum size: 32x32"))
                    else if (max_dimension <? width)%Z || (max_dimension <? height)%Z then
                      Returns (Some (false, Some "Image too large. Maximum size: 4096x4096"))
                    else
                      match verify with
                      | Raises e => Raises e
                      | Returns _ => Returns None
                      end
                end in
              match inner with
              | Raises e => Returns (false, Some ("Invalid image file: " +:+ e))
              | Returns (Some r) => Returns r
              | Returns None => Returns (true, None)
              end
      end in
  match attempt with
  | Returns r => r
  | Raises e => (false, Some ("Validation error: " +:+ e))
  end.

Definition cleanup_file (w : World) (file_path : string) : bool * World :=
  if os_path_exists w file_path then
    match os_remove w file_path with
    | (Returns _, w') => (true, w')
    | (Raises _, w') => (false, w')
    end
  else (false, w).

Definition save_uploaded_file (w : World) (file_content : list Byte.byte)
    (filename content_type : string) : outcome RealEstateAIException string * World :=
  let file_extension := PyStr.lower (path_suffix filename) in
  let '(uuid, w) := uuid4 w in
  let unique_filename := uuid +:+ file_extension in
  let file_path := os_path_join temp_dir unique_filename in
  match write_file w file_path file_content with
  | (Raises e, w) =>
      (Raises (new FileProcessingError ("Failed to save file: " +:+ e)), w)
  | (Returns _, w) =>
      match validate_image_file w file_path with
      | (false, error_message) =>
          let '(_, w) := cleanup_file w file_path in
          let e := new ValidationError
                     ("Invalid image file: " +:+ default "None" error_message) in
          (Raises (new FileProcessingError ("Failed to save file: " +:+ message e)), w)
      | (true, _) => (Returns file_path, w)
      end
  end.

(** An [UploadFile]: what [file.read()] gives, [filename] and [content_type]. *)
Record UploadFile : Type := {
  file_read : outcome string (list Byte.byte);
  filename : option string;
  content_type : option string
}.

Definition create_temp_file_from_upload (w : World) (upload_file : UploadFile)
    : outcome RealEstateAIException string * World :=
  match file_read upload_file with
  | Raises e =>
      (Raises (new FileProcessingError ("Failed to process uploaded file: " +:+ e)), w)
  | Returns content =>
      match save_uploaded_file w content
              (if truthy (filename upload_file)
               then default "" (filename upload_file) else "uploaded_image.jpg")
              (if truthy (content_type upload_file)
               then default "" (content_type upload_file) else "image/jpeg") with
      | (Raises e, w) =>
          (Raises (new FileProcessingError
                     ("Failed to process uploaded file: " +:+ message e)), w)
      | (Returns file_path, w) => (Returns file_path, w)
      end
  end.

End Files.

End FileService.

(** ** [src/api/routes.py] *)

Module Routes.

Import Exceptions.

(** [ProcessImageResponse] *)
Record ProcessImageResponse : Type := {
  success : bool;
  response_message : string;
  analysis : option ImageAnalysisResult;
  enhancement_suggestion : string;
  suggestions : option (list EnhancementSuggestion);
  processing_time : float
}.

Section Endpoints.

(** The injected services, as functions on the state [S] that they share
    (files, models, suggestion records, clock): the methods of the file
    service and of the AI service that the endpoints call, and [time.time()].
    [cleanup_file] returns a bool and does not raise. *)
Variable S : Type.
Variable create_temp_file_from_upload :
  S -> FileService.UploadFile -> outcome raised string * S.
Variable optimize_image_for_processing : S -> string -> outcome raised string * S.
Variable cleanup_file : S -> string -> bool * S.
Variable analyze_image_service : S -> string -> outcome raised ImageAnalysisResult * S.
Variable get_enhancement_suggestions :
  S -> ImageAnalysisResult -> outcome raised (list EnhancementSuggestion) * S.
Variable get_primary_suggestion : S -> ImageAnalysisResult -> outcome raised string * S.
Variable time_time : S -> float.

(** The test on [file.content_type] that opens each endpoint. *)
Definition is_image (file : FileService.UploadFile) : bool :=
  truthy (FileService.content_type file)
  && PyStr.startswith "image/" (default "" (FileService.content_type file)).

(** The two [except] clauses of [process_image] and [analyze_image]. *)
Definition handle {A} (attempt : outcome raised A) : outcome HTTPException A :=
  match attempt with
  | Returns a => Returns a
  | Raises (AI e) =>
      Raises {| http_status := status_code e; detail := message e; headers := None |}
  | Raises _ =>
      Raises {| http_status := 500; detail := "Internal server error"; headers := None |}
  end.

(** The [finally] clause of [process_image] and [analyze_image]. *)
Definition cleanup (s : S) (temp_file_path optimized_file_path : option string) : S :=
  let s := if truthy temp_file_path
           then snd (cleanup_file s (default "" temp_file_path)) else s in
  if truthy optimized_file_path
     && negb (bool_decide (optimized_file_path = temp_file_path))
  then snd (cleanup_file s (default "" optimized_file_path)) else s.

Definition analyze_image (s : S) (file : FileService.UploadFile)
    : outcome HTTPException ImageAnalysisResult * S :=
  let '(attempt, temp_file_path, optimized_file_path, s) :=
    if negb (is_image file) then
      (Raises (HTTP {| http_status := 400; detail := "File must be an image";
                       headers := None |}), None, None, s)
    else
      match create_temp_file_from_upload s file with
      | (Raises e, s) => (Raises e, None, None, s)
      | (Returns temp, s) =>
          match optimize_image_for_processing s temp with
          | (Raises e, s) => (Raises e, Some temp, None, s)
          | (Returns optimized, s) =>
              match analyze_image_service s optimized with
              | (Raises e, s) => (Raises e, Some temp, Some optimized, s)
              | (Returns analysis, s) =>
                  (Returns analysis, Some temp, Some optimized, s)
              end
          end
      end in
  (handle attempt, cleanup s temp_file_path optimized_file_path).

Definition process_image (s : S) (file : FileService.UploadFile)
    : outcome HTTPException ProcessImageResponse * S :=
  let start_time := time_time s in
  let '(attempt, temp_file_path, optimized_file_path, s) :=
    if negb (is_image file) then
      (Raises (HTTP {| http_status := 400; detail := "File must be an image";
                       headers := None |}), None, None, s)
    else
      match create_temp_file_from_upload s file with
      | (Raises e, s) => (Raises e, None, None, s)
      | (Returns temp, s) =>
          match optimize_image_for_processing s temp with
          | (Raises e, s) => (Raises e, Some temp, None, s)
          | (Returns optimized, s) =>
              match analyze_image_service s optimized with
              | (Raises e, s) => (Raises e, Some temp, Some optimized, s)
              | (Returns analysis, s) =>
                  match get_enhancement_suggestions s analysis with
                  | (Raises e, s) => (Raises e, Some temp, Some optimized, s)
                  | (Returns suggestions, s) =>
                      match get_primary_suggestion s analysis with
                      | (Raises e, s) => (Raises e, Some temp, Some optimized, s)
                      | (Returns primary_suggestion, s) =>
                          let processing_time := (time_time s - start_time)%float in
                          (Returns {| success := true;
                                      response_message := "Image processed successfully";
                                      analysis := Some analysis;
                                      enhancement_suggestion := primary_suggestion;
                                      suggestions := Some suggestions;
                                      processing_time := processing_time |},
                           Some temp, Some optimized, s)
                      end
                  end
              end
          end
      end in
  (handle attempt, cleanup s temp_file_path optimized_file_path).

End Endpoints.

End Routes.

(** ** The loaded knowledge base *)

(** [EnhancementDatabase()] run on the empty store: the service's database
    object and the store that holds its records. *)
Definition kb_db : gmap string (gmap string (list loc)) :=
  match fst (EnhancementDatabase._load_suggestions []) with
  | Ok db => db
  | Raise _ => ∅
  end.

Definition kb_store : list (gmap string string) :=
  snd (EnhancementDatabase._load_suggestions []).

(** ** Vocabulary of the statements *)

(** [x] is the first entry of [l], in list order, that satisfies [P]. *)
Definition first_such {A} (P : A -> Prop) (l : list A) (x : A) : Prop :=
  exists pre post, l = pre ++ x :: post /\ P x /\ Forall (fun y => ~ P y) pre.

(** One step up the priority scale; [high] and any other string stay. *)
Definition bump (prio : string) : string :=
  if String.eqb prio "low" then "medium"
  else if String.eqb prio "medium" then "high"
  else prio.

(** The priority and the text of a record after customization for [analysis]. *)
Definition customized_priority (analysis : ImageAnalysisResult) (text prio : string) : string :=
  if has_clutter (clutter_analysis analysis)
     && PyStr.contains "remove" (PyStr.lower text)
  then bump prio else prio.

Definition customized_text (analysis : ImageAnalysisResult) (text : string) : string :=
  if bool_decide (clutter_level (clutter_analysis analysis) = HIGH)
     && negb (PyStr.contains "remove clutter" (PyStr.lower text))
  then text +:+ ", prioritize decluttering" else text.

(** A stored record that [EnhancementSuggestion] accepts. *)
Definition well_formed (d : gmap string string) : Prop :=
  is_Some (d !! "suggestion") /\ is_Some (d !! "priority") /\
  is_Some (d !! "category") /\ is_Some (d !! "estimated_impact").

(** Every reference of the database leads to a well-formed record of the store. *)
Definition db_wf (db : gmap string (gmap string (list loc)))
    (h : list (gmap string string)) : Prop :=
  map_Forall (fun _ styles =>
    map_Forall (fun _ ls =>
      Forall (fun l => match h !! l with
                       | Some d => well_formed d
                       | None => False
                       end) ls) styles) db.

(** The record [d] after customization for [analysis], as a dict and as an
    [EnhancementSuggestion]. *)
Definition customized_record (analysis : ImageAnalysisResult) (d : gmap string string)
    : gmap string string :=
  let text := default "" (d !! "suggestion") in
  let prio := default "" (d !! "priority") in
  <["suggestion" := customized_text analysis text]>
    (<["priority" := customized_priority analysis text prio]> d).

Definition customized_suggestion (analysis : ImageAnalysisResult) (d : gmap string string)
    : EnhancementSuggestion :=
  let text := default "" (d !! "suggestion") in
  let prio := default "" (d !! "priority") in
  {| suggestion := customized_text analysis text;
     priority := customized_priority analysis text prio;
     category := default "" (d !! "category");
     estimated_impact := default "" (d !! "estimated_impact") |}.

(** The clutter levels and the priority strings as numbers, for comparing. *)
Definition level_rank (c : ClutterLevel) : nat :=
  match c with LOW => 0 | MEDIUM => 1 | HIGH => 2 end.

Definition priority_rank (prio : string) : nat :=
  if String.eqb prio "high" then 2
  else if String.eqb prio "medium" then 1
  else 0.

(** The records that the loaded knowledge base holds for a room and a
    style: the style's list where the room has one, the room's "modern" list
    otherwise, and the default record for a room without entry. *)
Definition kb_records (room : RoomType) (sty : StyleType) : list (gmap string string) :=
  match room, sty with
  | LIVING_ROOM, TRADITIONAL => EnhancementDatabase.living_room_traditional
  | LIVING_ROOM, RUSTIC => EnhancementDatabase.living_room_rustic
  | LIVING_ROOM, _ => EnhancementDatabase.living_room_modern
  | KITCHEN, TRADITIONAL => EnhancementDatabase.kitchen_traditional
  | KITCHEN, _ => EnhancementDatabase.kitchen_modern
  | BEDROOM, TRADITIONAL => EnhancementDatabase.bedroom_traditional
  | BEDROOM, _ => EnhancementDatabase.bedroom_modern
  | BATHROOM, TRADITIONAL => EnhancementDatabase.bathroom_traditional
  | BATHROOM, _ => EnhancementDatabase.bathroom_modern
  | _, _ => [EnhancementDatabase.default_record]
  end.

(** A manager whose flag, when set, stands for four loaded objects. *)
Definition manager_ready {Model : Type} (m : ModelManager.t Model) : Prop :=
  ModelManager._models_loaded Model m = true ->
  is_Some (ModelManager.blip_processor Model m) /\
  is_Some (ModelManager.blip_model Model m) /\
  is_Some (ModelManager.clip_processor Model m) /\
  is_Some (ModelManager.clip_model Model m).

(** * Properties *)

Import RealEstateAIService.

(** ** Lists: first match of a search, head of a selection *)

Section ListFacts.
Context {A : Type}.
Implicit Types (p : A -> bool) (l : list A).

Lemma find_Some_split p l x :
  List.find p l = Some x ->
  exists pre post, l = pre ++ x :: post /\ p x = true /\ Forall (fun y => p y = false) pre.
Proof.
  induction l as [|a l IH]; simpl; [discriminate|].
  destruct (p a) eqn:Ha.
  - intros [= <-]. exists [], l. auto.
  - intros Hf. destruct (IH Hf) as (pre & post & -> & Hx & Hpre).
    exists (a :: pre), post. repeat split; auto.
Qed.

Lemma find_None_all p l :
  List.find p l = None <-> Forall (fun y => p y = false) l.
Proof.
  induction l as [|a l IH]; simpl.
  - split; auto.
  - destruct (p a) eqn:Ha; split.
    + discriminate.
    + intros H. inversion H; congruence.
    + intros H. constructor; [done | by apply IH].
    + intros H. inversion H; by apply IH.
Qed.

Lemma filter_cons_split p l x rest :
  List.filter p l = x :: rest ->
  exists pre post, l = pre ++ x :: post /\ p x = true /\ Forall (fun y => p y = false) pre.
Proof.
  induction l as [|a l IH]; simpl; [discriminate|].
  destruct (p a) eqn:Ha.
  - intros [= <- _]. exists [], l. auto.
  - intros Hf. destruct (IH Hf) as (pre & post & -> & Hx & Hpre).
    exists (a :: pre), post. repeat split; auto.
Qed.

Lemma filter_nil_all p l :
  List.filter p l = [] <-> Forall (fun y => p y = false) l.
Proof.
  induction l as [|a l IH]; simpl.
  - split; auto.
  - destruct (p a) eqn:Ha; split.
    + discriminate.
    + intros H. inversion H; congruence.
    + intros H. constructor; [done | by apply IH].
    + intros H. inversion H; by apply IH.
Qed.

Lemma elem_of_bool_filter p l x :
  x ∈ List.filter p l <-> x ∈ l /\ p x = true.
Proof.
  rewrite !list_elem_of_In. apply filter_In.
Qed.

Lemma bool_filter_sublist p l : sublist (List.filter p l) l.
Proof.
  induction l as [|a l IH]; simpl; [constructor|].
  destruct (p a); by constructor.
Qed.

Lemma existsb_elem_of p l :
  List.existsb p l = true <-> exists x, x ∈ l /\ p x = true.
Proof.
  rewrite existsb_exists. by setoid_rewrite list_elem_of_In.
Qed.

Lemma length_filter_pos p l :
  (1 <= length (List.filter p l))%nat <-> exists x, x ∈ l /\ p x = true.
Proof.
  split.
  - destruct (List.filter p l) as [|x r] eqn:E; simpl; [lia|]. intros _.
    exists x. apply elem_of_bool_filter. rewrite E. left.
  - intros (x & Hx & Hp).
    assert (Hin : x ∈ List.filter p l) by by apply elem_of_bool_filter.
    destruct (List.filter p l); [by apply elem_of_nil in Hin | simpl; lia].
Qed.

Lemma length_filter_three `{!EqDecision A} p l :
  NoDup l ->
  (3 <= length (List.filter p l))%nat <->
  exists a b c, a <> b /\ a <> c /\ b <> c /\
    (a ∈ l /\ p a = true) /\ (b ∈ l /\ p b = true) /\ (c ∈ l /\ p c = true).
Proof.
  intros Hnd.
  assert (Hndf : NoDup (List.filter p l)) by (eapply sublist_NoDup; [done | apply bool_filter_sublist]).
  split.
  - destruct (List.filter p l) as [|a [|b [|c r]]] eqn:E; simpl; try lia. intros _.
    apply NoDup_cons in Hndf as [Ha Hndf]. apply NoDup_cons in Hndf as [Hb _].
    exists a, b, c.
    assert (Hin : forall x, x ∈ a :: b :: c :: r -> x ∈ l /\ p x = true)
      by (intros x; rewrite <- E; apply elem_of_bool_filter).
    apply not_elem_of_cons in Ha as [Hab Ha].
    apply not_elem_of_cons in Ha as [Hac _].
    apply not_elem_of_cons in Hb as [Hbc _].
    repeat split; try done; apply Hin; rewrite !elem_of_cons; auto.
  - intros (a & b & c & Hab & Hac & Hbc & Ha & Hb & Hc).
    assert (Hsub : [a; b; c] ⊆+ List.filter p l).
    { apply NoDup_submseteq.
      - rewrite !NoDup_cons, !not_elem_of_cons.
        repeat split; auto using not_elem_of_nil, NoDup_nil_2.
      - intros x Hx. apply elem_of_bool_filter.
        rewrite !elem_of_cons in Hx.
        destruct Hx as [->|[->|[->|Hx]]]; [done..|by apply elem_of_nil in Hx]. }
    apply submseteq_length in Hsub. simpl in Hsub. lia.
Qed.

End ListFacts.

(** ** Strings: [in] is the substring relation *)

Lemma startswith_spec p s :
  PyStr.startswith p s = true <-> exists post, s = p +:+ post.
Proof.
  revert s. induction p as [|a p IH]; intros s; simpl.
  - split; eauto.
  - destruct s as [|b s]; simpl.
    + split; [discriminate | intros [post [=]]].
    + rewrite andb_true_iff, Ascii.eqb_eq, IH. split.
      * intros [-> [post ->]]. by exists post.
      * intros [post [= -> ->]]. eauto.
Qed.

Lemma contains_spec needle hay :
  PyStr.contains needle hay = true <->
  exists pre post, hay = pre +:+ needle +:+ post.
Proof.
  induction hay as [|c hay IH]; simpl.
  - rewrite orb_false_r, startswith_spec. split.
    + intros [post E]. by exists "", post.
    + intros (pre & post & E). destruct pre; [by exists post | discriminate].
  - rewrite orb_true_iff, startswith_spec, IH. split.
    + intros [[post E] | (pre & post & ->)].
      * by exists "", post.
      * by exists (String c pre), post.
    + intros (pre & post & E). destruct pre as [|c' pre]; simpl in E.
      * left. by exists post.
      * right. injection E as -> ->. by exists pre, post.
Qed.

(** ** Clutter and space analysis *)

Lemma clutter_keywords_NoDup : NoDup clutter_keywords.
Proof. apply (bool_decide_unpack _). vm_compute. exact I. Qed.

(** C4. For every caption, [_analyze_clutter_and_spaces] sets [has_clutter]
    exactly when some clutter keyword is a substring of the lowercased
    caption and [has_empty_spaces] exactly when some empty-space keyword is;
    [clutter_level] is [HIGH] exactly when three distinct clutter keywords
    occur, [MEDIUM] when one occurs but not three, [LOW] when none does;
    [space_utilization] is [UNDERUTILIZED] if [has_empty_spaces], else
    [OVERCROWDED] if [has_clutter], else [WELL_UTILIZED].  Hence clutter
    gives a level of medium or high, and empty spaces give underutilized even
    when clutter is present too. *)
Theorem analyze_clutter_and_spaces_spec (Image : Type) (image : Image) (text : string) :
  let r := _analyze_clutter_and_spaces Image image text in
  let occurs := fun k => PyStr.contains k (PyStr.lower text) = true in
  let three_occur :=
    exists a b c, a <> b /\ a <> c /\ b <> c /\
      (a ∈ clutter_keywords /\ occurs a) /\
      (b ∈ clutter_keywords /\ occurs b) /\
      (c ∈ clutter_keywords /\ occurs c) in
  (has_clutter r = true <-> exists k, k ∈ clutter_keywords /\ occurs k) /\
  (has_empty_spaces r = true <-> exists k, k ∈ empty_keywords /\ occurs k) /\
  (clutter_level r = HIGH <-> three_occur) /\
  (clutter_level r = MEDIUM <->
     (exists k, k ∈ clutter_keywords /\ occurs k) /\ ~ three_occur) /\
  (clutter_level r = LOW <-> ~ exists k, k ∈ clutter_keywords /\ occurs k) /\
  space_utilization r =
    (if has_empty_spaces r then UNDERUTILIZED
     else if has_clutter r then OVERCROWDED else WELL_UTILIZED) /\
  (has_clutter r = true -> clutter_level r = MEDIUM \/ clutter_level r = HIGH) /\
  (has_empty_spaces r = true -> space_utilization r = UNDERUTILIZED).
Proof.
  intros r occurs three_occur.
  set (p := fun keyword => PyStr.contains keyword (PyStr.lower text)).
  set (n := length (List.filter p clutter_keywords)).
  assert (Hc : has_clutter r = List.existsb p clutter_keywords) by reflexivity.
  assert (He : has_empty_spaces r = List.existsb p empty_keywords) by reflexivity.
  assert (Hl : clutter_level r =
                 if (3 <=? n)%nat then HIGH else if (1 <=? n)%nat then MEDIUM else LOW)
    by reflexivity.
  assert (Hs : space_utilization r =
                 if has_empty_spaces r then UNDERUTILIZED
                 else if has_clutter r then OVERCROWDED else WELL_UTILIZED)
    by reflexivity.
  assert (H3 : (3 <= n)%nat <-> three_occur)
    by exact (length_filter_three p clutter_keywords clutter_keywords_NoDup).
  assert (H1 : (1 <= n)%nat <-> exists k, k ∈ clutter_keywords /\ occurs k)
    by exact (length_filter_pos p clutter_keywords).
  assert (Hc' : has_clutter r = true <-> exists k, k ∈ clutter_keywords /\ occurs k)
    by (rewrite Hc; apply existsb_elem_of).
  clearbody r n. rewrite Hl, Hs.
  split; [exact Hc'|].
  split; [rewrite He; apply existsb_elem_of|].
  rewrite <- H3, <- H1, Hc', <- H1. clear H3 H1 Hc' Hc He Hl Hs.
  assert (Hunder : has_empty_spaces r = true ->
                   (if has_empty_spaces r then UNDERUTILIZED
                    else if has_clutter r then OVERCROWDED else WELL_UTILIZED)
                   = UNDERUTILIZED) by (by intros ->).
  destruct (Nat.leb_spec 3 n) as [Hn3|Hn3]; [|destruct (Nat.leb_spec 1 n) as [Hn1|Hn1]].
  - (* three or more keywords occur *)
    repeat split; auto with lia; try discriminate; intros [_ ?]; lia.
  - (* one or two keywords occur *)
    repeat split; auto with lia; try discriminate; lia.
  - (* no keyword occurs *)
    repeat split; auto with lia; try discriminate; try lia; intros [? _]; lia.
Qed.

(** ** Editable areas *)

(** Every entry the detector can produce, in category-then-keyword order. *)
Lemma editable_entries_NoDup :
  NoDup (flat_map (fun '(category, elements) =>
                     map (fun element => category +:+ ": " +:+ element) elements)
                  editable_elements).
Proof. apply (bool_decide_unpack _). vm_compute. exact I. Qed.

Lemma flat_map_sublist {A B} (f g : A -> list B) (l : list A) :
  (forall a, sublist (f a) (g a)) -> sublist (flat_map f l) (flat_map g l).
Proof.
  intros Hfg. induction l as [|a l IH]; simpl; [constructor|].
  by apply sublist_app.
Qed.

Lemma map_sublist {A B} (f : A -> B) (l k : list A) :
  sublist l k -> sublist (map f l) (map f k).
Proof. induction 1; simpl; by constructor. Qed.

(** Counterexample to C8 as written.  The entry format ["category:keyword"]
    is not the one the code writes: on the caption ["a chair"] the detector
    returns ["furniture: chair"], with a space after the colon. *)
Lemma detect_editable_areas_colon_space :
  _detect_editable_areas unit tt "a chair" = ["furniture: chair"] /\
  _detect_editable_areas unit tt "a chair" <> ["furniture:chair"].
Proof. split; [reflexivity | discriminate]. Qed.

(** C8 (amended). For every caption, [_detect_editable_areas] returns
    exactly the entries ["category: keyword"] (a colon and one space) of the
    pairs of the six category keyword lists whose keyword is a substring of
    the lowercased caption, in category-then-keyword enumeration order and
    without duplicates; running it again on the same caption gives the same
    list. *)
Theorem detect_editable_areas_spec (Image : Type) (image : Image) (text : string) :
  let out := _detect_editable_areas Image image text in
  let enumeration :=
    flat_map (fun '(category, elements) =>
                map (fun element => category +:+ ": " +:+ element) elements)
             editable_elements in
  length editable_elements = 6%nat /\
  (forall e, e ∈ out <->
     exists category elements keyword,
       (category, elements) ∈ editable_elements /\ keyword ∈ elements /\
       PyStr.contains keyword (PyStr.lower text) = true /\
       e = category +:+ ": " +:+ keyword) /\
  sublist out enumeration /\
  NoDup out /\
  _detect_editable_areas Image image text = out.
Proof.
  intros out enumeration.
  assert (Hsub : sublist out enumeration).
  { apply flat_map_sublist. intros [category elements].
    apply map_sublist, bool_filter_sublist. }
  split; [reflexivity|]. split; [|split; [done|split; [|done]]].
  - intros e. unfold out, _detect_editable_areas.
    rewrite list_elem_of_In, in_flat_map. split.
    + intros ([category elements] & Hin & He).
      apply in_map_iff in He as (keyword & <- & Hk).
      apply filter_In in Hk as [Hk Hocc].
      exists category, elements, keyword.
      by rewrite !list_elem_of_In.
    + intros (category & elements & keyword & Hin & Hk & Hocc & ->).
      exists (category, elements). rewrite <- list_elem_of_In. split; [done|].
      apply in_map_iff. exists keyword. split; [done|].
      apply filter_In. by rewrite <- list_elem_of_In.
  - eapply sublist_NoDup; [apply editable_entries_NoDup | exact Hsub].
Qed.

(** ** Room type and style identification *)

Lemma find_first_such {A} (p : A -> bool) (l : list A) (x : A) :
  List.find p l = Some x <-> first_such (fun y => p y = true) l x.
Proof.
  split.
  - intros H. destruct (find_Some_split p l x H) as (pre & post & -> & Hx & Hpre).
    exists pre, post. repeat split; [done|].
    eapply Forall_impl; [exact Hpre|]. simpl. intros y ->. discriminate.
  - intros (pre & post & -> & Hx & Hpre).
    induction pre as [|a pre IH]; simpl.
    + by rewrite Hx.
    + inversion Hpre as [|? ? Ha Hpre']; subst.
      destruct (p a); [by destruct Ha | by apply IH].
Qed.

Lemma find_is_Some {A} (p : A -> bool) (l : list A) :
  (exists x, x ∈ l /\ p x = true) -> exists x, List.find p l = Some x.
Proof.
  intros (x & Hin & Hx). destruct (List.find p l) as [y|] eqn:E; [eauto|].
  apply find_None_all in E. rewrite Forall_forall in E.
  specialize (E x Hin). congruence.
Qed.

Lemma find_None_iff {A} (p : A -> bool) (l : list A) :
  List.find p l = None <-> forall x, x ∈ l -> p x <> true.
Proof.
  rewrite find_None_all, Forall_forall.
  split; intros H x Hx; specialize (H x Hx); by destruct (p x).
Qed.

(** Counterexample to C1 as written.  The caption is scanned inside the
    [try] block, after the classification call: when that call raises, the
    scan is never reached and the [except] clause answers "living room"
    with confidence 0.5, although the caption names the kitchen.  So the
    keyword rule does not hold for every image and caption, only when the
    classification call returns. *)
Lemma identify_room_type_classifier_raises :
  let clip_classify := fun (_ : unit) (_ : list string) =>
    @Raise (nat * float) (RuntimeError "CUDA out of memory") in
  let occurs := fun text r =>
    PyStr.contains (PyStr.strip_spaces r) (PyStr.strip_spaces (PyStr.lower text)) = true in
  "kitchen" ∈ room_types /\ occurs "a kitchen" "kitchen" /\
  _identify_room_type unit clip_classify tt "a kitchen" = ("living room", 0.5%float) /\
  ~ (forall (clip_classify : unit -> list string -> result (nat * float)) (text : string),
       (exists r, r ∈ room_types /\ occurs text r) ->
       exists r, r ∈ room_types /\ occurs text r /\
         _identify_room_type unit clip_classify tt text = (r, 0.9%float)).
Proof.
  intros clip_classify occurs.
  assert (Hin : "kitchen" ∈ room_types).
  { unfold room_types. rewrite !elem_of_cons. right. right. by left. }
  split; [exact Hin|]. split; [reflexivity|]. split; [reflexivity|].
  intros H.
  destruct (H clip_classify "a kitchen") as (r & _ & _ & Hout).
  { exists "kitchen". split; [exact Hin | reflexivity]. }
  assert (Hc : snd (_identify_room_type unit clip_classify tt "a kitchen") = 0.9%float)
    by (by rewrite Hout).
  assert (Hlt : (snd (_identify_room_type unit clip_classify tt "a kitchen") <? 0.7)%float
                = (0.9 <? 0.7)%float) by (by rewrite Hc).
  vm_compute in Hlt. discriminate Hlt.
Qed.

(** C1 (amended). When the classification call returns index [room_idx] with
    probability [confidence]: if the caption, lowercased and with its spaces
    removed, contains the name (spaces removed) of some entry of the
    11-entry room-type list, [_identify_room_type] returns such a room type,
    the first one in list order, with confidence exactly 0.9, whatever the
    classifier returned; if no name occurs it returns the arg-max room type
    when its probability exceeds 0.3 and "living room" otherwise, with the
    classifier's probability. *)
Theorem identify_room_type_spec (Image : Type)
    (clip_classify : Image -> list string -> result (nat * float))
    (image : Image) (text : string) (room_idx : nat) (confidence : float) :
  clip_classify image (map (fun r => "a " +:+ r +:+ " in a house") room_types)
    = Ok (room_idx, confidence) ->
  let occurs := fun r =>
    PyStr.contains (PyStr.strip_spaces r) (PyStr.strip_spaces (PyStr.lower text)) = true in
  let out := _identify_room_type Image clip_classify image text in
  length room_types = 11%nat /\
  ((exists r, r ∈ room_types /\ occurs r) ->
     exists r, r ∈ room_types /\ occurs r /\ out = (r, 0.9%float)) /\
  (forall r, first_such occurs room_types r -> out = (r, 0.9%float)) /\
  ((forall r, r ∈ room_types -> ~ occurs r) -> (room_idx < length room_types)%nat ->
     exists r, room_types !! room_idx = Some r /\
       out = (if (0.3 <? confidence)%float then r else "living room", confidence)).
Proof.
  intros Hclip occurs out.
  set (p := fun r => PyStr.contains (PyStr.strip_spaces r)
                                    (PyStr.strip_spaces (PyStr.lower text))).
  assert (Hout : out =
    match List.find p room_types with
    | Some r => (r, 0.9%float)
    | None =>
        if (0.3 <? confidence)%float then
          match room_types !! room_idx with
          | Some r => (r, confidence)
          | None => ("living room", 0.5%float)
          end
        else ("living room", confidence)
    end).
  { unfold out, _identify_room_type. by rewrite Hclip. }
  clearbody out. split; [reflexivity|]. split; [|split].
  - intros Hex. destruct (find_is_Some p room_types Hex) as [r Hr].
    exists r. rewrite Hout, Hr.
    apply find_some in Hr as [Hin Hp]. by rewrite list_elem_of_In.
  - intros r Hr. apply (find_first_such p) in Hr. by rewrite Hout, Hr.
  - intros Hnone Hidx. apply (find_None_iff p) in Hnone. rewrite Hout, Hnone.
    destruct (lookup_lt_is_Some_2 room_types room_idx Hidx) as [r Hr].
    exists r. split; [done|]. rewrite Hr. by destruct (0.3 <? confidence)%float.
Qed.

Lemma identify_room_type_spec_witness :
  let clip_classify := fun (_ : unit) (_ : list string) => Ok (2%nat, 0.8%float) in
  clip_classify tt (map (fun r => "a " +:+ r +:+ " in a house") room_types)
    = Ok (2%nat, 0.8%float) /\
  _identify_room_type unit clip_classify tt "a modern living room with a sofa"
    = ("living room", 0.9%float).
Proof.
  intros clip_classify. split; [reflexivity|].
  apply (identify_room_type_spec unit clip_classify tt
           "a modern living room with a sofa" 2 0.8%float);
    [reflexivity |].
  exists [], (tail room_types). split; [reflexivity|]. split; [reflexivity|constructor].
Defined.

(** The example of the specification: the caption names the living room, so
    every classifier output is overridden. *)
Lemma identify_room_type_sofa (Image : Type)
    (clip_classify : Image -> list string -> result (nat * float))
    (image : Image) (room_idx : nat) (confidence : float) :
  clip_classify image (map (fun r => "a " +:+ r +:+ " in a house") room_types)
    = Ok (room_idx, confidence) ->
  _identify_room_type Image clip_classify image "a modern living room with a sofa"
    = ("living room", 0.9%float).
Proof. intros H. unfold _identify_room_type. by rewrite H. Qed.

(** When several room names occur, the list order decides, not the caption
    order. *)
Lemma identify_room_type_two_rooms (Image : Type)
    (clip_classify : Image -> list string -> result (nat * float))
    (image : Image) (room_idx : nat) (confidence : float) :
  clip_classify image (map (fun r => "a " +:+ r +:+ " in a house") room_types)
    = Ok (room_idx, confidence) ->
  _identify_room_type Image clip_classify image "A bedroom next to the living room"
    = ("living room", 0.9%float).
Proof. intros H. unfold _identify_room_type. by rewrite H. Qed.

(** Counterexample to C5 as written.  The synonym table has entries for
    four of the ten styles only:
    "scandinavian" has none, so a caption that names it falls through to the
    classifier, and "vintage" is a synonym of "traditional", not a style of
    the table. *)
Lemma style_keywords_four_styles :
  ~ (forall s, s ∈ style_types -> exists keywords, (s, keywords) ∈ style_keywords) /\
  _identify_style unit (fun _ _ => Ok (0%nat, 0.1%float)) tt "a scandinavian interior"
    = ("modern", 0.1%float) /\
  _identify_style unit (fun _ _ => Ok (0%nat, 0.1%float)) tt "a vintage interior"
    = ("traditional", 0.9%float).
Proof.
  split; [|split; reflexivity].
  intros H. destruct (H "scandinavian") as [keywords Hk].
  - unfold style_types. rewrite !elem_of_cons. do 7 right. by left.
  - unfold style_keywords in Hk. rewrite !elem_of_cons in Hk.
    destruct Hk as [[=]|[[=]|[[=]|[[=]|Hk]]]]. by apply elem_of_nil in Hk.
Qed.

(** C5 (amended). When the classification call returns index [style_idx]
    with probability [confidence]: [_identify_style] matches keywords through
    a synonym table with entries for four styles (modern, traditional,
    rustic, industrial; modern stands for any of modern, contemporary, sleek,
    minimalist); the first entry, in table order, one of whose synonyms is a
    substring of the lowercased caption gives the style, with confidence
    0.9; if no synonym occurs, the arg-max of the 10 styles is returned when
    its probability exceeds 0.25 and "modern" otherwise, with the
    classifier's probability. *)
Theorem identify_style_spec (Image : Type)
    (clip_classify : Image -> list string -> result (nat * float))
    (image : Image) (text : string) (style_idx : nat) (confidence : float) :
  clip_classify image (map (fun s => "a " +:+ s +:+ " style interior") style_types)
    = Ok (style_idx, confidence) ->
  let matches := fun entry : string * list string =>
    exists keyword, keyword ∈ snd entry /\
      PyStr.contains keyword (PyStr.lower text) = true in
  let out := _identify_style Image clip_classify image text in
  length style_types = 10%nat /\
  map fst style_keywords = ["modern"; "traditional"; "rustic"; "industrial"] /\
  ("modern", ["modern"; "contemporary"; "sleek"; "minimalist"]) ∈ style_keywords /\
  ((exists entry, entry ∈ style_keywords /\ matches entry) ->
     exists entry, entry ∈ style_keywords /\ matches entry /\
       out = (fst entry, 0.9%float)) /\
  (forall entry, first_such matches style_keywords entry ->
     out = (fst entry, 0.9%float)) /\
  ((forall entry, entry ∈ style_keywords -> ~ matches entry) ->
   (style_idx < length style_types)%nat ->
     exists s, style_types !! style_idx = Some s /\
       out = (if (0.25 <? confidence)%float then s else "modern", confidence)).
Proof.
  intros Hclip matches out.
  set (p := fun '((_, keywords) : string * list string) =>
              List.existsb (fun keyword => PyStr.contains keyword (PyStr.lower text))
                           keywords).
  assert (Hp : forall entry, p entry = true <-> matches entry).
  { intros [s keywords]. apply existsb_elem_of. }
  assert (Hout : out =
    match List.find p style_keywords with
    | Some (s, _) => (s, 0.9%float)
    | None =>
        if (0.25 <? confidence)%float then
          match style_types !! style_idx with
          | Some s => (s, confidence)
          | None => ("modern", 0.5%float)
          end
        else ("modern", confidence)
    end).
  { unfold out, _identify_style. by rewrite Hclip. }
  clearbody out. split; [reflexivity|]. split; [reflexivity|].
  split; [left|]. split; [|split].
  - intros (entry & Hin & Hm).
    destruct (find_is_Some p style_keywords) as [[s keywords] Hr].
    { exists entry. split; [done | by apply Hp]. }
    exists (s, keywords). rewrite Hout, Hr.
    apply find_some in Hr as [Hin' Hp']. rewrite list_elem_of_In.
    split; [done|]. split; [by apply Hp | done].
  - intros [s keywords] (pre & post & Hl & Hm & Hpre).
    assert (Hr : List.find p style_keywords = Some (s, keywords)).
    { apply find_first_such. exists pre, post. split; [done|].
      split; [by apply Hp|]. eapply Forall_impl; [exact Hpre|].
      simpl. intros y Hy. by rewrite Hp. }
    by rewrite Hout, Hr.
  - intros Hnone Hidx.
    assert (Hr : List.find p style_keywords = None).
    { apply find_None_iff. intros x Hx. rewrite Hp. by apply Hnone. }
    rewrite Hout, Hr.
    destruct (lookup_lt_is_Some_2 style_types style_idx Hidx) as [s Hs].
    exists s. split; [done|]. rewrite Hs. by destruct (0.25 <? confidence)%float.
Qed.

Lemma identify_style_spec_witness :
  let clip_classify := fun (_ : unit) (_ : list string) => Ok (3%nat, 0.2%float) in
  clip_classify tt (map (fun s => "a " +:+ s +:+ " style interior") style_types)
    = Ok (3%nat, 0.2%float) /\
  _identify_style unit clip_classify tt "A sleek kitchen with metal stools"
    = ("modern", 0.9%float).
Proof.
  intros clip_classify. split; [reflexivity|].
  destruct (identify_style_spec unit clip_classify tt
              "A sleek kitchen with metal stools" 3 0.2%float)
    as (_ & _ & _ & _ & Hfirst & _); [reflexivity |].
  apply (Hfirst ("modern", ["modern"; "contemporary"; "sleek"; "minimalist"])).
  exists [], (tail style_keywords). split; [reflexivity|]. split; [|constructor].
  exists "sleek". split; [|reflexivity]. simpl. rewrite !elem_of_cons. auto.
Defined.

(** ** Failures of the model calls *)

Lemma identify_room_type_in (Image : Type)
    (clip_classify : Image -> list string -> result (nat * float))
    (image : Image) (text : string) :
  fst (_identify_room_type Image clip_classify image text) ∈ room_types.
Proof.
  assert (Hdefault : "living room" ∈ room_types) by left.
  unfold _identify_room_type.
  destruct (clip_classify image _) as [[room_idx confidence]|e]; [|done].
  destruct (List.find _ room_types) as [r|] eqn:Hfind.
  - apply find_some in Hfind as [Hin _]. by apply list_elem_of_In.
  - destruct (0.3 <? confidence)%float; [|done].
    destruct (room_types !! room_idx) as [r|] eqn:Hr; [|done].
    by eapply list_elem_of_lookup_2.
Qed.

Lemma identify_style_in (Image : Type)
    (clip_classify : Image -> list string -> result (nat * float))
    (image : Image) (text : string) :
  fst (_identify_style Image clip_classify image text) ∈ style_types.
Proof.
  assert (Hdefault : "modern" ∈ style_types) by left.
  assert (Hkeys : Forall (fun entry => fst entry ∈ style_types) style_keywords).
  { unfold style_keywords, style_types.
    repeat constructor; simpl; rewrite !elem_of_cons; auto 12. }
  unfold _identify_style.
  destruct (clip_classify image _) as [[style_idx confidence]|e]; [|done].
  destruct (List.find _ style_keywords) as [[s keywords]|] eqn:Hfind.
  - apply find_some in Hfind as [Hin _]. apply list_elem_of_In in Hin.
    rewrite Forall_forall in Hkeys. exact (Hkeys _ Hin).
  - destruct (0.25 <? confidence)%float; [|done].
    destruct (style_types !! style_idx) as [s|] eqn:Hs; [|done].
    by eapply list_elem_of_lookup_2.
Qed.

Lemma RoomType_of_room_types (r : string) :
  r ∈ room_types ->
  exists room, RoomType_.of_value (PyStr.replace_space_underscore r) = Ok room.
Proof.
  unfold room_types. intros H.
  repeat (apply elem_of_cons in H as [->|H]; [eexists; reflexivity|]).
  by apply elem_of_nil in H.
Qed.

Lemma StyleType_of_style_types (s : string) :
  s ∈ style_types -> exists sty, StyleType_.of_value s = Ok sty.
Proof.
  unfold style_types. intros H.
  repeat (apply elem_of_cons in H as [->|H]; [eexists; reflexivity|]).
  by apply elem_of_nil in H.
Qed.

(** C9. When the caption model call raises, [_generate_caption] returns
    "A room interior"; when the room-type classification call raises,
    [_identify_room_type] returns ("living room", 0.5); when the style
    classification call raises, [_identify_style] returns ("modern", 0.5).
    None of them raises, so once the image is opened [analyze_image] returns
    an analysis whatever the model calls do, and when all of them fail it is
    the analysis of the fallback caption with the two default labels. *)
Theorem model_failures_absorbed (Image : Type)
    (blip_caption : Image -> result string)
    (clip_classify : Image -> list string -> result (nat * float))
    (path_exists : string -> bool) (Image_open : string -> result Image)
    (image : Image) (text image_path : string) :
  (forall e, blip_caption image = Raise e ->
     _generate_caption Image blip_caption image = "A room interior") /\
  (forall e,
     clip_classify image (map (fun r => "a " +:+ r +:+ " in a house") room_types)
       = Raise e ->
     _identify_room_type Image clip_classify image text = ("living room", 0.5%float)) /\
  (forall e,
     clip_classify image (map (fun s => "a " +:+ s +:+ " style interior") style_types)
       = Raise e ->
     _identify_style Image clip_classify image text = ("modern", 0.5%float)) /\
  (path_exists image_path = true -> Image_open image_path = Ok image ->
     exists analysis,
       analyze_image Image blip_caption clip_classify (Ok tt) path_exists Image_open
                     image_path = Ok analysis /\
       caption analysis = _generate_caption Image blip_caption image) /\
  (path_exists image_path = true -> Image_open image_path = Ok image ->
   forall e, blip_caption image = Raise e ->
             (forall texts, clip_classify image texts = Raise e) ->
     analyze_image Image blip_caption clip_classify (Ok tt) path_exists Image_open
                   image_path
     = Ok {| caption := "A room interior";
             room_type := LIVING_ROOM;
             style := MODERN;
             confidence_scores := {[ "room_type" := 0.5%float; "style" := 0.5%float ]};
             editable_areas := [];
             clutter_analysis :=
               {| has_clutter := false; has_empty_spaces := false;
                  clutter_level := LOW; space_utilization := WELL_UTILIZED |} |}).
Proof.
  split; [|split; [|split; [|split]]].
  - intros e H. unfold _generate_caption. by rewrite H.
  - intros e H. unfold _identify_room_type. by rewrite H.
  - intros e H. unfold _identify_style. by rewrite H.
  - intros Hex Hopen. unfold analyze_image. rewrite Hex, Hopen. simpl.
    pose proof (identify_room_type_in Image clip_classify image
                  (_generate_caption Image blip_caption image)) as Hroom.
    pose proof (identify_style_in Image clip_classify image
                  (_generate_caption Image blip_caption image)) as Hstyle.
    destruct (_identify_room_type _ _ _ _) as [r rc].
    destruct (_identify_style _ _ _ _) as [s sc]. simpl in Hroom, Hstyle.
    destruct (RoomType_of_room_types r Hroom) as [room ->].
    destruct (StyleType_of_style_types s Hstyle) as [sty ->].
    eexists. split; reflexivity.
  - intros Hex Hopen e Hblip Hclip. unfold analyze_image. rewrite Hex, Hopen. simpl.
    unfold _generate_caption, _identify_room_type, _identify_style.
    by rewrite Hblip, !Hclip.
Qed.

Lemma model_failures_absorbed_witness :
  let blip_caption := fun _ : unit => @Raise string (RuntimeError "caption") in
  let clip_classify :=
    fun (_ : unit) (_ : list string) => @Raise (nat * float) (RuntimeError "caption") in
  _generate_caption unit blip_caption tt = "A room interior" /\
  _identify_room_type unit clip_classify tt "a kitchen" = ("living room", 0.5%float) /\
  _identify_style unit clip_classify tt "a rustic kitchen" = ("modern", 0.5%float) /\
  exists analysis,
    analyze_image unit blip_caption clip_classify (Ok tt) (fun _ => true)
                  (fun _ => Ok tt) "room.jpg" = Ok analysis /\
    caption analysis = "A room interior".
Proof.
  intros blip_caption clip_classify.
  destruct (model_failures_absorbed unit blip_caption clip_classify (fun _ => true)
              (fun _ => Ok tt) tt "a kitchen" "room.jpg") as (Hcap & Hroom & _ & _ & Hall).
  destruct (model_failures_absorbed unit blip_caption clip_classify (fun _ => true)
              (fun _ => Ok tt) tt "a rustic kitchen" "room.jpg") as (_ & _ & Hstyle & _).
  split; [exact (Hcap _ eq_refl)|]. split; [exact (Hroom _ eq_refl)|].
  split; [exact (Hstyle _ eq_refl)|].
  eexists. split; [exact (Hall eq_refl eq_refl _ eq_refl (fun _ => eq_refl))|reflexivity].
Defined.

(** ** The object store *)

Section Store.
Implicit Types (h : list (gmap string string)) (d : gmap string string) (l : loc).

Lemma bind_Ok {A B} (m : M A) (k : A -> M B) h a h' :
  m h = (Ok a, h') -> bind m k h = k a h'.
Proof. unfold bind. by intros ->. Qed.

Lemma bind_Raise {A B} (m : M A) (k : A -> M B) h e h' :
  m h = (Raise e, h') -> bind m k h = (Raise e, h').
Proof. unfold bind. by intros ->. Qed.

Lemma lookup_new h d : (h ++ [d]) !! length h = Some d.
Proof. by rewrite lookup_app_r, Nat.sub_diag. Qed.

Lemma dict_copy_run h l d :
  h !! l = Some d -> dict_copy l h = (Ok (length h), h ++ [d]).
Proof. unfold dict_copy. by intros ->. Qed.

Lemma getitem_run h l d k v :
  h !! l = Some d -> d !! k = Some v -> getitem l k h = (Ok v, h).
Proof. unfold getitem. by intros -> ->. Qed.

Lemma getitem_new h d k v :
  d !! k = Some v -> getitem (length h) k (h ++ [d]) = (Ok v, h ++ [d]).
Proof. apply getitem_run, lookup_new. Qed.

Lemma setitem_new h d k v :
  setitem (length h) k v (h ++ [d]) = (Ok tt, h ++ [<[k := v]> d]).
Proof.
  unfold setitem. rewrite lookup_new. f_equal.
  rewrite insert_app_r_alt, Nat.sub_diag by lia. done.
Qed.

Lemma bind_assoc {A B C} (m : M A) (f : A -> M B) (g : B -> M C) h :
  bind (bind m f) g h = bind m (fun x => bind (f x) g) h.
Proof. unfold bind. by destruct (m h) as [[a|e] h']. Qed.

Lemma bind_ret {A B} (a : A) (f : A -> M B) h : bind (ret a) f h = f a h.
Proof. reflexivity. Qed.

Lemma bind_getitem_new {B} (f : string -> M B) h d k v :
  d !! k = Some v -> bind (getitem (length h) k) f (h ++ [d]) = f v (h ++ [d]).
Proof. intros H. apply bind_Ok. by apply getitem_new. Qed.

Lemma bind_setitem_new {B} (f : unit -> M B) h d k v :
  bind (setitem (length h) k v) f (h ++ [d]) = f tt (h ++ [<[k := v]> d]).
Proof. apply bind_Ok, setitem_new. Qed.

Lemma new_object_eq h l d d' :
  d = d' -> ret l (h ++ [d]) = (Ok l, h ++ [d']).
Proof. by intros ->. Qed.

End Store.

(** Runs reads and writes of the newest object of the store, splitting on
    the tests met on the way. *)
Ltac run_store :=
  repeat first
    [ rewrite bind_assoc
    | rewrite bind_ret
    | rewrite bind_setitem_new
    | erewrite bind_getitem_new by
        (first [ eassumption
               | rewrite lookup_insert_eq; reflexivity
               | rewrite lookup_insert_ne by done; eassumption ])
    | match goal with
      | |- bind (if ?b then _ else _) _ _ = _ => destruct b eqn:?; cbv beta iota
      | |- bind (match ?b with left _ => _ | right _ => _ end) _ _ = _ =>
          destruct b; cbv beta iota
      end ].

(** ** Customization of one suggestion *)

Lemma customize_run (h : list (gmap string string)) (l : loc) (d : gmap string string)
    (analysis : ImageAnalysisResult) (text prio : string) :
  h !! l = Some d -> d !! "suggestion" = Some text -> d !! "priority" = Some prio ->
  _customize_suggestion l analysis h =
    (Ok (length h),
     h ++ [<["suggestion" := customized_text analysis text]>
             (<["priority" := customized_priority analysis text prio]> d)]).
Proof.
  intros Hl Htext Hprio.
  unfold _customize_suggestion.
  rewrite (bind_Ok _ _ _ _ _ (dict_copy_run h l d Hl)).
  run_store.
  all: apply new_object_eq.
  all: unfold customized_text, customized_priority, bump.
  all: repeat match goal with
              | H : _ = true |- _ => rewrite H
              | H : _ = false |- _ => rewrite H
              end.
  all: rewrite ?bool_decide_eq_true_2, ?bool_decide_eq_false_2 by done.
  all: cbv beta iota delta [andb negb].
  all: rewrite ?(insert_id d "priority" prio Hprio); try done.
  all: symmetry; apply insert_id; by rewrite ?lookup_insert_ne.
Qed.

Lemma append_nonempty_neq (s t : string) : t <> "" -> s +:+ t <> s.
Proof.
  intros Ht. induction s as [|c s IH]; simpl; [done|].
  intros [= E]. by apply IH.
Qed.

(** C6. For every stored suggestion record and every analysis,
    [_customize_suggestion] returns a new record, a copy of the given one in
    which the priority is moved up exactly one level (low to medium, medium
    to high, high unchanged) if and only if [has_clutter] holds and the text
    contains "remove" case-insensitively, and in which
    ", prioritize decluttering" is appended to the text if and only if
    [clutter_level] is high and the text does not contain "remove clutter"
    case-insensitively; the suffix is appended once, no other key changes,
    and the given record stays as it was. *)
Theorem customize_suggestion_spec (h : list (gmap string string)) (l : loc)
    (d : gmap string string) (analysis : ImageAnalysisResult) (text prio : string) :
  h !! l = Some d -> d !! "suggestion" = Some text -> d !! "priority" = Some prio ->
  let moves := has_clutter (clutter_analysis analysis)
               && PyStr.contains "remove" (PyStr.lower text) in
  let appends := bool_decide (clutter_level (clutter_analysis analysis) = HIGH)
                 && negb (PyStr.contains "remove clutter" (PyStr.lower text)) in
  exists d',
    _customize_suggestion l analysis h = (Ok (length h), h ++ [d']) /\
    (h ++ [d']) !! l = Some d /\
    d' !! "priority" = Some (if moves then bump prio else prio) /\
    d' !! "suggestion" =
      Some (if appends then text +:+ ", prioritize decluttering" else text) /\
    (forall k, k <> "priority" -> k <> "suggestion" -> d' !! k = d !! k) /\
    (bump "low" = "medium" /\ bump "medium" = "high" /\ bump "high" = "high") /\
    (d' !! "priority" <> Some prio <->
       moves = true /\ (prio = "low" \/ prio = "medium")) /\
    (d' !! "suggestion" <> Some text <-> appends = true).
Proof.
  intros Hl Htext Hprio moves appends.
  exists (<["suggestion" := customized_text analysis text]>
            (<["priority" := customized_priority analysis text prio]> d)).
  split; [by apply customize_run|].
  split; [by apply lookup_app_l_Some|].
  assert (Hp : (<["suggestion" := customized_text analysis text]>
                  (<["priority" := customized_priority analysis text prio]> d))
                 !! "priority" = Some (if moves then bump prio else prio)).
  { rewrite lookup_insert_ne by done. by rewrite lookup_insert_eq. }
  assert (Hs : (<["suggestion" := customized_text analysis text]>
                  (<["priority" := customized_priority analysis text prio]> d))
                 !! "suggestion"
               = Some (if appends then text +:+ ", prioritize decluttering" else text)).
  { by rewrite lookup_insert_eq. }
  rewrite Hp, Hs. clearbody moves appends.
  split; [done|]. split; [done|].
  split; [intros k Hkp Hks; by rewrite !lookup_insert_ne|].
  split; [done|]. split; split.
  - intros Hne. destruct moves; [|done]. split; [done|]. unfold bump in Hne.
    destruct (String.eqb_spec prio "low"); [by left|].
    destruct (String.eqb_spec prio "medium"); [by right | done].
  - intros [Hm [E | E]]; rewrite Hm, E; by vm_compute.
  - intros Hne. by destruct appends.
  - intros Hm. rewrite Hm. intros [= E]. by apply append_nonempty_neq in E.
Qed.

Lemma customize_suggestion_spec_witness :
  let analysis :=
    {| caption := "a messy pile of papers and clothes";
       room_type := LIVING_ROOM; style := MODERN;
       confidence_scores := ∅; editable_areas := [];
       clutter_analysis :=
         {| has_clutter := true; has_empty_spaces := false;
            clutter_level := HIGH; space_utilization := OVERCROWDED |} |} in
  let d := record "Enhance walls with modern art pieces, remove personal items"
                  "low" "decor" "low" in
  kb_store !! 3%nat = Some d /\
  d !! "suggestion" = Some "Enhance walls with modern art pieces, remove personal items" /\
  d !! "priority" = Some "low" /\
  exists d',
    _customize_suggestion 3%nat analysis kb_store = (Ok 36%nat, kb_store ++ [d']) /\
    d' !! "priority" = Some "medium" /\
    d' !! "suggestion" =
      Some "Enhance walls with modern art pieces, remove personal items, prioritize decluttering" /\
    d' !! "category" = Some "decor".
Proof.
  intros analysis d.
  assert (H1 : kb_store !! 3%nat = Some d) by reflexivity.
  assert (H2 : d !! "suggestion"
               = Some "Enhance walls with modern art pieces, remove personal items")
    by reflexivity.
  assert (H3 : d !! "priority" = Some "low") by reflexivity.
  repeat (split; [assumption|]).
  destruct (customize_suggestion_spec kb_store 3%nat d analysis _ _ H1 H2 H3)
    as (d' & Hrun & _ & Hp & Hs & Hk & _).
  exists d'. split; [exact Hrun|]. split; [exact Hp|]. split; [exact Hs|].
  by rewrite Hk.
Defined.

(** ** The candidates and their customization *)

Section Suggestions.
Implicit Types (h : list (gmap string string)) (d : gmap string string) (l : loc).
Implicit Types (db : gmap string (gmap string (list loc))).
Implicit Types (analysis : ImageAnalysisResult).

Lemma new_suggestion_run analysis h d :
  well_formed d ->
  new_EnhancementSuggestion (length h) (h ++ [customized_record analysis d])
  = (Ok (customized_suggestion analysis d), h ++ [customized_record analysis d]).
Proof.
  intros ([text Ht] & [prio Hp] & [cat Hc] & [impact Hi]).
  unfold new_EnhancementSuggestion, customized_record, customized_suggestion.
  rewrite lookup_new, Ht, Hp, Hc, Hi. simpl.
  rewrite lookup_insert_eq.
  rewrite (lookup_insert_ne _ "suggestion" "priority") by done.
  rewrite lookup_insert_eq.
  rewrite !(lookup_insert_ne _ _ "category") by done.
  rewrite !(lookup_insert_ne _ _ "estimated_impact") by done.
  by rewrite Hc, Hi.
Qed.

Lemma customize_each_run analysis ls ds h :
  Forall2 (fun l d => h !! l = Some d /\ well_formed d) ls ds ->
  customize_each ls analysis h
  = (Ok (customized_suggestion analysis <$> ds), h ++ (customized_record analysis <$> ds)).
Proof.
  intros H. revert h H. revert ds.
  induction ls as [|l ls IH]; intros ds h H.
  - apply Forall2_nil_inv_l in H as ->. simpl. by rewrite app_nil_r.
  - apply Forall2_cons_inv_l in H as (d & ds' & [Hl Hwf] & Hrest & ->).
    pose proof Hwf as ([text Ht] & [prio Hp] & _).
    simpl customize_each.
    rewrite (bind_Ok _ _ _ _ _ (customize_run h l d analysis text prio Hl Ht Hp)).
    assert (Hrec : <["suggestion" := customized_text analysis text]>
                     (<["priority" := customized_priority analysis text prio]> d)
                   = customized_record analysis d).
    { unfold customized_record. by rewrite Ht, Hp. }
    rewrite Hrec.
    rewrite (bind_Ok _ _ _ _ _ (new_suggestion_run analysis h d Hwf)).
    assert (Hrest' : Forall2 (fun l' d' => (h ++ [customized_record analysis d]) !! l'
                                           = Some d' /\ well_formed d') ls ds').
    { eapply Forall2_impl; [exact Hrest|]. simpl.
      intros l' d' [Hl' Hwf']. split; [by apply lookup_app_l_Some | done]. }
    rewrite (bind_Ok _ _ _ _ _ (IH ds' _ Hrest')).
    rewrite fmap_cons. unfold ret. f_equal. by rewrite <- app_assoc.
Qed.

(** The candidates come either from the database, whatever the store, or
    from a new default record. *)
Lemma get_suggestions_cases db room style :
  (exists ls styles key,
      db !! PyStr.lower (PyStr.replace_space_underscore room) = Some styles /\
      styles !! key = Some ls /\
      forall h, EnhancementDatabase.get_suggestions db room style h = (Ok ls, h)) \/
  (forall h, EnhancementDatabase.get_suggestions db room style h = (Ok [], h)) \/
  (forall h, EnhancementDatabase.get_suggestions db room style h
             = (Ok [length h], h ++ [EnhancementDatabase.default_record])).
Proof.
  unfold EnhancementDatabase.get_suggestions.
  destruct (db !! _) as [styles|] eqn:Hroom.
  - destruct (styles !! PyStr.lower style) as [ls|] eqn:Hstyle.
    + left. by exists ls, styles, (PyStr.lower style).
    + destruct (styles !! "modern") as [ls|] eqn:Hmodern.
      * left. by exists ls, styles, "modern".
      * right. by left.
  - right. by right.
Qed.

Lemma default_record_well_formed : well_formed EnhancementDatabase.default_record.
Proof. repeat split; by eexists. Qed.

Lemma db_wf_lookup db h styles key rk ls :
  db_wf db h -> db !! rk = Some styles -> styles !! key = Some ls ->
  exists ds, Forall2 (fun l d => h !! l = Some d /\ well_formed d) ls ds.
Proof.
  intros Hwf Hrk Hkey.
  pose proof (map_Forall_lookup_1 _ _ _ _ (map_Forall_lookup_1 _ _ _ _ Hwf Hrk) Hkey) as Hls.
  simpl in Hls. clear -Hls. induction ls as [|l ls IH].
  - exists []. constructor.
  - apply Forall_cons in Hls as [Hl Hls]. destruct (IH Hls) as [ds Hds].
    destruct (h !! l) as [d|] eqn:E; [|done].
    exists (d :: ds). by constructor.
Qed.

Lemma db_wf_extend db h h' :
  db_wf db h -> (forall l d, h !! l = Some d -> h' !! l = Some d) -> db_wf db h'.
Proof.
  intros Hwf Hext. unfold db_wf in *.
  eapply map_Forall_impl; [exact Hwf|]. simpl. intros rk styles Hstyles.
  eapply map_Forall_impl; [exact Hstyles|]. simpl. intros key ls Hls.
  eapply Forall_impl; [exact Hls|]. simpl. intros l Hl.
  destruct (h !! l) as [d|] eqn:E; [|done]. by rewrite (Hext l d E).
Qed.

(** What [get_enhancement_suggestions] returns on a well-formed store: the
    candidates [ls], read as the records [ds], each customized on a copy
    appended to the store. *)
Lemma get_enhancement_suggestions_run db analysis h :
  db_wf db h ->
  exists ls h1 ds,
    EnhancementDatabase.get_suggestions db
      (PyStr.replace_underscore_space (RoomType_.value (room_type analysis)))
      (StyleType_.value (style analysis)) h = (Ok ls, h1) /\
    Forall2 (fun l d => h1 !! l = Some d /\ well_formed d) ls ds /\
    (h1 = h \/ (h1 = h ++ [EnhancementDatabase.default_record] /\
                ds = [EnhancementDatabase.default_record])) /\
    get_enhancement_suggestions db analysis h
    = (Ok (customized_suggestion analysis <$> ds),
       h1 ++ (customized_record analysis <$> ds)).
Proof.
  intros Hwf. unfold get_enhancement_suggestions.
  destruct (get_suggestions_cases db
              (PyStr.replace_underscore_space (RoomType_.value (room_type analysis)))
              (StyleType_.value (style analysis)))
    as [(ls & styles & key & Hrk & Hkey & Hget) | [Hget | Hget]].
  - destruct (db_wf_lookup db h styles key _ ls Hwf Hrk Hkey) as [ds Hds].
    exists ls, h, ds. rewrite (bind_Ok _ _ _ _ _ (Hget h)).
    repeat split; [apply Hget | done | by left | by apply customize_each_run].
  - exists [], h, []. rewrite (bind_Ok _ _ _ _ _ (Hget h)).
    repeat split; [apply Hget | constructor | by left | by apply customize_each_run].
  - exists [length h], (h ++ [EnhancementDatabase.default_record]),
           [EnhancementDatabase.default_record].
    rewrite (bind_Ok _ _ _ _ _ (Hget h)).
    assert (Hds : Forall2 (fun l d => (h ++ [EnhancementDatabase.default_record]) !! l
                                      = Some d /\ well_formed d)
                          [length h] [EnhancementDatabase.default_record]).
    { constructor; [|constructor].
      split; [apply lookup_new | apply default_record_well_formed]. }
    repeat split; [apply Hget | done | by right | by apply customize_each_run].
Qed.

End Suggestions.

(** ** The knowledge base *)

#[local] Instance stored_well_formed_dec (h : list (gmap string string)) (l : loc) :
  Decision (match h !! l with Some d => well_formed d | None => False end).
Proof. destruct (h !! l); unfold well_formed; apply _. Defined.

Lemma load_suggestions_run :
  EnhancementDatabase._load_suggestions [] = (Ok kb_db, kb_store).
Proof. reflexivity. Qed.

Lemma kb_well_formed : db_wf kb_db kb_store.
Proof. unfold db_wf. apply (bool_decide_unpack _). vm_compute. exact I. Qed.

Lemma kb_rooms_have_modern :
  map_Forall (fun _ styles => is_Some (styles !! "modern")) kb_db.
Proof. apply (bool_decide_unpack _). vm_compute. exact I. Qed.

Lemma kb_rooms :
  dom kb_db = ({[ "living_room"; "kitchen"; "bedroom"; "bathroom" ]} : gset string).
Proof. apply (bool_decide_unpack _). vm_compute. exact I. Qed.

(** C2. For every room type and style, on the loaded knowledge base
    [get_suggestions] follows the chain in this order: the room key is the
    room type with spaces replaced by underscores, lowercased (which changes
    nothing on the 11 room types), the style key is the style lowercased; if
    the room key is present and the style key is present under it, that list
    is returned; if the room key is present and the style key absent, the
    room's "modern" list is returned; only if the room key is absent the
    generic default is returned, one new record with category "general" and
    priority "high".  In particular ("garage", "modern") gives that single
    record. *)
Theorem get_suggestions_fallback_chain (room style : string)
    (h : list (gmap string string)) :
  let room_key := PyStr.lower (PyStr.replace_space_underscore room) in
  let style_key := PyStr.lower style in
  let out := EnhancementDatabase.get_suggestions kb_db room style h in
  (room ∈ room_types -> room_key = PyStr.replace_space_underscore room) /\
  (forall styles ls,
     kb_db !! room_key = Some styles -> styles !! style_key = Some ls ->
     out = (Ok ls, h)) /\
  (forall styles,
     kb_db !! room_key = Some styles -> styles !! style_key = None ->
     exists modern, styles !! "modern" = Some modern /\ out = (Ok modern, h)) /\
  (kb_db !! room_key = None ->
     out = (Ok [length h], h ++ [EnhancementDatabase.default_record]) /\
     (h ++ [EnhancementDatabase.default_record]) !! length h
       = Some EnhancementDatabase.default_record) /\
  (EnhancementDatabase.default_record !! "category" = Some "general" /\
   EnhancementDatabase.default_record !! "priority" = Some "high") /\
  EnhancementDatabase.get_suggestions kb_db "garage" "modern" h
    = (Ok [length h], h ++ [EnhancementDatabase.default_record]).
Proof.
  intros room_key style_key out.
  assert (Hout : out =
    match kb_db !! room_key with
    | Some styles =>
        match styles !! style_key with
        | Some ls => (Ok ls, h)
        | None => (Ok (default [] (styles !! "modern")), h)
        end
    | None => (Ok [length h], h ++ [EnhancementDatabase.default_record])
    end).
  { unfold out, EnhancementDatabase.get_suggestions. fold room_key style_key.
    destruct (kb_db !! room_key) as [styles|]; [|done].
    by destruct (styles !! style_key). }
  clearbody out. split; [|split; [|split; [|split; [|split]]]].
  - unfold room_key, room_types. intros H.
    repeat (apply elem_of_cons in H as [->|H]; [reflexivity|]).
    by apply elem_of_nil in H.
  - intros styles ls Hroom Hstyle. by rewrite Hout, Hroom, Hstyle.
  - intros styles Hroom Hstyle.
    destruct (map_Forall_lookup_1 _ _ _ _ kb_rooms_have_modern Hroom) as [modern Hm].
    exists modern. by rewrite Hout, Hroom, Hstyle, Hm.
  - intros Hroom. rewrite Hout, Hroom. split; [done | apply lookup_new].
  - split; reflexivity.
  - reflexivity.
Qed.

(** Counterexample to C3 as written.  The knowledge base has no entry for
    "office": [get_suggestions] on
    ("office", "rustic") returns one new record, the generic default, and no
    "modern" list. *)
Lemma get_suggestions_office_rustic :
  kb_db !! "office" = None /\
  EnhancementDatabase.get_suggestions kb_db "office" "rustic" kb_store
    = (Ok [36%nat], kb_store ++ [EnhancementDatabase.default_record]) /\
  ~ (exists styles modern,
       kb_db !! "office" = Some styles /\ styles !! "modern" = Some modern /\
       fst (EnhancementDatabase.get_suggestions kb_db "office" "rustic" kb_store)
         = Ok modern).
Proof.
  split; [reflexivity|]. split; [reflexivity|].
  intros (styles & modern & Hoffice & _). discriminate Hoffice.
Qed.

(** C3 (amended). [get_suggestions] on ("office", "rustic") returns the
    single generic default record, since the knowledge base has entries for
    living_room, kitchen, bedroom and bathroom only; the style-level
    fallback is what a room of the knowledge base gets: on
    ("kitchen", "rustic"), where the room exists and the style does not, the
    kitchen's "modern" list is returned and not the generic default. *)
Theorem get_suggestions_style_fallback (h : list (gmap string string)) :
  dom kb_db = ({[ "living_room"; "kitchen"; "bedroom"; "bathroom" ]} : gset string) /\
  EnhancementDatabase.get_suggestions kb_db "office" "rustic" h
    = (Ok [length h], h ++ [EnhancementDatabase.default_record]) /\
  exists styles modern,
    kb_db !! "kitchen" = Some styles /\
    styles !! "rustic" = None /\
    styles !! "modern" = Some modern /\
    EnhancementDatabase.get_suggestions kb_db "kitchen" "rustic" h = (Ok modern, h) /\
    (fun l => kb_store !! l) <$> modern = Some <$> EnhancementDatabase.kitchen_modern.
Proof.
  split; [exact kb_rooms|]. split; [reflexivity|].
  eexists _, _. repeat split; reflexivity.
Qed.

(** ** Primary suggestion *)

Lemma first_such_exists {A} (P : A -> Prop) `{!forall x, Decision (P x)} (l : list A) :
  (exists x, x ∈ l /\ P x) -> exists x, first_such P l x.
Proof.
  induction l as [|a l IH]; intros (x & Hin & Hx).
  - by apply elem_of_nil in Hin.
  - destruct (decide (P a)) as [Ha|Ha].
    + exists a, [], l. repeat split; [done | constructor].
    + apply elem_of_cons in Hin as [->|Hin]; [done|].
      destruct IH as (y & pre & post & -> & Hy & Hpre); [by exists x|].
      exists y, (a :: pre), post. repeat split; [done | by constructor].
Qed.

Lemma filter_priority_head (prio : string) (l : list EnhancementSuggestion) s rest :
  List.filter (fun s => String.eqb (priority s) prio) l = s :: rest ->
  first_such (fun s => priority s = prio) l s.
Proof.
  intros H. apply filter_cons_split in H as (pre & post & -> & Hs & Hpre).
  exists pre, post. split; [done|]. split; [by apply String.eqb_eq|].
  eapply Forall_impl; [exact Hpre|]. simpl. intros y Hy. by apply String.eqb_neq.
Qed.

Lemma filter_priority_nil (prio : string) (l : list EnhancementSuggestion) :
  List.filter (fun s => String.eqb (priority s) prio) l = [] <->
  forall s, s ∈ l -> priority s <> prio.
Proof.
  rewrite filter_nil_all, Forall_forall.
  split; intros H s Hs; apply String.eqb_neq; auto.
Qed.

Lemma first_such_unique {A} (P : A -> Prop) (l : list A) (x y : A) :
  first_such P l x -> first_such P l y -> x = y.
Proof.
  intros (pre & post & -> & Hx & Hpre). revert Hpre.
  induction pre as [|a pre IH]; intros Hpre (pre' & post' & E & Hy & Hpre').
  - destruct pre' as [|b pre']; simpl in E; [by injection E|].
    injection E as -> _. apply Forall_cons in Hpre' as [Hb _]. by destruct Hb.
  - apply Forall_cons in Hpre as [Ha Hpre].
    destruct pre' as [|b pre']; simpl in E.
    + injection E as -> _. by destruct Ha.
    + injection E as -> E. apply Forall_cons in Hpre' as [_ Hpre'].
      apply (IH Hpre). by exists pre', post'.
Qed.

(** C7. On a well-formed store, for every analysis
    [get_enhancement_suggestions] returns the customized candidates in the
    order of the candidate list, and [get_primary_suggestion] returns the text
    of the first of them whose priority is "high"; if there is none, of the
    first whose priority is "medium"; if there is none either, of the first
    one; and for an empty candidate list the string
    "Add modern furniture pieces, remove clutter and personal items". *)
Theorem get_primary_suggestion_spec (db : gmap string (gmap string (list loc)))
    (analysis : ImageAnalysisResult) (h : list (gmap string string)) :
  db_wf db h ->
  exists ls h1 ds h' text,
    let suggestions := customized_suggestion analysis <$> ds in
    EnhancementDatabase.get_suggestions db
      (PyStr.replace_underscore_space (RoomType_.value (room_type analysis)))
      (StyleType_.value (style analysis)) h = (Ok ls, h1) /\
    Forall2 (fun l d => h1 !! l = Some d) ls ds /\
    get_enhancement_suggestions db analysis h = (Ok suggestions, h') /\
    get_primary_suggestion db analysis h = (Ok text, h') /\
    ((exists s, s ∈ suggestions /\ priority s = "high") ->
       exists s, first_such (fun s => priority s = "high") suggestions s) /\
    (forall s, first_such (fun s => priority s = "high") suggestions s ->
       text = suggestion s) /\
    ((forall s, s ∈ suggestions -> priority s <> "high") ->
     (exists s, s ∈ suggestions /\ priority s = "medium") ->
       exists s, first_such (fun s => priority s = "medium") suggestions s) /\
    ((forall s, s ∈ suggestions -> priority s <> "high") ->
     forall s, first_such (fun s => priority s = "medium") suggestions s ->
       text = suggestion s) /\
    ((forall s, s ∈ suggestions -> priority s <> "high" /\ priority s <> "medium") ->
     forall s rest, suggestions = s :: rest -> text = suggestion s) /\
    (ls = [] -> text = "Add modern furniture pieces, remove clutter and personal items").
Proof.
  intros Hwf.
  destruct (get_enhancement_suggestions_run db analysis h Hwf)
    as (ls & h1 & ds & Hget & Hds & _ & Hges).
  remember (customized_suggestion analysis <$> ds) as suggestions eqn:Hsug.
  set (h' := h1 ++ (customized_record analysis <$> ds)) in *.
  remember
    (match List.filter (fun s => String.eqb (priority s) "high") suggestions with
     | s :: _ => suggestion s
     | [] =>
         match List.filter (fun s => String.eqb (priority s) "medium") suggestions with
         | s :: _ => suggestion s
         | [] =>
             match suggestions with
             | s :: _ => suggestion s
             | [] => "Add modern furniture pieces, remove clutter and personal items"
             end
         end
     end) as text eqn:Htext.
  assert (Hprim : get_primary_suggestion db analysis h = (Ok text, h')).
  { unfold get_primary_suggestion. rewrite (bind_Ok _ _ _ _ _ Hges). rewrite Htext.
    destruct (List.filter _ suggestions); [|done].
    destruct (List.filter _ suggestions); [|done].
    by destruct suggestions. }
  exists ls, h1, ds, h', text. cbv zeta. rewrite <- Hsug.
  split; [done|]. split; [eapply Forall2_impl; [exact Hds|]; by intros ?? [? _]|].
  split; [done|]. split; [done|].
  split; [apply first_such_exists; apply _|]. split; [|split; [|split; [|split]]].
  - intros s Hs. subst text.
    destruct (List.filter (fun s => String.eqb (priority s) "high") suggestions)
      as [|s' rest] eqn:E.
    + destruct Hs as (pre & post & Hl & Hp & _).
      destruct (proj1 (filter_priority_nil "high" suggestions) E s); [|done].
      rewrite Hl, elem_of_app, elem_of_cons. auto.
    + apply filter_priority_head in E. by rewrite (first_such_unique _ _ _ _ Hs E).
  - intros _. apply first_such_exists; apply _.
  - intros Hnone s Hs. subst text.
    apply (filter_priority_nil "high") in Hnone. rewrite Hnone. clear Hnone.
    destruct (List.filter (fun s => String.eqb (priority s) "medium") suggestions)
      as [|s' rest] eqn:E.
    + destruct Hs as (pre & post & Hl & Hp & _).
      destruct (proj1 (filter_priority_nil "medium" suggestions) E s); [|done].
      rewrite Hl, elem_of_app, elem_of_cons. auto.
    + apply filter_priority_head in E. by rewrite (first_such_unique _ _ _ _ Hs E).
  - intros Hnone s rest Hl. subst text.
    assert (Hh : List.filter (fun s => String.eqb (priority s) "high") suggestions = []).
    { apply filter_priority_nil. intros x Hx. by apply Hnone. }
    assert (Hm : List.filter (fun s => String.eqb (priority s) "medium") suggestions = []).
    { apply filter_priority_nil. intros x Hx. by apply Hnone. }
    by rewrite Hh, Hm, Hl.
  - intros ->. apply Forall2_nil_inv_l in Hds as ->. by rewrite Htext, Hsug.
Qed.

Lemma get_primary_suggestion_spec_witness :
  let analysis :=
    {| caption := "a cluttered modern kitchen with dishes on counter and a sink";
       room_type := KITCHEN; style := MODERN;
       confidence_scores := ∅; editable_areas := ["surfaces: counter"; "fixtures: sink"];
       clutter_analysis :=
         {| has_clutter := true; has_empty_spaces := false;
            clutter_level := MEDIUM; space_utilization := OVERCROWDED |} |} in
  db_wf kb_db kb_store /\
  exists h',
    get_primary_suggestion kb_db analysis kb_store
    = (Ok "Enhance countertops with quartz surfaces, remove clutter including dishes", h').
Proof.
  intros analysis. split; [exact kb_well_formed|].
  destruct (get_primary_suggestion_spec kb_db analysis kb_store kb_well_formed)
    as (ls & h1 & ds & h' & text & _ & _ & _ & Hprim & _).
  exists h'.
  assert (E : fst (get_primary_suggestion kb_db analysis kb_store)
              = Ok "Enhance countertops with quartz surfaces, remove clutter including dishes")
    by (vm_compute; reflexivity).
  rewrite Hprim in E. simpl in E. injection E as <-. exact Hprim.
Defined.

(** ** The knowledge base is not mutated *)

Lemma get_enhancement_suggestions_stored db analysis h ls ds :
  (forall h0, EnhancementDatabase.get_suggestions db
                (PyStr.replace_underscore_space (RoomType_.value (room_type analysis)))
                (StyleType_.value (style analysis)) h0 = (Ok ls, h0)) ->
  Forall2 (fun l d => h !! l = Some d /\ well_formed d) ls ds ->
  get_enhancement_suggestions db analysis h
  = (Ok (customized_suggestion analysis <$> ds), h ++ (customized_record analysis <$> ds)).
Proof.
  intros Hget Hds. unfold get_enhancement_suggestions.
  rewrite (bind_Ok _ _ _ _ _ (Hget h)). by apply customize_each_run.
Qed.

Lemma get_enhancement_suggestions_default db analysis h :
  (forall h0, EnhancementDatabase.get_suggestions db
                (PyStr.replace_underscore_space (RoomType_.value (room_type analysis)))
                (StyleType_.value (style analysis)) h0
              = (Ok [length h0], h0 ++ [EnhancementDatabase.default_record])) ->
  get_enhancement_suggestions db analysis h
  = (Ok [customized_suggestion analysis EnhancementDatabase.default_record],
     h ++ [EnhancementDatabase.default_record;
           customized_record analysis EnhancementDatabase.default_record]).
Proof.
  intros Hget. unfold get_enhancement_suggestions.
  rewrite (bind_Ok _ _ _ _ _ (Hget h)).
  rewrite (customize_each_run analysis [length h] [EnhancementDatabase.default_record]).
  - simpl. by rewrite <- app_assoc.
  - constructor; [|constructor].
    split; [apply lookup_new | apply default_record_well_formed].
Qed.

(** C10. On a well-formed store, for every analysis
    [get_enhancement_suggestions] returns, and the store after the call is
    the store before it followed by new objects only: customization writes
    to copies, so every record of the knowledge base is the same before and
    after; and a second call with the same analysis returns an equal list. *)
Theorem get_enhancement_suggestions_frame (db : gmap string (gmap string (list loc)))
    (analysis : ImageAnalysisResult) (h : list (gmap string string)) :
  db_wf db h ->
  exists suggestions h' h'',
    get_enhancement_suggestions db analysis h = (Ok suggestions, h') /\
    h `prefix_of` h' /\
    (forall l d, h !! l = Some d -> h' !! l = Some d) /\
    db_wf db h' /\
    get_enhancement_suggestions db analysis h' = (Ok suggestions, h'') /\
    (forall l d, h' !! l = Some d -> h'' !! l = Some d).
Proof.
  intros Hwf.
  assert (Hext : forall (a b : list (gmap string string)) l d,
             a !! l = Some d -> (a ++ b) !! l = Some d)
    by (intros; by apply lookup_app_l_Some).
  destruct (get_suggestions_cases db
              (PyStr.replace_underscore_space (RoomType_.value (room_type analysis)))
              (StyleType_.value (style analysis)))
    as [(ls & styles & key & Hrk & Hkey & Hget) | [Hget | Hget]].
  - destruct (db_wf_lookup db h styles key _ ls Hwf Hrk Hkey) as [ds Hds].
    set (new := customized_record analysis <$> ds).
    assert (Hds' : Forall2 (fun l d => (h ++ new) !! l = Some d /\ well_formed d) ls ds).
    { eapply Forall2_impl; [exact Hds|]. simpl. intros l d [Hl Hd]. auto. }
    exists (customized_suggestion analysis <$> ds), (h ++ new), ((h ++ new) ++ new).
    split; [exact (get_enhancement_suggestions_stored db analysis h ls ds Hget Hds)|].
    split; [by exists new|]. split; [by auto|].
    split; [eapply db_wf_extend; eauto|].
    split; [|by auto].
    exact (get_enhancement_suggestions_stored db analysis (h ++ new) ls ds Hget Hds').
  - exists [], (h ++ []), ((h ++ []) ++ []).
    split; [exact (get_enhancement_suggestions_stored db analysis h [] [] Hget
                     ltac:(constructor))|].
    split; [by exists []|]. split; [by auto|].
    split; [eapply db_wf_extend; eauto|].
    split; [|by auto].
    exact (get_enhancement_suggestions_stored db analysis (h ++ []) [] [] Hget
             ltac:(constructor)).
  - set (new := [EnhancementDatabase.default_record;
                 customized_record analysis EnhancementDatabase.default_record]).
    exists [customized_suggestion analysis EnhancementDatabase.default_record],
           (h ++ new), ((h ++ new) ++ new).
    split; [by apply get_enhancement_suggestions_default|].
    split; [by exists new|]. split; [by auto|].
    split; [eapply db_wf_extend; eauto|].
    split; [by apply get_enhancement_suggestions_default | by auto].
Qed.

Lemma get_enhancement_suggestions_frame_witness :
  let analysis :=
    {| caption := "a messy bedroom with clothes and papers in a pile";
       room_type := BEDROOM; style := MINIMALIST;
       confidence_scores := ∅; editable_areas := ["furniture: bed"];
       clutter_analysis :=
         {| has_clutter := true; has_empty_spaces := false;
            clutter_level := HIGH; space_utilization := OVERCROWDED |} |} in
  db_wf kb_db kb_store /\
  exists suggestions h' h'',
    get_enhancement_suggestions kb_db analysis kb_store = (Ok suggestions, h') /\
    length suggestions = 4%nat /\
    (forall l d, kb_store !! l = Some d -> h' !! l = Some d) /\
    get_enhancement_suggestions kb_db analysis h' = (Ok suggestions, h'').
Proof.
  intros analysis. split; [exact kb_well_formed|].
  destruct (get_enhancement_suggestions_frame kb_db analysis kb_store kb_well_formed)
    as (suggestions & h' & h'' & Hrun & _ & Hsame & _ & Hagain & _).
  exists suggestions, h', h''. split; [exact Hrun|]. split; [|by split].
  assert (E : (fun r => match r with Ok l => length l | Raise _ => 0%nat end)
                (fst (get_enhancement_suggestions kb_db analysis kb_store)) = 4%nat)
    by (vm_compute; reflexivity).
  by rewrite Hrun in E.
Defined.

(** * Further properties *)

(** ** Strings *)

Lemma append_assoc (a b c : string) : (a +:+ b) +:+ c = a +:+ (b +:+ c).
Proof. induction a as [|x a IH]; [done | exact (f_equal (String x) IH)]. Qed.

Lemma lower_app (a b : string) :
  PyStr.lower (a +:+ b) = PyStr.lower a +:+ PyStr.lower b.
Proof.
  induction a as [|x a IH]; [done | exact (f_equal (String (PyStr.lower_ascii x)) IH)].
Qed.

Lemma lower_ascii_idem (c : ascii) :
  PyStr.lower_ascii (PyStr.lower_ascii c) = PyStr.lower_ascii c.
Proof. by destruct c as [[] [] [] [] [] [] [] []]. Qed.

Lemma lower_idem (s : string) : PyStr.lower (PyStr.lower s) = PyStr.lower s.
Proof.
  induction s as [|c s IH]; simpl; [done|]. by rewrite lower_ascii_idem, IH.
Qed.

Lemma contains_extend (needle pre hay post : string) :
  PyStr.contains needle hay = true ->
  PyStr.contains needle (pre +:+ hay +:+ post) = true.
Proof.
  rewrite !contains_spec. intros (a & b & ->).
  exists (pre +:+ a), (b +:+ post). by rewrite !append_assoc.
Qed.

(** ** Keyword scans grow with the caption *)

Lemma bool_filter_mono {A} (p q : A -> bool) (l : list A) :
  (forall x, p x = true -> q x = true) ->
  sublist (List.filter p l) (List.filter q l).
Proof.
  intros Hpq. induction l as [|a l IH]; simpl; [constructor|].
  destruct (p a) eqn:Hp.
  - rewrite (Hpq a Hp). by constructor.
  - destruct (q a); [by constructor | done].
Qed.

(** X1. Text added around a caption never removes an editable area: the
    areas detected in a caption are, in the same order, among those detected
    in any caption that contains it; and the detector does not look at letter
    case. *)
Theorem detect_editable_areas_monotone (Image : Type) (image : Image)
    (pre text post : string) :
  sublist (_detect_editable_areas Image image text)
          (_detect_editable_areas Image image (pre +:+ text +:+ post)) /\
  _detect_editable_areas Image image (PyStr.lower text)
    = _detect_editable_areas Image image text.
Proof.
  split.
  - unfold _detect_editable_areas. apply flat_map_sublist. intros [category elements].
    apply map_sublist, bool_filter_mono. intros element.
    rewrite !lower_app. apply contains_extend.
  - unfold _detect_editable_areas. by rewrite lower_idem.
Qed.

(** X2. Text added around a caption never clears a clutter or empty-space
    flag and never lowers the clutter level. *)
Theorem analyze_clutter_and_spaces_monotone (Image : Type) (image : Image)
    (pre text post : string) :
  let small := _analyze_clutter_and_spaces Image image text in
  let large := _analyze_clutter_and_spaces Image image (pre +:+ text +:+ post) in
  (has_clutter small = true -> has_clutter large = true) /\
  (has_empty_spaces small = true -> has_empty_spaces large = true) /\
  (level_rank (clutter_level small) <= level_rank (clutter_level large))%nat.
Proof.
  intros small large.
  set (p := fun keyword => PyStr.contains keyword (PyStr.lower text)).
  set (q := fun keyword =>
              PyStr.contains keyword (PyStr.lower (pre +:+ text +:+ post))).
  assert (Hpq : forall k, p k = true -> q k = true).
  { intros k. unfold p, q. rewrite !lower_app. apply contains_extend. }
  assert (Hex : forall l, List.existsb p l = true -> List.existsb q l = true).
  { intros l. rewrite !existsb_elem_of. intros (k & Hk & Hp). exists k. auto. }
  split; [apply Hex|]. split; [apply Hex|].
  pose proof (sublist_length _ _ (bool_filter_mono p q clutter_keywords Hpq)) as Hlen.
  change (clutter_level small) with
    (if (3 <=? length (List.filter p clutter_keywords))%nat then HIGH
     else if (1 <=? length (List.filter p clutter_keywords))%nat then MEDIUM else LOW).
  change (clutter_level large) with
    (if (3 <=? length (List.filter q clutter_keywords))%nat then HIGH
     else if (1 <=? length (List.filter q clutter_keywords))%nat then MEDIUM else LOW).
  repeat match goal with |- context [(?a <=? ?b)%nat] =>
           destruct (Nat.leb_spec a b) end; simpl; lia.
Qed.

(** ** Suggestions on the loaded knowledge base *)

(** Reads the records of a list of the loaded knowledge base in a store that
    extends it. *)
Ltac kb_read Hpre :=
  repeat (constructor;
          [ split; [ eapply prefix_lookup_Some; [|exact Hpre]; reflexivity
                   | repeat split; by eexists ] | ]);
  constructor.

Lemma loaded_suggestions_run (analysis : ImageAnalysisResult)
    (h : list (gmap string string)) :
  kb_store `prefix_of` h ->
  exists h',
    get_enhancement_suggestions kb_db analysis h
    = (Ok (customized_suggestion analysis
             <$> kb_records (room_type analysis) (style analysis)), h') /\
    kb_store `prefix_of` h'.
Proof.
  intros Hpre.
  destruct analysis as [text room sty scores areas clutter].
  destruct room, sty; simpl kb_records;
    first
      [ eexists; split;
        [ eapply get_enhancement_suggestions_stored;
          [ intros h0; reflexivity | kb_read Hpre ]
        | by apply prefix_app_r ]
      | eexists; split;
        [ apply get_enhancement_suggestions_default; intros h0; reflexivity
        | by apply prefix_app_r ] ].
Qed.

Lemma kb_records_head (room : RoomType) (sty : StyleType) :
  exists first rest text,
    kb_records room sty = first :: rest /\
    first !! "priority" = Some "high" /\
    first !! "suggestion" = Some text.
Proof. destruct room, sty; eexists _, _, _; repeat split; reflexivity. Qed.

Lemma customized_priority_high (analysis : ImageAnalysisResult) (text : string) :
  customized_priority analysis text "high" = "high".
Proof. unfold customized_priority. by destruct (_ && _). Qed.

Lemma bool_filter_cons_true {A} (p : A -> bool) (x : A) (l : list A) :
  p x = true -> List.filter p (x :: l) = x :: List.filter p l.
Proof. intros H. simpl. by rewrite H. Qed.

(** X3. On a store that starts with the loaded knowledge base, for every
    analysis [get_enhancement_suggestions] returns the customized records
    that the knowledge base holds for the room type and the style of the
    analysis: four suggestions for living room, kitchen, bedroom and bathroom
    (the style's list where the room has one, the room's "modern" list for
    every other style), and one suggestion, the customized default record,
    for each of the seven other room types.  The store after the call still
    starts with the knowledge base. *)
Theorem get_enhancement_suggestions_loaded (analysis : ImageAnalysisResult)
    (h : list (gmap string string)) :
  kb_store `prefix_of` h ->
  exists suggestions h',
    get_enhancement_suggestions kb_db analysis h = (Ok suggestions, h') /\
    suggestions = customized_suggestion analysis
                    <$> kb_records (room_type analysis) (style analysis) /\
    length suggestions =
      match room_type analysis with
      | LIVING_ROOM | KITCHEN | BEDROOM | BATHROOM => 4%nat
      | _ => 1%nat
      end /\
    kb_store `prefix_of` h'.
Proof.
  intros Hpre. destruct (loaded_suggestions_run analysis h Hpre) as (h' & Hrun & Hpre').
  eexists _, h'. split; [exact Hrun|]. split; [done|]. split; [|done].
  rewrite length_fmap. by destruct (room_type analysis), (style analysis).
Qed.

Lemma get_enhancement_suggestions_loaded_witness :
  let analysis :=
    {| caption := "an office with a desk"; room_type := OFFICE; style := INDUSTRIAL;
       confidence_scores := ∅; editable_areas := [];
       clutter_analysis :=
         {| has_clutter := false; has_empty_spaces := false;
            clutter_level := LOW; space_utilization := WELL_UTILIZED |} |} in
  kb_store `prefix_of` kb_store /\
  exists h',
    get_enhancement_suggestions kb_db analysis kb_store
    = (Ok [ {| suggestion := "Add modern furniture pieces, remove clutter and personal items";
               priority := "high"; category := "general";
               estimated_impact := "high" |} ], h').
Proof.
  intros analysis. split; [done|].
  destruct (get_enhancement_suggestions_loaded analysis kb_store)
    as (suggestions & h' & Hrun & -> & _); [done|].
  exists h'. exact Hrun.
Defined.

(** X4. On a store that starts with the loaded knowledge base, for every
    analysis [get_primary_suggestion] returns the customized text of the
    first record of the list chosen for the room type and style: that record
    has priority "high" in every list and in the default, so the search for
    a medium priority and the fixed fallback string are never reached. *)
Theorem get_primary_suggestion_loaded (analysis : ImageAnalysisResult)
    (h : list (gmap string string)) :
  kb_store `prefix_of` h ->
  exists first rest text h',
    kb_records (room_type analysis) (style analysis) = first :: rest /\
    first !! "priority" = Some "high" /\
    first !! "suggestion" = Some text /\
    get_primary_suggestion kb_db analysis h = (Ok (customized_text analysis text), h').
Proof.
  intros Hpre.
  destruct (kb_records_head (room_type analysis) (style analysis))
    as (first & rest & text & Hk & Hp & Ht).
  destruct (loaded_suggestions_run analysis h Hpre) as (h' & Hrun & _).
  exists first, rest, text, h'. split; [done|]. split; [done|]. split; [done|].
  unfold get_primary_suggestion. rewrite (bind_Ok _ _ _ _ _ Hrun), Hk, fmap_cons.
  assert (Hprio : priority (customized_suggestion analysis first) = "high").
  { unfold customized_suggestion. simpl. rewrite Hp, Ht. apply customized_priority_high. }
  assert (Htext : suggestion (customized_suggestion analysis first)
                  = customized_text analysis text).
  { unfold customized_suggestion. simpl. by rewrite Ht. }
  rewrite bool_filter_cons_true by (by rewrite Hprio).
  by rewrite Htext.
Qed.

Lemma get_primary_suggestion_loaded_witness :
  let analysis :=
    {| caption := "an empty minimalist bedroom"; room_type := BEDROOM;
       style := MINIMALIST; confidence_scores := ∅;
       editable_areas := ["furniture: bed"];
       clutter_analysis :=
         {| has_clutter := false; has_empty_spaces := true;
            clutter_level := LOW; space_utilization := UNDERUTILIZED |} |} in
  kb_store `prefix_of` kb_store /\
  exists h',
    get_primary_suggestion kb_db analysis kb_store
    = (Ok "Add platform bed with clean lines, remove personal items", h').
Proof.
  intros analysis. split; [done|].
  destruct (get_primary_suggestion_loaded analysis kb_store)
    as (first & rest & text & h' & Hk & _ & Ht & Hrun); [done|].
  exists h'. injection Hk as <- _. injection Ht as <-. exact Hrun.
Defined.

(** ** What customization keeps *)

Lemma startswith_app (s t : string) : PyStr.startswith s (s +:+ t) = true.
Proof. apply startswith_spec. by exists t. Qed.

Lemma startswith_refl (s : string) : PyStr.startswith s s = true.
Proof.
  induction s as [|c s IH]; simpl; [done|]. by rewrite Ascii.eqb_refl, IH.
Qed.

Lemma customized_text_prefix (analysis : ImageAnalysisResult) (text : string) :
  PyStr.startswith text (customized_text analysis text) = true.
Proof.
  unfold customized_text. destruct (_ && _); [apply startswith_app | apply startswith_refl].
Qed.

Lemma customized_text_changed (analysis : ImageAnalysisResult) (text : string) :
  customized_text analysis text <> text ->
  clutter_level (clutter_analysis analysis) = HIGH.
Proof.
  unfold customized_text.
  destruct (bool_decide_reflect (clutter_level (clutter_analysis analysis) = HIGH));
    [done | by simpl].
Qed.

Lemma customized_priority_rank (analysis : ImageAnalysisResult) (text prio : string) :
  (priority_rank prio <= priority_rank (customized_priority analysis text prio)
   <= priority_rank prio + 1)%nat /\
  (customized_priority analysis text prio <> prio ->
   has_clutter (clutter_analysis analysis) = true).
Proof.
  unfold customized_priority.
  destruct (has_clutter (clutter_analysis analysis)); simpl; [|split; [lia | done]].
  split; [|done].
  destruct (PyStr.contains "remove" (PyStr.lower text)); [|lia].
  unfold bump.
  destruct (String.eqb_spec prio "low") as [->|Hl]; [vm_compute; lia|].
  destruct (String.eqb_spec prio "medium") as [->|Hm]; [vm_compute; lia | lia].
Qed.

(** X5. On a well-formed store, for every database and analysis, the
    suggestions returned by [get_enhancement_suggestions] match the candidate
    records one for one and in order; each keeps the category and the
    estimated impact of its record, its text starts with the record's text
    and differs from it only when the clutter level is high, and its priority
    is the record's or one level above it, never lower, and differs only when
    clutter was detected. *)
Theorem get_enhancement_suggestions_keeps (db : gmap string (gmap string (list loc)))
    (analysis : ImageAnalysisResult) (h : list (gmap string string)) :
  db_wf db h ->
  exists ls h1 ds suggestions h',
    EnhancementDatabase.get_suggestions db
      (PyStr.replace_underscore_space (RoomType_.value (room_type analysis)))
      (StyleType_.value (style analysis)) h = (Ok ls, h1) /\
    Forall2 (fun l d => h1 !! l = Some d) ls ds /\
    get_enhancement_suggestions db analysis h = (Ok suggestions, h') /\
    Forall2 (fun d s =>
      exists text prio,
        d !! "suggestion" = Some text /\ d !! "priority" = Some prio /\
        d !! "category" = Some (category s) /\
        d !! "estimated_impact" = Some (estimated_impact s) /\
        PyStr.startswith text (suggestion s) = true /\
        (suggestion s <> text -> clutter_level (clutter_analysis analysis) = HIGH) /\
        (priority_rank prio <= priority_rank (priority s) <= priority_rank prio + 1)%nat /\
        (priority s <> prio -> has_clutter (clutter_analysis analysis) = true))
      ds suggestions.
Proof.
  intros Hwf.
  destruct (get_enhancement_suggestions_run db analysis h Hwf)
    as (ls & h1 & ds & Hget & Hds & _ & Hrun).
  exists ls, h1, ds, (customized_suggestion analysis <$> ds),
         (h1 ++ (customized_record analysis <$> ds)).
  split; [done|]. split; [eapply Forall2_impl; [exact Hds|]; by intros ?? [? _]|].
  split; [done|].
  clear Hget Hrun. induction Hds as [|l d ls ds [_ Hd] _ IH]; [constructor|].
  rewrite fmap_cons. constructor; [|exact IH].
  destruct Hd as ([text Ht] & [prio Hp] & [cat Hc] & [impact Hi]).
  exists text, prio. unfold customized_suggestion. simpl. rewrite Ht, Hp, Hc, Hi. simpl.
  split; [done|]. split; [done|]. split; [done|]. split; [done|].
  split; [apply customized_text_prefix|].
  split; [apply customized_text_changed|]. apply customized_priority_rank.
Qed.

Lemma get_enhancement_suggestions_keeps_witness :
  let analysis :=
    {| caption := "a messy kitchen with dishes and a pile of papers";
       room_type := KITCHEN; style := TRADITIONAL; confidence_scores := ∅;
       editable_areas := [];
       clutter_analysis :=
         {| has_clutter := true; has_empty_spaces := false;
            clutter_level := HIGH; space_utilization := OVERCROWDED |} |} in
  db_wf kb_db kb_store /\
  exists suggestions h',
    get_enhancement_suggestions kb_db analysis kb_store = (Ok suggestions, h') /\
    length suggestions = 4%nat.
Proof.
  intros analysis. split; [exact kb_well_formed|].
  destruct (get_enhancement_suggestions_keeps kb_db analysis kb_store kb_well_formed)
    as (ls & h1 & ds & suggestions & h' & Hget & Hds & Hrun & Hkeep).
  exists suggestions, h'. split; [exact Hrun|].
  assert (E : ls = [16; 17; 18; 19]%nat) by (by injection Hget as <- _).
  rewrite <- (Forall2_length _ _ _ Hkeep), <- (Forall2_length _ _ _ Hds), E. reflexivity.
Defined.

(** ** Keys of the knowledge base *)

Lemma lower_replace_space_underscore (s : string) :
  PyStr.lower (PyStr.replace_space_underscore s)
  = PyStr.replace_space_underscore (PyStr.lower s).
Proof.
  induction s as [|c s IH]; simpl; [done|]. rewrite IH. f_equal.
  by destruct c as [[] [] [] [] [] [] [] []].
Qed.

Lemma replace_space_underscore_idem (s : string) :
  PyStr.replace_space_underscore (PyStr.replace_space_underscore s)
  = PyStr.replace_space_underscore s.
Proof.
  induction s as [|c s IH]; simpl; [done|]. rewrite IH. f_equal.
  by destruct c as [[] [] [] [] [] [] [] []].
Qed.

Lemma replace_space_underscore_back (s : string) :
  PyStr.replace_space_underscore (PyStr.replace_underscore_space s)
  = PyStr.replace_space_underscore s.
Proof.
  induction s as [|c s IH]; simpl; [done|]. rewrite IH. f_equal.
  by destruct c as [[] [] [] [] [] [] [] []].
Qed.

Lemma room_key_of_value (room : RoomType) :
  PyStr.lower (PyStr.replace_space_underscore
                 (PyStr.replace_underscore_space (RoomType_.value room)))
  = RoomType_.value room.
Proof. by destruct room. Qed.

(** X6. [get_suggestions] does not depend on the letter case of the room
    type or of the style, nor on whether the room type is written with spaces
    or with underscores: the normalized keys give the same answer as the
    strings they come from, for every database and store.  The room type of
    an analysis, turned to spaces by [get_enhancement_suggestions], is looked
    up under the value of its [RoomType]. *)
Theorem get_suggestions_normalized (db : gmap string (gmap string (list loc)))
    (room style : string) (h : list (gmap string string)) :
  EnhancementDatabase.get_suggestions db
    (PyStr.lower (PyStr.replace_space_underscore room)) (PyStr.lower style) h
  = EnhancementDatabase.get_suggestions db room style h /\
  EnhancementDatabase.get_suggestions db (PyStr.replace_underscore_space room) style h
  = EnhancementDatabase.get_suggestions db room style h /\
  EnhancementDatabase.get_suggestions db (PyStr.lower room) style h
  = EnhancementDatabase.get_suggestions db room style h /\
  (forall r : RoomType,
     PyStr.lower (PyStr.replace_space_underscore
                    (PyStr.replace_underscore_space (RoomType_.value r)))
     = RoomType_.value r).
Proof.
  unfold EnhancementDatabase.get_suggestions. repeat split.
  - by rewrite (lower_replace_space_underscore (PyStr.lower _)), !lower_idem,
      <- (lower_replace_space_underscore (PyStr.replace_space_underscore _)),
      replace_space_underscore_idem.
  - by rewrite replace_space_underscore_back.
  - by rewrite (lower_replace_space_underscore (PyStr.lower _)), lower_idem,
      <- lower_replace_space_underscore.
  - apply room_key_of_value.
Qed.

(** ** Outcomes of [analyze_image] *)

Lemma RoomType_of_value_value (v : string) (room : RoomType) :
  RoomType_.of_value v = Ok room -> RoomType_.value room = v.
Proof.
  unfold RoomType_.of_value.
  destruct (List.find _ RoomType_.members) as [r|] eqn:E; [|done].
  intros [= <-]. apply find_some in E as [_ E]. by apply String.eqb_eq.
Qed.

Lemma StyleType_of_value_value (v : string) (sty : StyleType) :
  StyleType_.of_value v = Ok sty -> StyleType_.value sty = v.
Proof.
  unfold StyleType_.of_value.
  destruct (List.find _ StyleType_.members) as [r|] eqn:E; [|done].
  intros [= <-]. apply find_some in E as [_ E]. by apply String.eqb_eq.
Qed.

(** X7. Whatever the classifier does (return, raise, or return an index
    outside the list), [_identify_room_type] returns one of the 11 room-type
    names and [_identify_style] one of the 10 style names, so the [RoomType]
    and [StyleType] that [analyze_image] builds from them always exist, with
    the returned name as their value. *)
Theorem identified_labels_in_range (Image : Type)
    (clip_classify : Image -> list string -> result (nat * float))
    (image : Image) (text : string) :
  let room := fst (_identify_room_type Image clip_classify image text) in
  let sty := fst (_identify_style Image clip_classify image text) in
  room ∈ room_types /\ sty ∈ style_types /\
  (exists r, RoomType_.of_value (PyStr.replace_space_underscore room) = Ok r /\
             RoomType_.value r = PyStr.replace_space_underscore room) /\
  (exists s, StyleType_.of_value sty = Ok s /\ StyleType_.value s = sty).
Proof.
  intros room sty.
  pose proof (identify_room_type_in Image clip_classify image text) as Hroom.
  pose proof (identify_style_in Image clip_classify image text) as Hsty.
  split; [done|]. split; [done|]. split.
  - destruct (RoomType_of_room_types _ Hroom) as [r Hr].
    exists r. split; [done | by apply RoomType_of_value_value].
  - destruct (StyleType_of_style_types _ Hsty) as [s Hs].
    exists s. split; [done | by apply StyleType_of_value_value].
Qed.

(** X8. [analyze_image] has four outcomes.  If the models cannot be loaded,
    the exception of [ensure_models_loaded] leaves unchanged.  If the file
    does not exist, [ImageProcessingError] is raised with the
    [FileProcessingError] as cause; if the image cannot be opened, with the
    exception of the opening as cause.  Otherwise an analysis is returned:
    its caption is the generated one, its room type and style have the
    identified names as values, its confidence scores are the two
    confidences under "room_type" and "style", and its areas and clutter
    analysis are those of the caption.  So a returned analysis means that the
    models were loaded and the image was opened, and apart from the loading
    every exception is an [ImageProcessingError]. *)
Theorem analyze_image_outcomes (Image : Type)
    (blip_caption : Image -> result string)
    (clip_classify : Image -> list string -> result (nat * float))
    (ensure_models_loaded : result unit)
    (path_exists : string -> bool) (Image_open : string -> result Image)
    (image_path : string) :
  let run := analyze_image Image blip_caption clip_classify ensure_models_loaded
                           path_exists Image_open image_path in
  (forall e, ensure_models_loaded = Raise e -> run = Raise e) /\
  (forall u, ensure_models_loaded = Ok u -> path_exists image_path = false ->
     run = Raise (ImageProcessingError (FileProcessingError image_path))) /\
  (forall u e, ensure_models_loaded = Ok u -> path_exists image_path = true ->
     Image_open image_path = Raise e -> run = Raise (ImageProcessingError e)) /\
  (forall u image, ensure_models_loaded = Ok u -> path_exists image_path = true ->
     Image_open image_path = Ok image ->
     exists analysis,
       run = Ok analysis /\
       caption analysis = _generate_caption Image blip_caption image /\
       RoomType_.value (room_type analysis)
         = PyStr.replace_space_underscore
             (fst (_identify_room_type Image clip_classify image (caption analysis))) /\
       StyleType_.value (style analysis)
         = fst (_identify_style Image clip_classify image (caption analysis)) /\
       confidence_scores analysis
         = {[ "room_type" :=
                snd (_identify_room_type Image clip_classify image (caption analysis));
              "style" :=
                snd (_identify_style Image clip_classify image (caption analysis)) ]} /\
       editable_areas analysis
         = _detect_editable_areas Image image (caption analysis) /\
       clutter_analysis analysis
         = _analyze_clutter_and_spaces Image image (caption analysis)) /\
  (forall analysis, run = Ok analysis ->
     (exists u, ensure_models_loaded = Ok u) /\ path_exists image_path = true /\
     exists image, Image_open image_path = Ok image) /\
  (forall e, run = Raise e ->
     ensure_models_loaded = Raise e \/ exists cause, e = ImageProcessingError cause).
Proof.
  intros run. unfold run, analyze_image.
  split; [by intros e ->|]. split; [by intros u -> ->|].
  split; [by intros u e -> -> ->|]. split; [|split].
  - intros u image -> -> ->. simpl.
    pose proof (identify_room_type_in Image clip_classify image
                  (_generate_caption Image blip_caption image)) as Hroom.
    pose proof (identify_style_in Image clip_classify image
                  (_generate_caption Image blip_caption image)) as Hsty.
    destruct (_identify_room_type _ _ _ _) as [r rc] eqn:Er.
    destruct (_identify_style _ _ _ _) as [s sc] eqn:Es. simpl in Hroom, Hsty.
    destruct (RoomType_of_room_types r Hroom) as [room Hr].
    destruct (StyleType_of_style_types s Hsty) as [sty Hs].
    rewrite Hr, Hs. eexists. split; [reflexivity|]. simpl. rewrite Er, Es. simpl.
    split; [done|]. split; [by apply RoomType_of_value_value|].
    split; [by apply StyleType_of_value_value | done].
  - intros analysis.
    destruct ensure_models_loaded as [u|e]; [|done].
    destruct (path_exists image_path); [|done].
    destruct (Image_open image_path) as [image|e]; [|done].
    intros _. eauto.
  - intros e.
    destruct ensure_models_loaded as [u|e0]; [|intros [= ->]; by left].
    match goal with
    | |- match ?a with Ok _ => _ | Raise _ => _ end = _ -> _ =>
        destruct a as [analysis|e0]; [done|]
    end.
    intros [= <-]. right. by exists e0.
Qed.

(** ** Loading the models *)

Section ManagerFacts.
Context {Model : Type}.
Implicit Types (env : ModelManager.Loaders Model) (self : ModelManager.t Model).

Lemma load_models_returns env self bp bm cp cm :
  ModelManager.BlipProcessor_from_pretrained Model env = Ok bp ->
  ModelManager.BlipForConditionalGeneration_from_pretrained Model env = Ok bm ->
  ModelManager.blip_model_to Model env bm = Ok tt ->
  ModelManager.CLIPProcessor_from_pretrained Model env = Ok cp ->
  ModelManager.CLIPModel_from_pretrained Model env = Ok cm ->
  ModelManager.clip_model_to Model env cm = Ok tt ->
  ModelManager.load_models Model env self
  = (Ok tt,
     {| ModelManager.blip_processor := Some bp;
        ModelManager.blip_model := Some bm;
        ModelManager.clip_processor := Some cp;
        ModelManager.clip_model := Some cm;
        ModelManager._models_loaded := true |}).
Proof. unfold ModelManager.load_models. by intros -> -> -> -> -> ->. Qed.

Lemma load_models_returned env self u :
  fst (ModelManager.load_models Model env self) = Ok u ->
  exists bp bm cp cm,
    ModelManager.BlipProcessor_from_pretrained Model env = Ok bp /\
    ModelManager.BlipForConditionalGeneration_from_pretrained Model env = Ok bm /\
    ModelManager.blip_model_to Model env bm = Ok tt /\
    ModelManager.CLIPProcessor_from_pretrained Model env = Ok cp /\
    ModelManager.CLIPModel_from_pretrained Model env = Ok cm /\
    ModelManager.clip_model_to Model env cm = Ok tt.
Proof.
  unfold ModelManager.load_models.
  destruct (ModelManager.BlipProcessor_from_pretrained Model env) as [bp|]; [|done].
  destruct (ModelManager.BlipForConditionalGeneration_from_pretrained Model env)
    as [bm|]; [|done].
  destruct (ModelManager.blip_model_to Model env bm) as [[]|] eqn:Hb; [|done].
  destruct (ModelManager.CLIPProcessor_from_pretrained Model env) as [cp|]; [|done].
  destruct (ModelManager.CLIPModel_from_pretrained Model env) as [cm|]; [|done].
  destruct (ModelManager.clip_model_to Model env cm) as [[]|] eqn:Hc; [|done].
  intros _. by exists bp, bm, cp, cm.
Qed.

Lemma load_models_raised env self e :
  fst (ModelManager.load_models Model env self) = Raise e ->
  e = ModelLoadingError /\
  ModelManager._models_loaded Model (snd (ModelManager.load_models Model env self))
    = ModelManager._models_loaded Model self.
Proof.
  unfold ModelManager.load_models.
  destruct (ModelManager.BlipProcessor_from_pretrained Model env) as [bp|];
    [|by intros [= <-]].
  destruct (ModelManager.BlipForConditionalGeneration_from_pretrained Model env)
    as [bm|]; [|by intros [= <-]].
  destruct (ModelManager.blip_model_to Model env bm) as [[]|]; [|by intros [= <-]].
  destruct (ModelManager.CLIPProcessor_from_pretrained Model env) as [cp|];
    [|by intros [= <-]].
  destruct (ModelManager.CLIPModel_from_pretrained Model env) as [cm|];
    [|by intros [= <-]].
  destruct (ModelManager.clip_model_to Model env cm) as [[]|]; [done|by intros [= <-]].
Qed.

(** X9. [load_models] returns exactly when its six library calls return,
    and then the four slots hold the loaded objects and the flag is set.
    When a call raises, the exception that leaves is [ModelLoadingError],
    the flag keeps its value, and exactly the slots assigned before the
    failing call hold the new objects while the others keep their old
    content, for each of the six calls: none is written when the BLIP
    processor fails, the BLIP processor when the BLIP model fails, both
    BLIP slots when moving the BLIP model or loading the CLIP processor
    fails, three slots when the CLIP model fails, and all four, with the
    flag still unchanged, when moving the CLIP model fails. *)
Theorem load_models_outcomes env self :
  let out := ModelManager.load_models Model env self in
  let failed := fun bp bm cp cm =>
    (@Raise unit ModelLoadingError,
     {| ModelManager.blip_processor := bp;
        ModelManager.blip_model := bm;
        ModelManager.clip_processor := cp;
        ModelManager.clip_model := cm;
        ModelManager._models_loaded := ModelManager._models_loaded Model self |}) in
  let old_bp := ModelManager.blip_processor Model self in
  let old_bm := ModelManager.blip_model Model self in
  let old_cp := ModelManager.clip_processor Model self in
  let old_cm := ModelManager.clip_model Model self in
  (forall bp bm cp cm,
     ModelManager.BlipProcessor_from_pretrained Model env = Ok bp ->
     ModelManager.BlipForConditionalGeneration_from_pretrained Model env = Ok bm ->
     ModelManager.blip_model_to Model env bm = Ok tt ->
     ModelManager.CLIPProcessor_from_pretrained Model env = Ok cp ->
     ModelManager.CLIPModel_from_pretrained Model env = Ok cm ->
     ModelManager.clip_model_to Model env cm = Ok tt ->
     out = (Ok tt,
            {| ModelManager.blip_processor := Some bp;
               ModelManager.blip_model := Some bm;
               ModelManager.clip_processor := Some cp;
               ModelManager.clip_model := Some cm;
               ModelManager._models_loaded := true |})) /\
  (forall u, fst out = Ok u ->
     exists bp bm cp cm,
       ModelManager.BlipProcessor_from_pretrained Model env = Ok bp /\
       ModelManager.BlipForConditionalGeneration_from_pretrained Model env = Ok bm /\
       ModelManager.blip_model_to Model env bm = Ok tt /\
       ModelManager.CLIPProcessor_from_pretrained Model env = Ok cp /\
       ModelManager.CLIPModel_from_pretrained Model env = Ok cm /\
       ModelManager.clip_model_to Model env cm = Ok tt) /\
  (forall e, fst out = Raise e ->
     e = ModelLoadingError /\
     ModelManager._models_loaded Model (snd out)
       = ModelManager._models_loaded Model self) /\
  (forall e,
     ModelManager.BlipProcessor_from_pretrained Model env = Raise e ->
     out = failed old_bp old_bm old_cp old_cm) /\
  (forall bp e,
     ModelManager.BlipProcessor_from_pretrained Model env = Ok bp ->
     ModelManager.BlipForConditionalGeneration_from_pretrained Model env = Raise e ->
     out = failed (Some bp) old_bm old_cp old_cm) /\
  (forall bp bm e,
     ModelManager.BlipProcessor_from_pretrained Model env = Ok bp ->
     ModelManager.BlipForConditionalGeneration_from_pretrained Model env = Ok bm ->
     ModelManager.blip_model_to Model env bm = Raise e ->
     out = failed (Some bp) (Some bm) old_cp old_cm) /\
  (forall bp bm e,
     ModelManager.BlipProcessor_from_pretrained Model env = Ok bp ->
     ModelManager.BlipForConditionalGeneration_from_pretrained Model env = Ok bm ->
     ModelManager.blip_model_to Model env bm = Ok tt ->
     ModelManager.CLIPProcessor_from_pretrained Model env = Raise e ->
     out = failed (Some bp) (Some bm) old_cp old_cm) /\
  (forall bp bm cp e,
     ModelManager.BlipProcessor_from_pretrained Model env = Ok bp ->
     ModelManager.BlipForConditionalGeneration_from_pretrained Model env = Ok bm ->
     ModelManager.blip_model_to Model env bm = Ok tt ->
     ModelManager.CLIPProcessor_from_pretrained Model env = Ok cp ->
     ModelManager.CLIPModel_from_pretrained Model env = Raise e ->
     out = failed (Some bp) (Some bm) (Some cp) old_cm) /\
  (forall bp bm cp cm e,
     ModelManager.BlipProcessor_from_pretrained Model env = Ok bp ->
     ModelManager.BlipForConditionalGeneration_from_pretrained Model env = Ok bm ->
     ModelManager.blip_model_to Model env bm = Ok tt ->
     ModelManager.CLIPProcessor_from_pretrained Model env = Ok cp ->
     ModelManager.CLIPModel_from_pretrained Model env = Ok cm ->
     ModelManager.clip_model_to Model env cm = Raise e ->
     out = failed (Some bp) (Some bm) (Some cp) (Some cm)).
Proof.
  intros out failed old_bp old_bm old_cp old_cm.
  unfold out, failed, old_bp, old_bm, old_cp, old_cm.
  split; [apply load_models_returns|]. split; [apply load_models_returned|].
  split; [apply load_models_raised|].
  unfold ModelManager.load_models.
  split; [intros e ->; by destruct self|].
  split; [by intros bp e -> ->|].
  split; [by intros bp bm e -> -> ->|].
  split; [by intros bp bm e -> -> -> ->|].
  split; [by intros bp bm cp e -> -> -> -> ->|].
  by intros bp bm cp cm e -> -> -> -> -> ->.
Qed.

Lemma load_models_ready env self :
  manager_ready self -> manager_ready (snd (ModelManager.load_models Model env self)).
Proof.
  unfold manager_ready, ModelManager.load_models. intros Hready.
  destruct (ModelManager.BlipProcessor_from_pretrained Model env) as [bp|]; [|done].
  destruct (ModelManager.BlipForConditionalGeneration_from_pretrained Model env)
    as [bm|]; simpl; [|intros H; destruct (Hready H) as (_ & ? & ? & ?); eauto].
  destruct (ModelManager.blip_model_to Model env bm) as [[]|];
    simpl; [|intros H; destruct (Hready H) as (_ & _ & ? & ?); eauto].
  destruct (ModelManager.CLIPProcessor_from_pretrained Model env) as [cp|];
    simpl; [|intros H; destruct (Hready H) as (_ & _ & ? & ?); eauto].
  destruct (ModelManager.CLIPModel_from_pretrained Model env) as [cm|];
    simpl; [|intros H; destruct (Hready H) as (_ & _ & _ & ?); eauto].
  destruct (ModelManager.clip_model_to Model env cm) as [[]|]; simpl; eauto.
Qed.

(** X10. [ensure_models_loaded] loads at most once: on a manager whose flag
    is set it returns at once and changes nothing, whatever the loaders would
    answer, so after one successful call every later call is without effect.
    A set flag always stands for four loaded objects, from [__init__] on and
    through every call; and a failed call leaves the flag unset, so that the
    next call loads again. *)
Theorem ensure_models_loaded_once env env' self :
  let out := ModelManager.ensure_models_loaded Model env self in
  (ModelManager._models_loaded Model self = true -> out = (Ok tt, self)) /\
  (forall u, fst out = Ok u ->
     ModelManager.models_loaded Model (snd out) = true /\
     ModelManager.ensure_models_loaded Model env' (snd out) = (Ok tt, snd out)) /\
  (forall e, fst out = Raise e ->
     e = ModelLoadingError /\
     ModelManager.models_loaded Model (snd out) = false /\
     ModelManager.ensure_models_loaded Model env' (snd out)
       = ModelManager.load_models Model env' (snd out)) /\
  manager_ready (ModelManager.init Model) /\
  (manager_ready self -> manager_ready (snd out)).
Proof.
  intros out. unfold out, ModelManager.ensure_models_loaded, ModelManager.models_loaded.
  destruct (ModelManager._models_loaded Model self) eqn:Hflag; simpl.
  - split; [done|]. split; [|split; [done|]].
    + intros u _. by rewrite Hflag.
    + split; [done|]. by intros.
  - split; [done|]. split; [|split; [|split; [done|apply load_models_ready]]].
    + intros u Hu.
      assert (Hset : ModelManager._models_loaded Model
                       (snd (ModelManager.load_models Model env self)) = true).
      { destruct (load_models_returned env self u Hu)
          as (bp & bm & cp & cm & H1 & H2 & H3 & H4 & H5 & H6).
        by rewrite (load_models_returns env self bp bm cp cm). }
      by rewrite Hset.
    + intros e He. destruct (load_models_raised env self e He) as [-> Hsame].
      by rewrite Hsame, Hflag.
Qed.

(** X11. After [ensure_models_loaded] of a manager, [analyze_image] lets
    two exceptions out and no other: [ModelLoadingError] when the models
    could not be loaded, and [ImageProcessingError] for everything that
    fails afterwards. *)
Theorem analyze_image_raises (Image : Type)
    (blip_caption : Image -> result string)
    (clip_classify : Image -> list string -> result (nat * float))
    env self (path_exists : string -> bool) (Image_open : string -> result Image)
    (image_path : string) (e : exn) :
  analyze_image Image blip_caption clip_classify
    (fst (ModelManager.ensure_models_loaded Model env self))
    path_exists Image_open image_path = Raise e ->
  e = ModelLoadingError \/ exists cause, e = ImageProcessingError cause.
Proof.
  unfold analyze_image.
  destruct (fst (ModelManager.ensure_models_loaded Model env self)) as [u|e0] eqn:Hens.
  - match goal with
    | |- match ?a with Ok _ => _ | Raise _ => _ end = _ -> _ =>
        destruct a as [analysis|e1]; [done|]
    end.
    intros [= <-]. right. by exists e1.
  - intros [= <-]. left. revert Hens. unfold ModelManager.ensure_models_loaded.
    destruct (negb _); [|done]. intros He. by apply load_models_raised in He as [-> _].
Qed.

End ManagerFacts.

Lemma analyze_image_raises_witness :
  let env :=
    {| ModelManager.BlipProcessor_from_pretrained := Ok tt;
       ModelManager.BlipForConditionalGeneration_from_pretrained :=
         Raise (RuntimeError "connection refused");
       ModelManager.blip_model_to := fun _ => Ok tt;
       ModelManager.CLIPProcessor_from_pretrained := Ok tt;
       ModelManager.CLIPModel_from_pretrained := Ok tt;
       ModelManager.clip_model_to := fun _ => Ok tt |} in
  let run :=
    analyze_image unit (fun _ => Ok "a room") (fun _ _ => Ok (0%nat, 0.5%float))
      (fst (ModelManager.ensure_models_loaded unit env (ModelManager.init unit)))
      (fun _ => true) (fun _ => Ok tt) "room.jpg" in
  run = Raise ModelLoadingError /\
  (ModelLoadingError = ModelLoadingError \/
   exists cause, ModelLoadingError = ImageProcessingError cause).
Proof.
  intros env run. split; [reflexivity|].
  exact (analyze_image_raises unit (fun _ => Ok "a room")
           (fun _ _ => Ok (0%nat, 0.5%float)) env (ModelManager.init unit)
           (fun _ => true) (fun _ => Ok tt) "room.jpg" ModelLoadingError eq_refl).
Defined.

(** ** API key *)

Import Exceptions.

(** X12. [verify_api_key] grants access exactly when no key is configured
    ([None] or the empty string) or the header equals the configured key.
    It never returns [False]: every refusal is an [HTTPException] with
    status 401 and the [WWW-Authenticate] header, with detail
    "API key required. Provide X-API-Key header." for a missing or empty
    header and "Invalid API key" for a wrong one. *)
Theorem verify_api_key_spec (api_key x_api_key : option string) :
  let out := Dependencies.verify_api_key api_key x_api_key in
  (out = Returns true <-> truthy api_key = false \/ x_api_key = api_key) /\
  out <> Returns false /\
  (forall e, out = Raises e ->
     truthy api_key = true /\
     http_status e = 401%Z /\
     headers e = Some [("WWW-Authenticate", "ApiKey")] /\
     detail e = (if truthy x_api_key then "Invalid API key"
                 else "API key required. Provide X-API-Key header.")).
Proof.
  intros out. unfold out, Dependencies.verify_api_key.
  destruct (truthy api_key) eqn:Hk; simpl.
  - destruct (truthy x_api_key) eqn:Hx; simpl.
    + destruct (bool_decide_reflect (x_api_key = api_key)) as [->|Hne]; simpl.
      * split; [split; auto|]. split; [done|]. by intros.
      * split; [split; [done|intros [?|?]; done]|]. split; [done|].
        by intros e [= <-].
    + split; [split; [done|]|].
      * intros [? | ->]; [done|]. by rewrite Hk in Hx.
      * split; [done|]. by intros e [= <-].
  - split; [split; auto|]. split; [done|]. by intros.
Qed.

(** ** Validation and saving of uploads *)

Section FileFacts.
Context (World : Type).
Context (os_path_exists : World -> string -> bool).
Context (os_path_getsize : World -> string -> outcome string Z).
Context (Image_open : World -> string -> outcome string (Z * Z * outcome string unit)).
Context (os_remove : World -> string -> outcome string unit * World).
Context (write_file : World -> string -> list Byte.byte -> outcome string unit * World).
Context (uuid4 : World -> string * World).
Context (path_suffix : string -> string) (os_path_join : string -> string -> string).
Context (max_file_size : Z) (temp_dir max_mb_text supported_formats_text : string).

Local Abbreviation validate_image_file :=
  (FileService.validate_image_file World os_path_exists os_path_getsize Image_open
     path_suffix max_file_size max_mb_text supported_formats_text).
Local Abbreviation cleanup_file := (FileService.cleanup_file World os_path_exists os_remove).
Local Abbreviation save_uploaded_file :=
  (FileService.save_uploaded_file World os_path_exists os_path_getsize Image_open
     os_remove write_file uuid4 path_suffix os_path_join max_file_size temp_dir
     max_mb_text supported_formats_text).
Local Abbreviation create_temp_file_from_upload :=
  (FileService.create_temp_file_from_upload World os_path_exists os_path_getsize
     Image_open os_remove write_file uuid4 path_suffix os_path_join max_file_size
     temp_dir max_mb_text supported_formats_text).

(** The conditions under which a file is accepted. *)
Lemma validate_accepted (w : World) (file_path : string) :
  validate_image_file w file_path = (true, None) <->
  os_path_exists w file_path = true /\
  exists size width height,
    os_path_getsize w file_path = Returns size /\
    size <> 0%Z /\ (size <= max_file_size)%Z /\
    PyStr.lower (path_suffix file_path) ∈ FileService.supported_formats /\
    Image_open w file_path = Returns (width, height, Returns tt) /\
    (32 <= width <= 4096)%Z /\ (32 <= height <= 4096)%Z.
Proof.
  unfold FileService.validate_image_file, FileService.min_dimension,
    FileService.max_dimension.
  destruct (os_path_exists w file_path); simpl; [|split; [done | by intros [? _]]].
  destruct (os_path_getsize w file_path) as [size|?];
    [|split; [done | by intros (_ & ? & ? & ? & ? & _)]].
  destruct (Z.ltb_spec max_file_size size);
    [split; [done | intros (_ & ? & ? & ? & [= <-] & _ & ? & _); lia]|].
  destruct (Z.eqb_spec size 0) as [Hz|Hz];
    [split; [done | intros (_ & ? & ? & ? & [= <-] & ? & _); lia]|].
  destruct (bool_decide_reflect
              (PyStr.lower (path_suffix file_path) ∈ FileService.supported_formats));
    simpl; [|split; [done | by intros (_ & ? & ? & ? & _ & _ & _ & ? & _)]].
  destruct (Image_open w file_path) as [[[width height] verify]|?];
    [|split; [done | by intros (_ & ? & ? & ? & _ & _ & _ & _ & ? & _)]].
  destruct (Z.ltb_spec width 32), (Z.ltb_spec height 32); simpl;
    try (split; [done | intros (_ & ? & ? & ? & _ & _ & _ & _ & [= <- <- _] & ? & ?); lia]).
  destruct (Z.ltb_spec 4096 width), (Z.ltb_spec 4096 height); simpl;
    try (split; [done | intros (_ & ? & ? & ? & _ & _ & _ & _ & [= <- <- _] & ? & ?); lia]).
  destruct verify as [[]|?];
    [|split; [done | by intros (_ & ? & ? & ? & _ & _ & _ & _ & [= _ _ ?] & _)]].
  split; [|done]. intros _. split; [done|].
  exists size, width, height. repeat split; try done; lia.
Qed.

Lemma validate_message (w : World) (file_path : string) :
  (fst (validate_image_file w file_path) = true ->
   snd (validate_image_file w file_path) = None) /\
  (fst (validate_image_file w file_path) = false ->
   is_Some (snd (validate_image_file w file_path))).
Proof.
  unfold FileService.validate_image_file.
  destruct (os_path_exists w file_path); simpl; [|split; [done | by eexists]].
  destruct (os_path_getsize w file_path) as [size|e]; [|split; [done | by eexists]].
  destruct (_ <? _)%Z; [split; [done | by eexists]|].
  destruct (_ =? _)%Z; [split; [done | by eexists]|].
  destruct (negb _); [split; [done | by eexists]|].
  destruct (Image_open w file_path) as [[[width height] verify]|e];
    [|split; [done | by eexists]].
  destruct (_ || _); [split; [done | by eexists]|].
  destruct (_ || _); [split; [done | by eexists]|].
  destruct verify as [[]|e]; split; try done; by eexists.
Qed.

(** X13. [validate_image_file] accepts a file, with no message, exactly
    when the file exists, its size is not zero and at most
    [max_file_size], its lowercased suffix is one of the six supported
    formats, and it opens as an image that passes [verify()] with width and
    height both between 32 and 4096 inclusive.  In every other case,
    exceptions of the file system and of the image library included, it
    returns [False] with a message, and never raises.  The size is checked
    before the suffix and the content, and "too small" wins over "too
    large" when one side is below 32 and the other above 4096. *)
Theorem validate_image_file_spec (w : World) (file_path : string) :
  let out := validate_image_file w file_path in
  (out = (true, None) <->
     os_path_exists w file_path = true /\
     exists size width height,
       os_path_getsize w file_path = Returns size /\
       size <> 0%Z /\ (size <= max_file_size)%Z /\
       PyStr.lower (path_suffix file_path) ∈ FileService.supported_formats /\
       Image_open w file_path = Returns (width, height, Returns tt) /\
       (32 <= width <= 4096)%Z /\ (32 <= height <= 4096)%Z) /\
  (fst out = true -> snd out = None) /\
  (fst out = false -> is_Some (snd out)) /\
  (forall size,
     os_path_exists w file_path = true ->
     os_path_getsize w file_path = Returns size -> (max_file_size < size)%Z ->
     out = (false, Some ("File size exceeds " +:+ max_mb_text +:+ "MB limit"))) /\
  (forall size width height verify,
     os_path_exists w file_path = true ->
     os_path_getsize w file_path = Returns size ->
     size <> 0%Z -> (size <= max_file_size)%Z ->
     PyStr.lower (path_suffix file_path) ∈ FileService.supported_formats ->
     Image_open w file_path = Returns (width, height, verify) ->
     (width < 32)%Z \/ (height < 32)%Z ->
     out = (false, Some "Image too small. Minimum size: 32x32")).
Proof.
  intros out. split; [apply validate_accepted|].
  split; [apply validate_message|]. split; [apply validate_message|].
  unfold out, FileService.validate_image_file, FileService.min_dimension. split.
  - intros size -> -> Hsize. simpl.
    destruct (Z.ltb_spec max_file_size size); [done | lia].
  - intros size width height verify -> -> Hnz Hmax Hext -> Hsmall. simpl.
    destruct (Z.ltb_spec max_file_size size); [lia|].
    destruct (Z.eqb_spec size 0); [done|].
    rewrite (bool_decide_eq_true_2 _ Hext). simpl.
    destruct (Z.ltb_spec width 32), (Z.ltb_spec height 32); simpl; try done; lia.
Qed.

(** X14. [save_uploaded_file] raises nothing but [FileProcessingError]
    (status 422), with a message that starts with "Failed to save file: ".
    The [ValidationError] (status 400) that it raises for a rejected image
    never leaves it: it is caught by the function's own handler and
    wrapped, after [cleanup_file] has been run on the written file.  When
    it returns, the path is [temp_dir] joined with the uuid followed by the
    lowercased suffix of the given name, and the written file passed
    [validate_image_file]. *)
Theorem save_uploaded_file_spec (w : World) (file_content : list Byte.byte)
    (filename content_type : string) :
  let file_path :=
    os_path_join temp_dir (fst (uuid4 w) +:+ PyStr.lower (path_suffix filename)) in
  let written := write_file (snd (uuid4 w)) file_path file_content in
  let out := save_uploaded_file w file_content filename content_type in
  (forall e, fst out = Raises e ->
     class e = FileProcessingError /\ status_code e = 422%Z /\
     PyStr.startswith "Failed to save file: " (message e) = true) /\
  (forall reason,
     fst written = Returns tt ->
     validate_image_file (snd written) file_path = (false, Some reason) ->
     out = (Raises (new FileProcessingError
                      ("Failed to save file: " +:+ "Invalid image file: " +:+ reason)),
            snd (cleanup_file (snd written) file_path))) /\
  (forall p, fst out = Returns p ->
     p = file_path /\ fst written = Returns tt /\
     validate_image_file (snd written) file_path = (true, None) /\
     snd out = snd written).
Proof.
  intros file_path written out.
  unfold out, FileService.save_uploaded_file.
  destruct (uuid4 w) as [uuid w0] eqn:Hu. simpl in file_path, written.
  fold file_path. fold written.
  destruct written as [[[]|e0] w1] eqn:Hw; simpl.
  - pose proof (validate_message w1 file_path) as [Hvt Hvf].
    destruct (validate_image_file w1 file_path) as [[] msg] eqn:Hv; simpl in *.
    + rewrite (Hvt eq_refl). split; [done|]. split; [done|]. by intros p [= <-].
    + destruct (cleanup_file w1 file_path) as [b w2] eqn:Hc. simpl.
      split; [intros e [= <-]; repeat split; apply startswith_app|].
      split; [|done]. intros reason _ [= ->]. done.
  - split; [intros e [= <-]; repeat split; apply startswith_app|].
    split; [done|done].
Qed.

(** X15. [create_temp_file_from_upload] raises nothing but
    [FileProcessingError] (status 422), with a message that starts with
    "Failed to process uploaded file: ": a failure of the read, and every
    failure of [save_uploaded_file], wrapped once more.  A missing or empty
    file name stands for "uploaded_image.jpg".  When it returns, it returns
    what [save_uploaded_file] returned. *)
Theorem create_temp_file_from_upload_spec (w : World)
    (upload_file : FileService.UploadFile) :
  let out := create_temp_file_from_upload w upload_file in
  let name := if truthy (FileService.filename upload_file)
              then default "" (FileService.filename upload_file)
              else "uploaded_image.jpg" in
  let type := if truthy (FileService.content_type upload_file)
              then default "" (FileService.content_type upload_file)
              else "image/jpeg" in
  (forall e, fst out = Raises e ->
     class e = FileProcessingError /\ status_code e = 422%Z /\
     PyStr.startswith "Failed to process uploaded file: " (message e) = true) /\
  (forall content e,
     FileService.file_read upload_file = Returns content ->
     fst (save_uploaded_file w content name type) = Raises e ->
     out = (Raises (new FileProcessingError
                      ("Failed to process uploaded file: " +:+ message e)),
            snd (save_uploaded_file w content name type))) /\
  (forall p, fst out = Returns p ->
     exists content,
       FileService.file_read upload_file = Returns content /\
       out = save_uploaded_file w content name type).
Proof.
  intros out name type. unfold out, FileService.create_temp_file_from_upload.
  fold name. fold type.
  destruct (FileService.file_read upload_file) as [content|e0]; simpl.
  - destruct (save_uploaded_file w content name type) as [[p|e1] w1] eqn:Hs; simpl.
    + split; [done|]. split; [intros content' e [= <-]; by rewrite Hs|].
      intros p' [= <-]. by exists content.
    + split; [intros e [= <-]; repeat split; apply startswith_app|].
      split; [|done]. intros content' e [= <-]. rewrite Hs. by intros [= <-].
  - split; [intros e [= <-]; repeat split; apply startswith_app|].
    split; [done|done].
Qed.

End FileFacts.

(** ** Endpoints *)

Section EndpointFacts.
Context (S : Type).
Context (create_temp_file_from_upload :
           S -> FileService.UploadFile -> outcome raised string * S).
Context (optimize_image_for_processing : S -> string -> outcome raised string * S).
Context (cleanup_file : S -> string -> bool * S).
Context (analyze_image_service : S -> string -> outcome raised ImageAnalysisResult * S).
Context (get_enhancement_suggestions :
           S -> ImageAnalysisResult -> outcome raised (list EnhancementSuggestion) * S).
Context (get_primary_suggestion : S -> ImageAnalysisResult -> outcome raised string * S).
Context (time_time : S -> float).

Local Abbreviation analyze_image_endpoint :=
  (Routes.analyze_image S create_temp_file_from_upload optimize_image_for_processing
     cleanup_file analyze_image_service).
Local Abbreviation process_image_endpoint :=
  (Routes.process_image S create_temp_file_from_upload optimize_image_for_processing
     cleanup_file analyze_image_service get_enhancement_suggestions
     get_primary_suggestion time_time).
Local Abbreviation cleanup := (Routes.cleanup S cleanup_file).

Lemma is_image_false (file : FileService.UploadFile) :
  Routes.is_image file = false <->
  FileService.content_type file = None \/
  FileService.content_type file = Some "" \/
  exists type, FileService.content_type file = Some type /\
               PyStr.startswith "image/" type = false.
Proof.
  unfold Routes.is_image, truthy.
  destruct (FileService.content_type file) as [type|]; simpl; [|split; auto].
  destruct (String.eqb_spec type "") as [->|Hne]; simpl.
  - split; auto.
  - split.
    + intros H. right. right. by exists type.
    + intros [?|[[= ?]|(type' & [= <-] & H)]]; done.
Qed.

Lemma handle_returns {A} (attempt : outcome raised A) (a : A) :
  Routes.handle attempt = Returns a -> attempt = Returns a.
Proof. destruct attempt as [a'|[ai|h|str]]; simpl; [by intros [= ->] | done..]. Qed.

Lemma cleanup_temp_only (s : S) (temp : string) :
  cleanup s (Some temp) None
  = if bool_decide (temp = "") then s else snd (cleanup_file s temp).
Proof.
  unfold Routes.cleanup, truthy. cbn [default andb negb id].
  destruct (String.eqb_spec temp ""); case_bool_decide; simplify_eq/=; done.
Qed.

Lemma cleanup_both (s : S) (temp path : string) :
  let clean := fun s path =>
    if bool_decide (path = "") then s else snd (cleanup_file s path) in
  cleanup s (Some temp) (Some path)
  = if bool_decide (path = temp) then clean s temp else clean (clean s temp) path.
Proof.
  intros clean. unfold clean, Routes.cleanup, truthy. cbn [default andb negb id].
  destruct (String.eqb_spec temp ""), (String.eqb_spec path "");
    repeat case_bool_decide; simplify_eq/=; done.
Qed.

(** X16. An upload whose content type is missing, empty or does not start
    with "image/" is answered by both endpoints with status 500 and detail
    "Internal server error": the [HTTPException] with status 400 and detail
    "File must be an image" that the body raises is caught by the
    endpoint's own [except Exception] clause.  No service is called and
    nothing is cleaned up. *)
Theorem non_image_upload_gives_500 (s : S) (file : FileService.UploadFile) :
  FileService.content_type file = None \/
  FileService.content_type file = Some "" \/
  (exists type, FileService.content_type file = Some type /\
                PyStr.startswith "image/" type = false) ->
  analyze_image_endpoint s file
  = (Raises {| http_status := 500; detail := "Internal server error";
               headers := None |}, s) /\
  process_image_endpoint s file
  = (Raises {| http_status := 500; detail := "Internal server error";
               headers := None |}, s).
Proof.
  intros H. apply is_image_false in H.
  unfold Routes.analyze_image, Routes.process_image. by rewrite H.
Qed.

(** X17. The [analyze_image] endpoint raises exactly in two ways, and sets
    no headers: with the status code and the message of the application
    exception that [create_temp_file_from_upload],
    [optimize_image_for_processing] or the service's [analyze_image]
    raised, the first of them that raises; or with status 500 and "Internal
    server error", when the upload is not an image or the first service to
    raise raised something else.  It returns exactly the analysis that the
    service returned after the two file calls returned.  When
    [create_temp_file_from_upload] raises, nothing is cleaned up;
    once it has returned a path, [cleanup_file] is run on that path
    whatever happens afterwards, and then on the optimized path if that is
    a different one (an empty path is skipped). *)
Theorem analyze_image_endpoint_spec (s : S) (file : FileService.UploadFile) :
  let out := analyze_image_endpoint s file in
  let r1 := create_temp_file_from_upload s file in
  let r2 := fun temp => optimize_image_for_processing (snd r1) temp in
  let r3 := fun temp path => analyze_image_service (snd (r2 temp)) path in
  let raised_by := fun x =>
    fst r1 = Raises x \/
    exists temp, fst r1 = Returns temp /\
      (fst (r2 temp) = Raises x \/
       exists path, fst (r2 temp) = Returns path /\ fst (r3 temp path) = Raises x) in
  let clean := fun s path =>
    if bool_decide (path = "") then s else snd (cleanup_file s path) in
  (forall e, fst out = Raises e <->
     (exists ai, Routes.is_image file = true /\ raised_by (AI ai) /\
        e = {| http_status := status_code ai; detail := message ai;
               headers := None |}) \/
     (e = {| http_status := 500; detail := "Internal server error";
             headers := None |} /\
      (Routes.is_image file = false \/
       exists x, raised_by x /\ forall ai, x <> AI ai))) /\
  (forall a, fst out = Returns a <->
     Routes.is_image file = true /\
     exists temp path, fst r1 = Returns temp /\ fst (r2 temp) = Returns path /\
       fst (r3 temp path) = Returns a) /\
  (Routes.is_image file = false -> snd out = s) /\
  (Routes.is_image file = true ->
     (forall x, fst r1 = Raises x -> snd out = snd r1) /\
     (forall temp x, fst r1 = Returns temp -> fst (r2 temp) = Raises x ->
        snd out = clean (snd (r2 temp)) temp) /\
     (forall temp path, fst r1 = Returns temp -> fst (r2 temp) = Returns path ->
        snd out = if bool_decide (path = temp)
                  then clean (snd (r3 temp path)) temp
                  else clean (clean (snd (r3 temp path)) temp) path)).
Proof.
  intros out r1 r2 r3 raised_by clean.
  unfold out, raised_by, r3, r2, r1, Routes.analyze_image. clear.
  destruct (Routes.is_image file); cbn [fst snd negb].
  2:{ split; [|split; [|done]].
      - intros e. split.
        + intros [= <-]. right. split; [done | by left].
        + intros [(ai & ? & _)|[-> _]]; done.
      - intros a. split; [done | by intros [? _]]. }
  destruct (create_temp_file_from_upload s file) as [[temp|x1] s1];
    cbn [fst snd negb].
  2:{ split; [|split; [|split; [done|]]].
      - intros e. split.
        + destruct x1 as [ai|h|str]; intros [= <-].
          * left. exists ai. split; [done|]. split; [by left | done].
          * right. split; [done|]. right. exists (HTTP h). split; [by left | done].
          * right. split; [done|]. right. exists (Other str). split; [by left | done].
        + intros [(ai & _ & [[= ->]|(t & [=] & _)] & ->)
                 |[-> [[=]|(x & [[= ->]|(t & [=] & _)] & Hx)]]]; [done|].
          destruct x as [ai|h|str]; [by destruct (Hx ai) | done..].
      - intros a. split; [by intros Ha%handle_returns|].
        intros (_ & t & p & [=] & _).
      - intros _. split; [done|]. split; done. }
  destruct (optimize_image_for_processing s1 temp) as [[path|x2] s2] eqn:H2;
    cbn [fst snd negb].
  2:{ split; [|split; [|split; [done|]]].
      - intros e. split.
        + destruct x2 as [ai|h|str]; intros [= <-].
          * left. exists ai. split; [done|]. split; [|done].
            right. exists temp. split; [done|]. left. by rewrite H2.
          * right. split; [done|]. right. exists (HTTP h). split; [|done].
            right. exists temp. split; [done|]. left. by rewrite H2.
          * right. split; [done|]. right. exists (Other str). split; [|done].
            right. exists temp. split; [done|]. left. by rewrite H2.
        + assert (Hx : forall x,
                    (Returns temp = Raises x \/
                     exists t, @Returns raised string temp = Returns t /\
                       (fst (optimize_image_for_processing s1 t) = Raises x \/
                        exists p, fst (optimize_image_for_processing s1 t) = Returns p /\
                          fst (analyze_image_service
                                 (snd (optimize_image_for_processing s1 t)) p)
                          = Raises x)) -> x = x2).
          { intros x [[=]|(t & [= <-] & H)]. rewrite H2 in H. simpl in H.
            destruct H as [[= ->]|(p & [=] & _)]. done. }
          intros [(ai & _ & H & ->)|[-> [[=]|(x & H & Hne)]]]; apply Hx in H; subst.
          * done.
          * destruct x2 as [ai|h|str]; [by destruct (Hne ai) | done..].
      - intros a. split; [by intros Ha%handle_returns|].
        intros (_ & t & p & [= <-] & H & _). by rewrite H2 in H.
      - intros _. split; [done|]. split.
        + intros t x [= <-] _. rewrite H2. apply cleanup_temp_only.
        + intros t p [= <-] H. by rewrite H2 in H. }
  destruct (analyze_image_service s2 path) as [[a|x3] s3] eqn:H3; cbn [fst snd negb].
  - split; [|split; [|split; [done|]]].
    + intros e. split; [done|].
      assert (Hx : forall x,
                (Returns temp = Raises x \/
                 exists t, @Returns raised string temp = Returns t /\
                   (fst (optimize_image_for_processing s1 t) = Raises x \/
                    exists p, fst (optimize_image_for_processing s1 t) = Returns p /\
                      fst (analyze_image_service
                             (snd (optimize_image_for_processing s1 t)) p)
                      = Raises x)) -> False).
      { intros x [[=]|(t & [= <-] & H)]. rewrite H2 in H. simpl in H.
        destruct H as [[=]|(p & [= <-] & H)]. by rewrite H3 in H. }
      intros [(ai & _ & H & _)|[_ [[=]|(x & H & _)]]]; by apply Hx in H.
    + intros a'. split.
      * intros [= <-]. split; [done|]. exists temp, path. rewrite H2. simpl.
        by rewrite H3.
      * intros (_ & t & p & [= <-] & H & H'). rewrite H2 in H, H'. simpl in H, H'.
        injection H as <-. rewrite H3 in H'. simpl in H'. by injection H' as <-.
    + intros _. split; [done|]. split.
      * intros t x [= <-] H. by rewrite H2 in H.
      * intros t p [= <-] H. rewrite H2 in H |- *. simpl in H. injection H as <-.
        simpl. rewrite H3. simpl. apply cleanup_both.
  - split; [|split; [|split; [done|]]].
    + intros e.
      assert (Hby : Returns temp = Raises x3 \/
                 exists t, @Returns raised string temp = Returns t /\
                   (fst (optimize_image_for_processing s1 t) = Raises x3 \/
                    exists p, fst (optimize_image_for_processing s1 t) = Returns p /\
                      fst (analyze_image_service
                             (snd (optimize_image_for_processing s1 t)) p)
                      = Raises x3)).
      { right. exists temp. split; [done|]. right. exists path. rewrite H2. simpl.
        by rewrite H3. }
      assert (Hx : forall x,
                (Returns temp = Raises x \/
                 exists t, @Returns raised string temp = Returns t /\
                   (fst (optimize_image_for_processing s1 t) = Raises x \/
                    exists p, fst (optimize_image_for_processing s1 t) = Returns p /\
                      fst (analyze_image_service
                             (snd (optimize_image_for_processing s1 t)) p)
                      = Raises x)) -> x = x3).
      { intros x [[=]|(t & [= <-] & H)]. rewrite H2 in H. simpl in H.
        destruct H as [[=]|(p & [= <-] & H)]. rewrite H3 in H. by injection H. }
      split.
      * destruct x3 as [ai|h|str]; intros [= <-].
        -- left. by exists ai.
        -- right. split; [done|]. right. by exists (HTTP h).
        -- right. split; [done|]. right. by exists (Other str).
      * intros [(ai & _ & H & ->)|[-> [[=]|(x & H & Hne)]]]; apply Hx in H; subst.
        -- done.
        -- destruct x3 as [ai|h|str]; [by destruct (Hne ai) | done..].
    + intros a. split; [by intros Ha%handle_returns|].
      intros (_ & t & p & [= <-] & H & H'). rewrite H2 in H, H'. simpl in H, H'.
      injection H as <-. by rewrite H3 in H'.
    + intros _. split; [done|]. split.
      * intros t x [= <-] H. by rewrite H2 in H.
      * intros t p [= <-] H. rewrite H2 in H |- *. simpl in H. injection H as <-.
        simpl. rewrite H3. simpl. apply cleanup_both.
Qed.

(** Closes the case of an endpoint whose body has raised. *)
Lemma handle_first_raised {A} (raised_by : raised -> Prop) (x0 : raised)
    (e : HTTPException) (image : bool) :
  image = true -> raised_by x0 -> (forall x, raised_by x -> x = x0) ->
  @Routes.handle A (Raises x0) = Raises e <->
  (exists ai, image = true /\ raised_by (AI ai) /\
     e = {| http_status := status_code ai; detail := message ai; headers := None |}) \/
  (e = {| http_status := 500; detail := "Internal server error"; headers := None |} /\
   (image = false \/ exists x, raised_by x /\ forall ai, x <> AI ai)).
Proof.
  intros -> Hby Hx. split.
  - destruct x0 as [ai|h|str]; intros [= <-].
    + left. by exists ai.
    + right. split; [done|]. right. by exists (HTTP h).
    + right. split; [done|]. right. by exists (Other str).
  - intros [(ai & _ & H & ->)|[-> [[=]|(x & H & Hne)]]]; apply Hx in H; subst.
    + done.
    + destruct x0 as [ai|h|str]; [by destruct (Hne ai) | done..].
Qed.

Lemma handle_none_raised {A} (raised_by : raised -> Prop) (a : A)
    (e : HTTPException) (image : bool) :
  image = true -> (forall x, raised_by x -> False) ->
  Routes.handle (Returns a) = Raises e <->
  (exists ai, image = true /\ raised_by (AI ai) /\
     e = {| http_status := status_code ai; detail := message ai; headers := None |}) \/
  (e = {| http_status := 500; detail := "Internal server error"; headers := None |} /\
   (image = false \/ exists x, raised_by x /\ forall ai, x <> AI ai)).
Proof.
  intros -> Hx. split; [done|].
  intros [(ai & _ & H & _)|[_ [[=]|(x & H & _)]]]; by apply Hx in H.
Qed.

Ltac calls :=
  repeat (simplify_eq/=;
    try match goal with
    | H : _ /\ _ |- _ => destruct H
    | H : exists _, _ |- _ => destruct H
    | H : _ \/ _ |- _ => destruct H
    | E : ?f ?a ?b = (_, _), H : context [?f ?a ?b] |- _ =>
        lazymatch type of H with
        | f a b = (_, _) => fail
        | _ => rewrite E in H
        end
    | E : ?f ?a ?b = (_, _) |- context [?f ?a ?b] => rewrite E
    end).

(** X18. The [process_image] endpoint raises exactly in two ways, and sets
    no headers: with the status code and the message of the application
    exception raised by the first of its five service calls that raises
    ([create_temp_file_from_upload], [optimize_image_for_processing],
    [analyze_image], [get_enhancement_suggestions],
    [get_primary_suggestion], each run on the state that the one before
    left); or with status 500 and "Internal server error", when the upload
    is not an image or that first exception is of another kind.  It returns
    a response exactly when all five calls return: the response reports
    success and carries the analysis, the suggestions returned for it, the
    text that [get_primary_suggestion] returned for it afterwards, and the
    difference of the two readings of the clock.  When
    [create_temp_file_from_upload] raises, nothing is cleaned up; once it
    has returned a path, [cleanup_file] is run on that path after the last
    service call made, whatever happened, and then on the optimized path
    if that is a different one (an empty path is skipped). *)
Theorem process_image_endpoint_spec (s : S) (file : FileService.UploadFile) :
  let out := process_image_endpoint s file in
  let r1 := create_temp_file_from_upload s file in
  let r2 := fun temp => optimize_image_for_processing (snd r1) temp in
  let r3 := fun temp path => analyze_image_service (snd (r2 temp)) path in
  let r4 := fun temp path a => get_enhancement_suggestions (snd (r3 temp path)) a in
  let r5 := fun temp path a => get_primary_suggestion (snd (r4 temp path a)) a in
  let raised_by := fun x =>
    fst r1 = Raises x \/
    exists temp, fst r1 = Returns temp /\
      (fst (r2 temp) = Raises x \/
       exists path, fst (r2 temp) = Returns path /\
         (fst (r3 temp path) = Raises x \/
          exists a, fst (r3 temp path) = Returns a /\
            (fst (r4 temp path a) = Raises x \/
             exists l, fst (r4 temp path a) = Returns l /\
               fst (r5 temp path a) = Raises x))) in
  let clean := fun s path =>
    if bool_decide (path = "") then s else snd (cleanup_file s path) in
  (forall e, fst out = Raises e <->
     (exists ai, Routes.is_image file = true /\ raised_by (AI ai) /\
        e = {| http_status := status_code ai; detail := message ai;
               headers := None |}) \/
     (e = {| http_status := 500; detail := "Internal server error";
             headers := None |} /\
      (Routes.is_image file = false \/
       exists x, raised_by x /\ forall ai, x <> AI ai))) /\
  (forall r, fst out = Returns r <->
     Routes.is_image file = true /\
     exists temp path a l text,
       fst r1 = Returns temp /\ fst (r2 temp) = Returns path /\
       fst (r3 temp path) = Returns a /\ fst (r4 temp path a) = Returns l /\
       fst (r5 temp path a) = Returns text /\
       r = {| Routes.success := true;
              Routes.response_message := "Image processed successfully";
              Routes.analysis := Some a;
              Routes.enhancement_suggestion := text;
              Routes.suggestions := Some l;
              Routes.processing_time :=
                (time_time (snd (r5 temp path a)) - time_time s)%float |}) /\
  (Routes.is_image file = false -> snd out = s) /\
  (Routes.is_image file = true ->
     (forall x, fst r1 = Raises x -> snd out = snd r1) /\
     (forall temp x, fst r1 = Returns temp -> fst (r2 temp) = Raises x ->
        snd out = clean (snd (r2 temp)) temp) /\
     (forall temp path, fst r1 = Returns temp -> fst (r2 temp) = Returns path ->
        let last :=
          match fst (r3 temp path) with
          | Raises _ => snd (r3 temp path)
          | Returns a =>
              match fst (r4 temp path a) with
              | Raises _ => snd (r4 temp path a)
              | Returns _ => snd (r5 temp path a)
              end
          end in
        snd out = if bool_decide (path = temp) then clean last temp
                  else clean (clean last temp) path)).
Proof.
  intros out r1 r2 r3 r4 r5 raised_by clean.
  unfold out, Routes.process_image.
  destruct (Routes.is_image file); cbn [fst snd negb].
  2:{ split; [|split; [|done]].
      - intros e. split.
        + intros [= <-]. right. split; [done | by left].
        + intros [(ai & ? & _)|[-> _]]; done.
      - intros r. split; [done | by intros [? _]]. }
  destruct (create_temp_file_from_upload s file) as [[temp|x1] s1] eqn:H1;
    cbn [fst snd negb].
  2:{ assert (Hby : raised_by x1).
      { unfold raised_by, r1. left. by rewrite ?H1. }
      assert (Hx : forall x, raised_by x -> x = x1).
      { unfold raised_by, r5, r4, r3, r2, r1. intros x H. by calls. }
      split; [intros e; by apply handle_first_raised|].
      split; [|split; [done|]].
      - intros r. split; [by intros Hr%handle_returns|].
        unfold r1. intros H. by calls.
      - intros _. unfold r2, r1. rewrite ?H1. split; [done|]. split; intros; by calls. }
  destruct (optimize_image_for_processing s1 temp) as [[path|x2] s2] eqn:H2;
    cbn [fst snd negb].
  2:{ assert (Hby : raised_by x2).
      { unfold raised_by, r2, r1. right. exists temp. rewrite ?H1. split; [done|].
        left. simpl. by rewrite H2. }
      assert (Hx : forall x, raised_by x -> x = x2).
      { unfold raised_by, r5, r4, r3, r2, r1. intros x H. rewrite ?H1 in H. by calls. }
      split; [intros e; by apply handle_first_raised|].
      split; [|split; [done|]].
      - intros r. split; [by intros Hr%handle_returns|].
        unfold r2, r1. rewrite ?H1. intros H. by calls.
      - intros _. unfold clean, r3, r2, r1. rewrite ?H1. simpl.
        split; [done|]. split.
        + intros t x ? ?. calls. apply cleanup_temp_only.
        + intros t p ? H. by calls. }
  destruct (analyze_image_service s2 path) as [[a|x3] s3] eqn:H3; cbn [fst snd negb].
  2:{ assert (Hby : raised_by x3).
      { unfold raised_by, r3, r2, r1. right. exists temp. rewrite ?H1. split; [done|].
        right. exists path. simpl. rewrite H2. split; [done|]. left. simpl.
        by rewrite H3. }
      assert (Hx : forall x, raised_by x -> x = x3).
      { unfold raised_by, r5, r4, r3, r2, r1. intros x H. rewrite ?H1 in H. by calls. }
      split; [intros e; by apply handle_first_raised|].
      split; [|split; [done|]].
      - intros r. split; [by intros Hr%handle_returns|].
        unfold r3, r2, r1. rewrite ?H1. intros H. by calls.
      - intros _. unfold clean, r5, r4, r3, r2, r1. rewrite ?H1. simpl.
        split; [done|]. split.
        + intros t x ? ?. by calls.
        + intros t p ? H. calls. apply cleanup_both. }
  destruct (get_enhancement_suggestions s3 a) as [[l|x4] s4] eqn:H4;
    cbn [fst snd negb].
  2:{ assert (Hby : raised_by x4).
      { unfold raised_by, r4, r3, r2, r1. right. exists temp. rewrite ?H1.
        split; [done|]. right. exists path. simpl. rewrite H2. split; [done|].
        right. exists a. simpl. rewrite H3. split; [done|]. left. simpl.
        by rewrite H4. }
      assert (Hx : forall x, raised_by x -> x = x4).
      { unfold raised_by, r5, r4, r3, r2, r1. intros x H. rewrite ?H1 in H. by calls. }
      split; [intros e; by apply handle_first_raised|].
      split; [|split; [done|]].
      - intros r. split; [by intros Hr%handle_returns|].
        unfold r4, r3, r2, r1. rewrite ?H1. intros H. by calls.
      - intros _. unfold clean, r5, r4, r3, r2, r1. rewrite ?H1. simpl.
        split; [done|]. split.
        + intros t x ? ?. by calls.
        + intros t p ? H. calls. apply cleanup_both. }
  destruct (get_primary_suggestion s4 a) as [[text|x5] s5] eqn:H5;
    cbn [fst snd negb].
  2:{ assert (Hby : raised_by x5).
      { unfold raised_by, r5, r4, r3, r2, r1. right. exists temp. rewrite ?H1.
        split; [done|]. right. exists path. simpl. rewrite H2. split; [done|].
        right. exists a. simpl. rewrite H3. split; [done|]. right. exists l.
        simpl. rewrite H4. split; [done|]. simpl. by rewrite H5. }
      assert (Hx : forall x, raised_by x -> x = x5).
      { unfold raised_by, r5, r4, r3, r2, r1. intros x H. rewrite ?H1 in H. by calls. }
      split; [intros e; by apply handle_first_raised|].
      split; [|split; [done|]].
      - intros r. split; [by intros Hr%handle_returns|].
        unfold r5, r4, r3, r2, r1. rewrite ?H1. intros H. by calls.
      - intros _. unfold clean, r5, r4, r3, r2, r1. rewrite ?H1. simpl.
        split; [done|]. split.
        + intros t x ? ?. by calls.
        + intros t p ? H. calls. apply cleanup_both. }
  assert (Hx : forall x, raised_by x -> False).
  { unfold raised_by, r5, r4, r3, r2, r1. intros x H. rewrite ?H1 in H. by calls. }
  split; [intros e; by apply handle_none_raised|].
  split; [|split; [done|]].
  - intros r. unfold r5, r4, r3, r2, r1. rewrite ?H1. simpl. split.
    + intros [= <-]. split; [done|]. exists temp, path, a, l, text.
      rewrite H2. simpl. rewrite H3. simpl. rewrite H4. simpl. by rewrite H5.
    + intros H. by calls.
  - intros _. unfold clean, r5, r4, r3, r2, r1. rewrite ?H1. simpl.
    split; [done|]. split.
    + intros t x ? ?. by calls.
    + intros t p ? H. calls. apply cleanup_both.
Qed.

End EndpointFacts.

Lemma non_image_upload_gives_500_witness :
  let file := {| FileService.file_read := Returns [];
                 FileService.filename := Some "notes.txt";
                 FileService.content_type := Some "text/plain" |} in
  let analyze := fun (s : unit) (_ : string) =>
                   (@Raises raised ImageAnalysisResult (Other "unused"), s) in
  (FileService.content_type file = None \/
   FileService.content_type file = Some "" \/
   (exists type, FileService.content_type file = Some type /\
                 PyStr.startswith "image/" type = false)) /\
  fst (Routes.analyze_image unit (fun s _ => (Returns "temp/a.txt", s))
         (fun s p => (Returns p, s)) (fun s _ => (true, s)) analyze tt file)
  = Raises {| http_status := 500; detail := "Internal server error"; headers := None |}.
Proof.
  intros file analyze.
  assert (H : FileService.content_type file = None \/
              FileService.content_type file = Some "" \/
              (exists type, FileService.content_type file = Some type /\
                            PyStr.startswith "image/" type = false)).
  { right. right. by exists "text/plain". }
  split; [exact H|].
  destruct (non_image_upload_gives_500 unit (fun s _ => (Returns "temp/a.txt", s))
              (fun s p => (Returns p, s)) (fun s _ => (true, s)) analyze
              (fun s _ => (Returns [], s)) (fun s _ => (Returns "", s))
              (fun _ => 0%float) tt file H) as [-> _].
  reflexivity.
Defined.

(** ** The two calls of [process_image] *)

Lemma selection_first (suggestions : list EnhancementSuggestion) :
  let text :=
    match List.filter (fun s => String.eqb (priority s) "high") suggestions with
    | s :: _ => suggestion s
    | [] =>
        match List.filter (fun s => String.eqb (priority s) "medium") suggestions with
        | s :: _ => suggestion s
        | [] =>
            match suggestions with
            | s :: _ => suggestion s
            | [] => "Add modern furniture pieces, remove clutter and personal items"
            end
        end
    end in
  (forall s, first_such (fun s => priority s = "high") suggestions s ->
     text = suggestion s) /\
  ((forall s, s ∈ suggestions -> priority s <> "high") ->
   forall s, first_such (fun s => priority s = "medium") suggestions s ->
     text = suggestion s) /\
  ((forall s, s ∈ suggestions -> priority s <> "high" /\ priority s <> "medium") ->
   forall s rest, suggestions = s :: rest -> text = suggestion s) /\
  (suggestions = [] ->
   text = "Add modern furniture pieces, remove clutter and personal items").
Proof.
  intros text. unfold text. clear text. split; [|split; [|split]].
  - intros s Hs.
    destruct (List.filter (fun s => String.eqb (priority s) "high") suggestions)
      as [|s' rest] eqn:E.
    + destruct Hs as (pre & post & Hl & Hp & _).
      destruct (proj1 (filter_priority_nil "high" suggestions) E s); [|done].
      rewrite Hl, elem_of_app, elem_of_cons. auto.
    + apply filter_priority_head in E. by rewrite (first_such_unique _ _ _ _ Hs E).
  - intros Hnone s Hs.
    apply (filter_priority_nil "high") in Hnone. rewrite Hnone. clear Hnone.
    destruct (List.filter (fun s => String.eqb (priority s) "medium") suggestions)
      as [|s' rest] eqn:E.
    + destruct Hs as (pre & post & Hl & Hp & _).
      destruct (proj1 (filter_priority_nil "medium" suggestions) E s); [|done].
      rewrite Hl, elem_of_app, elem_of_cons. auto.
    + apply filter_priority_head in E. by rewrite (first_such_unique _ _ _ _ Hs E).
  - intros Hnone s rest Hl.
    assert (Hh : List.filter (fun s => String.eqb (priority s) "high") suggestions = []).
    { apply filter_priority_nil. intros x Hx. by apply Hnone. }
    assert (Hm : List.filter (fun s => String.eqb (priority s) "medium") suggestions = []).
    { apply filter_priority_nil. intros x Hx. by apply Hnone. }
    by rewrite Hh, Hm, Hl.
  - by intros ->.
Qed.

Lemma get_enhancement_suggestions_twice (db : gmap string (gmap string (list loc)))
    (analysis : ImageAnalysisResult) (h : list (gmap string string)) :
  db_wf db h ->
  exists suggestions h1 h2,
    get_enhancement_suggestions db analysis h = (Ok suggestions, h1) /\
    get_enhancement_suggestions db analysis h1 = (Ok suggestions, h2) /\
    h `prefix_of` h2.
Proof.
  intros Hwf.
  destruct (get_suggestions_cases db
              (PyStr.replace_underscore_space (RoomType_.value (room_type analysis)))
              (StyleType_.value (style analysis)))
    as [(ls & styles & key & Hrk & Hkey & Hget) | [Hget | Hget]].
  - destruct (db_wf_lookup db h styles key _ ls Hwf Hrk Hkey) as [ds Hds].
    set (new := customized_record analysis <$> ds).
    assert (Hds' : Forall2 (fun l d => (h ++ new) !! l = Some d /\ well_formed d) ls ds).
    { eapply Forall2_impl; [exact Hds|]. simpl. intros l d [Hl Hd].
      split; [by apply lookup_app_l_Some | done]. }
    exists (customized_suggestion analysis <$> ds), (h ++ new), ((h ++ new) ++ new).
    split; [exact (get_enhancement_suggestions_stored db analysis h ls ds Hget Hds)|].
    split; [exact (get_enhancement_suggestions_stored db analysis _ ls ds Hget Hds')|].
    rewrite <- app_assoc. by apply prefix_app_r.
  - exists [], (h ++ []), ((h ++ []) ++ []).
    split; [exact (get_enhancement_suggestions_stored db analysis h [] [] Hget
                     ltac:(constructor))|].
    split; [exact (get_enhancement_suggestions_stored db analysis _ [] [] Hget
                     ltac:(constructor))|].
    rewrite <- app_assoc. by apply prefix_app_r.
  - set (new := [EnhancementDatabase.default_record;
                 customized_record analysis EnhancementDatabase.default_record]).
    exists [customized_suggestion analysis EnhancementDatabase.default_record],
           (h ++ new), ((h ++ new) ++ new).
    split; [by apply get_enhancement_suggestions_default|].
    split; [by apply get_enhancement_suggestions_default|].
    rewrite <- app_assoc. by apply prefix_app_r.
Qed.

(** X19. The two calls that [process_image] makes for one analysis agree:
    on a well-formed store, [get_enhancement_suggestions] returns a list and
    [get_primary_suggestion], called afterwards on the store that the first
    call left, returns the text of the first suggestion of that same list
    whose priority is "high", else of the first whose priority is "medium",
    else of the first one, else the fixed string.  So the
    [enhancement_suggestion] of a response is always picked from its
    [suggestions]. *)
Theorem primary_suggestion_agrees (db : gmap string (gmap string (list loc)))
    (analysis : ImageAnalysisResult) (h : list (gmap string string)) :
  db_wf db h ->
  exists suggestions h1 text h2,
    get_enhancement_suggestions db analysis h = (Ok suggestions, h1) /\
    get_primary_suggestion db analysis h1 = (Ok text, h2) /\
    (forall s, first_such (fun s => priority s = "high") suggestions s ->
       text = suggestion s) /\
    ((forall s, s ∈ suggestions -> priority s <> "high") ->
     forall s, first_such (fun s => priority s = "medium") suggestions s ->
       text = suggestion s) /\
    ((forall s, s ∈ suggestions -> priority s <> "high" /\ priority s <> "medium") ->
     forall s rest, suggestions = s :: rest -> text = suggestion s) /\
    (suggestions = [] ->
     text = "Add modern furniture pieces, remove clutter and personal items") /\
    (suggestions <> [] -> exists s, s ∈ suggestions /\ text = suggestion s).
Proof.
  intros Hwf.
  destruct (get_enhancement_suggestions_twice db analysis h Hwf)
    as (suggestions & h1 & h2 & Hfirst & Hsecond & _).
  pose proof (selection_first suggestions) as Hsel. cbv zeta in Hsel.
  eexists suggestions, h1, _, h2. split; [exact Hfirst|]. split.
  { unfold get_primary_suggestion. rewrite (bind_Ok _ _ _ _ _ Hsecond).
    instantiate (1 :=
      match List.filter (fun s => String.eqb (priority s) "high") suggestions with
      | s :: _ => suggestion s
      | [] =>
          match List.filter (fun s => String.eqb (priority s) "medium") suggestions with
          | s :: _ => suggestion s
          | [] =>
              match suggestions with
              | s :: _ => suggestion s
              | [] => "Add modern furniture pieces, remove clutter and personal items"
              end
          end
      end).
    destruct (List.filter _ suggestions); [|done].
    destruct (List.filter _ suggestions); [|done].
    by destruct suggestions. }
  destruct Hsel as (H1 & H2 & H3 & H4).
  split; [exact H1|]. split; [exact H2|]. split; [exact H3|]. split; [exact H4|].
  intros Hne.
  destruct (List.filter (fun s => String.eqb (priority s) "high") suggestions)
    as [|s r] eqn:Eh.
  - destruct (List.filter (fun s => String.eqb (priority s) "medium") suggestions)
      as [|s r] eqn:Em.
    + destruct suggestions as [|s r]; [done|]. exists s. split; [left | done].
    + exists s. split; [|done].
      assert (Hin : s ∈ List.filter (fun s => String.eqb (priority s) "medium")
                                    suggestions) by (rewrite Em; left).
      by apply elem_of_bool_filter in Hin as [? _].
  - exists s. split; [|done].
    assert (Hin : s ∈ List.filter (fun s => String.eqb (priority s) "high")
                                  suggestions) by (rewrite Eh; left).
    by apply elem_of_bool_filter in Hin as [? _].
Qed.

Lemma primary_suggestion_agrees_witness :
  let analysis :=
    {| caption := "a rustic living room with wooden chairs";
       room_type := LIVING_ROOM; style := RUSTIC; confidence_scores := ∅;
       editable_areas := ["furniture: chair"];
       clutter_analysis :=
         {| has_clutter := false; has_empty_spaces := false;
            clutter_level := LOW; space_utilization := WELL_UTILIZED |} |} in
  db_wf kb_db kb_store /\
  exists suggestions h1 text h2,
    get_enhancement_suggestions kb_db analysis kb_store = (Ok suggestions, h1) /\
    get_primary_suggestion kb_db analysis h1 = (Ok text, h2) /\
    exists s, s ∈ suggestions /\ text = suggestion s.
Proof.
  intros analysis. split; [exact kb_well_formed|].
  destruct (primary_suggestion_agrees kb_db analysis kb_store kb_well_formed)
    as (suggestions & h1 & text & h2 & Hfirst & Hsecond & _ & _ & _ & _ & Hin).
  exists suggestions, h1, text, h2. split; [exact Hfirst|]. split; [exact Hsecond|].
  apply Hin. intros ->.
  assert (E : (fun r => match r with Ok l => length l | Raise _ => 0%nat end)
                (fst (get_enhancement_suggestions kb_db analysis kb_store)) = 4%nat)
    by (vm_compute; reflexivity).
  by rewrite Hfirst in E.
Defined.
